(** * Starflight renderer: the transform, projection and simulation core

    A shallow embedding of the numeric core of the five script variants
    [square.py], [square3.py], [square4.py], [square5.py] and [square6.py].

    Python floats are read as real numbers: every arithmetic operation is the
    exact one, so rounding, infinities and NaN are outside the model.  The
    three expressions at which rounding decides an outcome are given in
    binary64 as well (module [Binary64]).
    [math.cos] and [math.sin] are the real cosine and sine.  The calls to
    [random.random] are answered by an explicit stream of samples that the
    code consumes in order. *)

From Stdlib Require Import Floats Reals Lra Lia ZArith List Bool Sorted Permutation.
Import ListNotations.

Local Open Scope R_scope.

(** * Part I: the model *)

(** ** Python arithmetic on reals *)

Module Py.

(** [a < b] as a Python boolean. *)
Definition ltb (a b : R) : bool := if Rlt_dec a b then true else false.
(** [a > b]. *)
Definition gtb (a b : R) : bool := ltb b a.

(** [int(x)] on a float: truncation toward zero. *)
Definition int (x : R) : Z :=
  if Rle_dec 0 x then Int_part x else (- Int_part (- x))%Z.

(** [range(n)] runs [n] times, and not at all for a negative [n]. *)
Definition range_len (n : Z) : nat := Z.to_nat n.

(** [sum(xs)] starts from 0 and adds from the left; [len(xs)] as a number. *)
Definition sum (xs : list R) : R := fold_left Rplus xs 0.
Definition len {A} (xs : list A) : R := INR (length xs).

(** [min(xs)] and [max(xs)] of a non-empty sequence; [None] is the
    [ValueError] of an empty one. *)
Definition min (xs : list R) : option R :=
  match xs with
  | [] => None
  | x :: xs' => Some (fold_left Rmin xs' x)
  end.
Definition max (xs : list R) : option R :=
  match xs with
  | [] => None
  | x :: xs' => Some (fold_left Rmax xs' x)
  end.

(** [xs.sort(key=key, reverse=True)]: the sort is stable, and [reverse=True]
    keeps the original order of elements with equal keys.  An element is
    therefore placed in front of the first element whose key is not
    greater than its own. *)
Section Sort.
Context {A : Type} (key : A -> R).

Fixpoint insert_desc (a : A) (xs : list A) : list A :=
  match xs with
  | [] => [a]
  | b :: xs' => if ltb (key a) (key b) then b :: insert_desc a xs' else a :: xs
  end.

Fixpoint sort_reverse (xs : list A) : list A :=
  match xs with
  | [] => []
  | a :: xs' => insert_desc a (sort_reverse xs')
  end.

End Sort.

End Py.

(** ** Binary64

    The arithmetic that CPython runs, for the three expressions of the
    program whose outcome is decided at an exact boundary: the two divisors
    of the perspective divide that are not clipped, and the emission
    accumulator.  The operations are the IEEE 754 binary64 operations of
    the standard library's primitive floats; a decimal literal denotes the
    nearest binary64 value, as in Python. *)

Module Binary64.

#[local] Set Warnings "-inexact-float".

(** [int(x)] on a finite float: truncation toward zero. *)
Definition int (x : float) : Z :=
  match Prim2SF x with
  | S754_finite s m e =>
      let v := if (0 <=? e)%Z then (Z.pos m * 2 ^ e)%Z else (Z.pos m / 2 ^ (- e))%Z in
      if s then (- v)%Z else v
  | _ => 0%Z
  end.

(** The conversion of an [int] operand of a float operation, for an [int]
    below [2 ^ 63] in size. *)
Definition of_int (n : Z) : float :=
  if (n <? 0)%Z then PrimFloat.opp (PrimFloat.of_uint63 (Uint63.of_Z (- n)))
  else PrimFloat.of_uint63 (Uint63.of_Z n).

(** square.py, [Star.project]: the divisor [200 - self.z + 0.001]. *)
Definition star_divisor (z : float) : float := (200 - z + 0.001)%float.

(** square4.py, [project_point]: the divisor [camera_z - z + 0.001]. *)
Definition project_point_divisor (camera_z z : float) : float :=
  (camera_z - z + 0.001)%float.

(** square6.py, [ParticleSystem.update], lines 667, 669 and 685: the number
    of particles asked for and the accumulator that is carried on. *)
Definition accumulate (time_since_last_emission dt emission_rate : float) : Z * float :=
  let time_since_last_emission := (time_since_last_emission + dt)%float in
  let particles_to_emit := int (time_since_last_emission * emission_rate)%float in
  (particles_to_emit,
   (time_since_last_emission - of_int particles_to_emit / emission_rate)%float).

End Binary64.

(** ** The random source

    [random.random()] returns the next sample of the stream;
    [random.uniform(a, b)] is [a + (b - a) * random()], as in CPython. *)

Module Random.

Record rng := mk_rng { samples : nat -> R; cursor : nat }.

(** A computation that draws from the random source. *)
Definition M (A : Type) : Type := rng -> A * rng.

Definition ret {A} (a : A) : M A := fun g => (a, g).
Definition bind {A B} (m : M A) (k : A -> M B) : M B :=
  fun g => let (a, g') := m g in k a g'.

Definition random : M R :=
  fun g => (samples g (cursor g), mk_rng (samples g) (S (cursor g))).

Definition uniform (a b : R) : M R :=
  bind random (fun u => ret (a + (b - a) * u)).

(** [random.randint(a, b)] and [random.choice(xs)], read from the same
    stream: sample [u] selects [a + int(u * (b - a + 1))], respectively the
    element with index [int(u * len(xs))].  How CPython derives these draws
    from its generator is outside the model. *)
Definition randint (a b : Z) : M Z :=
  bind random (fun u => ret (a + Py.int (u * IZR (b - a + 1)))%Z).

Definition choice {A} (default : A) (xs : list A) : M A :=
  bind random (fun u => ret (nth (Z.to_nat (Py.int (u * Py.len xs))) xs default)).

(** Every sample lies in the half-open unit interval. *)
Definition unit_samples (g : rng) : Prop := forall n, 0 <= samples g n < 1.

(** The source that answers every draw with the same sample. *)
Definition constant (u : R) : rng := mk_rng (fun _ => u) 0.

End Random.

Notation "x <- m ;; k" := (Random.bind m (fun x => k))
  (at level 61, m at next level, right associativity).

(** Points and colours. *)
Definition point3 : Type := (R * R * R)%type.
Definition point2 : Type := (R * R)%type.
Definition colour : Type := (Z * Z * Z)%type.

(** ** square.py: the first starfield *)

Module Square.

Definition WIDTH : Z := 800.
Definition HEIGHT : Z := 600.

Module Star.

Record t := mk { x : R; y : R; z : R; size : R }.

Definition init : Random.M t :=
  x <- Random.uniform (-1000) 1000 ;;
  y <- Random.uniform (-1000) 1000 ;;
  z <- Random.uniform 1 1000 ;;
  size <- Random.uniform 1 3 ;;
  Random.ret (mk x y z size).

Definition update (self : t) : Random.M t :=
  let self := mk (x self) (y self) (z self - 5) (size self) in
  if Py.ltb (z self) 1 then
    let self := mk (x self) (y self) 1000 (size self) in
    x' <- Random.uniform (-1000) 1000 ;;
    y' <- Random.uniform (-1000) 1000 ;;
    Random.ret (mk x' y' (z self) (size self))
  else Random.ret self.

(** The divisor of the perspective factor in [project]. *)
Definition denominator (self : t) : R := 200 - z self + 0.001.

(** [project] up to the rectangle handed to [pygame.draw.rect];
    [None] is the [ZeroDivisionError] of [200 / 0.0]. *)
Definition project (self : t) : option (R * R * R * R) :=
  if Req_dec_T (denominator self) 0 then None
  else
    let factor := 200 / denominator self in
    let x := x self * factor + IZR (WIDTH / 2) in
    let y := y self * factor + IZR (HEIGHT / 2) in
    let size := size self * factor in
    Some (x, y, size, size).

(** [n] calls of [update] in a row. *)
Fixpoint updates (n : nat) (self : t) : Random.M t :=
  match n with
  | O => Random.ret self
  | S n' => self <- update self ;; updates n' self
  end.

End Star.

End Square.

(** ** square4.py *)

Module Square4.

Definition rotate_point_3d (point : point3) (angle_x angle_y angle_z : R) : point3 :=
  let '(x, y, z) := point in
  let (cos_x, sin_x) := (cos angle_x, sin angle_x) in
  let (y, z) := (y * cos_x - z * sin_x, y * sin_x + z * cos_x) in
  let (cos_y, sin_y) := (cos angle_y, sin angle_y) in
  let (x, z) := (x * cos_y - z * sin_y, x * sin_y + z * cos_y) in
  let (cos_z, sin_z) := (cos angle_z, sin angle_z) in
  let (x, y) := (x * cos_z - y * sin_z, x * sin_z + y * cos_z) in
  (x, y, z).

(** [None] is the [ZeroDivisionError] of a zero divisor. *)
Definition project_point (point : point3) (projection_center_x projection_center_y : R)
    (camera_z : R) : option point2 :=
  let '(x, y, z) := point in
  if Req_dec_T (camera_z - z + 0.001) 0 then None
  else
    let factor := camera_z / (camera_z - z + 0.001) in
    Some (x * factor + projection_center_x, y * factor + projection_center_y).

Definition WIDTH : Z := 800.
Definition HEIGHT : Z := 600.

Module Star.

Record t := mk { x : R; y : R; z : R; initial_size : R; color : colour }.

Definition update (speed_multiplier : R) (self : t) : Random.M t :=
  let self := mk (x self) (y self) (z self - 5 * speed_multiplier)
                 (initial_size self) (color self) in
  if Py.ltb (z self) 1 then
    x' <- Random.uniform (- IZR WIDTH) (IZR WIDTH) ;;
    y' <- Random.uniform (- IZR HEIGHT) (IZR HEIGHT) ;;
    initial_size' <- Random.uniform 1 3 ;;
    Random.ret (mk x' y' 1500 initial_size' (color self))
  else Random.ret self.

(** What [project] draws: the centre and the radius of the circle and the
    fourth colour component. *)
Record circle := mk_circle { cx : Z; cy : Z; radius : Z; alpha : Z }.

(** [project]: [None] is the [ZeroDivisionError] of a zero divisor,
    [Some None] a star that is not drawn. *)
Definition project (self : t) : option (option circle) :=
  let projection_strength := 300 in
  if Req_dec_T (projection_strength - z self + 0.001) 0 then None
  else
    let factor := projection_strength / (projection_strength - z self + 0.001) in
    let x := x self * factor + IZR (WIDTH / 2) in
    let y := y self * factor + IZR (HEIGHT / 2) in
    let size := initial_size self * factor in
    if Py.ltb 0 x && Py.ltb x (IZR WIDTH) && (Py.ltb 0 y && Py.ltb y (IZR HEIGHT))
       && Py.gtb size 0.5
    then
      let alpha :=
        Z.max 0 (Z.min 255 (Py.int (255 * (z self / projection_strength) * 2))) in
      Some (Some (mk_circle (Py.int x) (Py.int y) (Py.int (size / 2)) (255 - alpha)))
    else Some None.

End Star.

End Square4.

(** ** The mesh entities of square5.py and square6.py

    [Base3DObject] and its subclasses as the compositor reads them: a pose, a
    list of local vertices, a list of faces (tuples of vertex indices) and
    the [get_face_color] method, whose result also depends on the clock and
    is kept as a function of the face index and the transformed vertices. *)

Module Mesh.

Record t := mk {
  x : R; y : R; z : R;
  scale : R;
  vertices : list point3;
  faces : list (list nat);
  angle_x : R; angle_y : R; angle_z : R;
  get_face_color : nat -> list point3 -> colour
}.

(** A drawable polygon: the tuple [(face_avg_z, color, points_2d)]. *)
Definition polygon : Type := (R * colour * list point2)%type.

Definition depth_key (p : polygon) : R := fst (fst p).
Definition points_2d (p : polygon) : list point2 := snd p.

(** [[xs[i] for i in idxs]]; [None] is the [IndexError] of an index past
    the end. *)
Fixpoint index_all {A} (xs : list A) (idxs : list nat) : option (list A) :=
  match idxs with
  | [] => Some []
  | i :: idxs' =>
      match nth_error xs i, index_all xs idxs' with
      | Some a, Some r => Some (a :: r)
      | _, _ => None
      end
  end.

(** The list of values when none of them is [None]. *)
Fixpoint all_not_none {A} (xs : list (option A)) : option (list A) :=
  match xs with
  | [] => Some []
  | Some a :: xs' =>
      match all_not_none xs' with Some r => Some (a :: r) | None => None end
  | None :: _ => None
  end.

(** [enumerate]. *)
Fixpoint enumerate_from {A} (i : nat) (xs : list A) : list (nat * A) :=
  match xs with
  | [] => []
  | a :: xs' => (i, a) :: enumerate_from (S i) xs'
  end.
Definition enumerate {A} (xs : list A) : list (nat * A) := enumerate_from 0 xs.

(** A loop whose body may raise: the first [None] aborts the loop. *)
Fixpoint for_each {A B} (body : A -> option (list B)) (xs : list A) : option (list B) :=
  match xs with
  | [] => Some []
  | a :: xs' =>
      match body a with
      | None => None
      | Some r =>
          match for_each body xs' with
          | None => None
          | Some rs => Some (r ++ rs)
          end
      end
  end.

(** The part of the draw loop that decides whether a sorted polygon is
    drawn: at least three points and a positive bounding box. *)
Definition is_drawn (p : polygon) : bool :=
  let pts := points_2d p in
  if (3 <=? length pts)%nat then
    match Py.min (map fst pts), Py.max (map fst pts),
          Py.min (map snd pts), Py.max (map snd pts) with
    | Some min_x, Some max_x, Some min_y, Some max_y =>
        let surf_width := (Py.int (max_x - min_x) + 2)%Z in
        let surf_height := (Py.int (max_y - min_y) + 2)%Z in
        (0 <? surf_width)%Z && (0 <? surf_height)%Z
    | _, _, _, _ => false
    end
  else false.

(** The polygons in the order in which the frame draws them. *)
Definition draw_order (all_polygons_to_draw : list polygon) : list polygon :=
  filter is_drawn (Py.sort_reverse depth_key all_polygons_to_draw).

(** [Base3DObject.get_face_color] for an object of colour [color] with
    [n_faces] faces. *)
Definition base_face_color (color : colour) (n_faces : nat) (face_idx : nat)
    (transformed_vertices : list point3) : colour :=
  let light_direction : point3 := (1, 1, -1) in
  let normals : list point3 :=
    [(0, 0, -1); (0, 0, 1); (0, -1, 0); (0, 1, 0); (1, 0, 0); (-1, 0, 0)] in
  let face_normal := nth face_idx normals (0, 0, 0) in
  let '(l0, l1, l2) := light_direction in
  let light_dir_len := sqrt (l0 ^ 2 + l1 ^ 2 + l2 ^ 2) in
  let norm_light_direction : point3 :=
    if Py.gtb light_dir_len 0
    then (l0 / light_dir_len, l1 / light_dir_len, l2 / light_dir_len)
    else (0, 0, 0) in
  let '(n0, n1, n2) := face_normal in
  let '(d0, d1, d2) := norm_light_direction in
  let dot_product := n0 * d0 + n1 * d1 + n2 * d2 in
  let light_intensity := Rmax 0.2 (Rmin 1.0 dot_product) in
  let '(base_r, base_g, base_b) := color in
  let gradient_factor := 1.0 - (INR face_idx / INR n_faces * 0.2) in
  let final_r := Py.int (IZR base_r * light_intensity * gradient_factor) in
  let final_g := Py.int (IZR base_g * light_intensity * gradient_factor) in
  let final_b := Py.int (IZR base_b * light_intensity * gradient_factor) in
  (Z.max 0 (Z.min 255 final_r), Z.max 0 (Z.min 255 final_g),
   Z.max 0 (Z.min 255 final_b)).

(** [Cube(position, size, color)]. *)
Definition Cube (position : point3) (size : R) (color : colour) : t :=
  let '(px, py, pz) := position in
  let s := 0.5 in
  let faces := [[0; 1; 2; 3]; [4; 5; 6; 7]; [0; 1; 5; 4];
                [2; 3; 7; 6]; [1; 2; 6; 5]; [0; 3; 7; 4]]%nat in
  mk px py pz size
     [(- s, - s, - s); (s, - s, - s); (s, s, - s); (- s, s, - s);
      (- s, - s, s); (s, - s, s); (s, s, s); (- s, s, s)]
     faces 0 0 0
     (base_face_color color (length faces)).

(** [Pyramid(position, size, color)]. *)
Definition Pyramid (position : point3) (size : R) (color : colour) : t :=
  let '(px, py, pz) := position in
  let s := 0.5 in
  let faces := [[0; 1; 2]; [0; 2; 3]; [0; 3; 4]; [0; 4; 1]; [1; 2; 3; 4]]%nat in
  mk px py pz size
     [(0, s, 0); (- s, - s, - s); (s, - s, - s); (s, - s, s); (- s, - s, s)]
     faces 0 0 0
     (base_face_color color (length faces)).

(** The assignment of the three rotation angles. *)
Definition with_angles (self : t) (angle_x' angle_y' angle_z' : R) : t :=
  mk (x self) (y self) (z self) (scale self) (vertices self) (faces self)
     angle_x' angle_y' angle_z' (get_face_color self).

(** [Cube.update], [Pyramid.update] and [ShipModel.update]. *)
Definition Cube_update (dt : R) (self : t) : t :=
  with_angles self (angle_x self + 0.05 * dt) (angle_y self + 0.07 * dt)
    (angle_z self + 0.03 * dt).

Definition Pyramid_update (dt : R) (self : t) : t :=
  with_angles self (angle_x self + 0.04 * dt) (angle_y self + 0.06 * dt)
    (angle_z self).

Definition ShipModel_update (dt : R) (self : t) : t :=
  with_angles self (angle_x self) (angle_y self + 0.002 * dt) (angle_z self).

(** One block of the merge in [ShipModel.__init__]: the vertices of a part
    are appended after [place] has scaled and moved them, and its faces are
    appended with their indices shifted by the number of vertices that were
    there before. *)
Definition add_part (place : point3 -> point3) (verts : list point3)
    (part_faces : list (list nat)) (all : list point3 * list (list nat))
    : list point3 * list (list nat) :=
  let (all_vertices, all_faces) := all in
  let offset := length all_vertices in
  (all_vertices ++ map place verts,
   all_faces ++ map (map (fun v => (v + offset)%nat)) part_faces).

Definition box_faces : list (list nat) :=
  [[0; 1; 2; 3]; [4; 5; 6; 7]; [0; 1; 5; 4]; [2; 3; 7; 6]; [1; 2; 6; 5]; [0; 3; 7; 4]]%nat.

Definition main_body_verts : list point3 :=
  [(-0.5, -0.2, -1.0); (0.5, -0.2, -1.0); (0.5, 0.2, -1.0); (-0.5, 0.2, -1.0);
   (-0.5, -0.2, 1.0); (0.5, -0.2, 1.0); (0.5, 0.2, 1.0); (-0.5, 0.2, 1.0)].
Definition main_body_faces : list (list nat) := box_faces.

Definition left_wing_verts : list point3 :=
  [(-1.5, 0.0, -0.2); (-0.5, 0.0, -0.2); (-0.5, 0.0, 0.2); (-1.5, 0.0, 0.2);
   (-1.5, -0.1, -0.2); (-0.5, -0.1, -0.2); (-0.5, -0.1, 0.2); (-1.5, -0.1, 0.2)].
Definition left_wing_faces : list (list nat) := box_faces.

Definition right_wing_verts : list point3 :=
  [(0.5, 0.0, -0.2); (1.5, 0.0, -0.2); (1.5, 0.0, 0.2); (0.5, 0.0, 0.2);
   (0.5, -0.1, -0.2); (1.5, -0.1, -0.2); (1.5, -0.1, 0.2); (0.5, -0.1, 0.2)].
Definition right_wing_faces : list (list nat) := box_faces.

Definition cockpit_verts : list point3 :=
  [(0, 0.5, -1.0); (-0.3, 0.1, -1.2); (0.3, 0.1, -1.2); (0.3, 0.1, -0.8);
   (-0.3, 0.1, -0.8)].
Definition cockpit_faces : list (list nat) :=
  [[0; 1; 2]; [0; 2; 3]; [0; 3; 4]; [0; 4; 1]; [1; 2; 3; 4]]%nat.

Definition body_ratio : R := 1.5.
Definition wing_ratio : R := 0.5.
Definition cockpit_ratio : R := 0.7.

(** The merged vertex and face lists of the ship. *)
Definition ship_parts : list point3 * list (list nat) :=
  let all := ([], []) in
  let all :=
    add_part (fun '(v0, v1, v2) => (v0 * body_ratio, v1 * body_ratio, v2 * body_ratio))
      main_body_verts main_body_faces all in
  let all :=
    add_part (fun '(v0, v1, v2) => (v0 * wing_ratio - 1.0, v1 * wing_ratio, v2 * wing_ratio))
      left_wing_verts left_wing_faces all in
  let all :=
    add_part (fun '(v0, v1, v2) => (v0 * wing_ratio + 1.0, v1 * wing_ratio, v2 * wing_ratio))
      right_wing_verts right_wing_faces all in
  add_part (fun '(v0, v1, v2) =>
              (v0 * cockpit_ratio, v1 * cockpit_ratio + 0.3, v2 * cockpit_ratio - 0.5))
    cockpit_verts cockpit_faces all.

(** The base colour that [ShipModel.get_face_color] attributes to a face. *)
Definition ship_base_color (face_idx : nat) : colour :=
  let main_body_faces_end := length main_body_faces in
  let left_wing_faces_end := (main_body_faces_end + length left_wing_faces)%nat in
  let right_wing_faces_end := (left_wing_faces_end + length right_wing_faces)%nat in
  if (face_idx <? main_body_faces_end)%nat then (150, 150, 255)%Z
  else if (face_idx <? left_wing_faces_end)%nat then (100, 100, 180)%Z
  else if (face_idx <? right_wing_faces_end)%nat then (100, 100, 180)%Z
  else (80, 80, 120)%Z.

(** [ShipModel.get_face_color]; [now] is the reading of [time.time()]. *)
Definition ship_face_color (now : R) (face_idx : nat)
    (transformed_vertices : list point3) : colour :=
  let '(base_r, base_g, base_b) := ship_base_color face_idx in
  let light_intensity := 0.8 + sin (now * 3 + INR face_idx * 0.5) * 0.2 in
  let light_intensity := Rmax 0.5 (Rmin 1.0 light_intensity) in
  let final_r := Py.int (IZR base_r * light_intensity) in
  let final_g := Py.int (IZR base_g * light_intensity) in
  let final_b := Py.int (IZR base_b * light_intensity) in
  (Z.max 0 (Z.min 255 final_r), Z.max 0 (Z.min 255 final_g),
   Z.max 0 (Z.min 255 final_b)).

(** [ShipModel(position, scale, color)]; the clock is read once per
    coloured face, [now i] being the reading for face [i]. *)
Definition ShipModel (position : point3) (scale : R) (color : colour)
    (now : nat -> R) : t :=
  let '(px, py, pz) := position in
  mk px py pz scale (fst ship_parts) (snd ship_parts) 0 0 0
     (fun face_idx => ship_face_color (now face_idx) face_idx).

End Mesh.

(** ** square.py and square3.py: the cubes *)

Module SquareScene.

Import Square.

Definition cube_vertices : list point3 :=
  let size := 100 in
  [(- size, - size, - size); (size, - size, - size); (size, size, - size);
   (- size, size, - size); (- size, - size, size); (size, - size, size);
   (size, size, size); (- size, size, size)].

Definition cube_edges : list (nat * nat) :=
  [(0, 1); (1, 2); (2, 3); (3, 0); (4, 5); (5, 6); (6, 7); (7, 4);
   (0, 4); (1, 5); (2, 6); (3, 7)]%nat.

(** The body of the loop over the vertices: the three rotations and the
    projection; [None] is the [ZeroDivisionError] of a zero divisor. *)
Definition project_vertex (angle_x angle_y angle_z : R) (v : point3) : option point2 :=
  let '(x, y, z) := v in
  let (cos_x, sin_x) := (cos angle_x, sin angle_x) in
  let (y, z) := (y * cos_x - z * sin_x, y * sin_x + z * cos_x) in
  let (cos_y, sin_y) := (cos angle_y, sin angle_y) in
  let (x, z) := (x * cos_y - z * sin_y, x * sin_y + z * cos_y) in
  let (cos_z, sin_z) := (cos angle_z, sin angle_z) in
  let (x, y) := (x * cos_z - y * sin_z, x * sin_z + y * cos_z) in
  if Req_dec_T (200 - z + 0.001) 0 then None
  else
    let factor := 200 / (200 - z + 0.001) in
    let x_proj := x * factor + IZR (WIDTH / 2) in
    let y_proj := y * factor + IZR (HEIGHT / 2) in
    Some (x_proj, y_proj).

(** The lines that [draw_rotating_cube] draws, each with its two end
    points; [None] is an exception. *)
Definition draw_rotating_cube (angle_x angle_y angle_z : R)
    : option (list (point2 * point2)) :=
  match Mesh.all_not_none (map (project_vertex angle_x angle_y angle_z) cube_vertices) with
  | None => None
  | Some projected =>
      Mesh.for_each
        (fun '(start, end_) =>
           match nth_error projected start, nth_error projected end_ with
           | Some p, Some q => Some [(p, q)]
           | _, _ => None
           end)
        cube_edges
  end.

End SquareScene.

Module Square3.

Definition WIDTH : Z := 800.
Definition HEIGHT : Z := 600.

Definition cube_vertices (scale : R) : list point3 :=
  let size := 100 * scale in
  [(- size, - size, - size); (size, - size, - size); (size, size, - size);
   (- size, size, - size); (- size, - size, size); (size, - size, size);
   (size, size, size); (- size, size, size)].

Definition cube_faces : list (list nat) :=
  [[0; 1; 2; 3]; [4; 5; 6; 7]; [0; 1; 5; 4]; [2; 3; 7; 6]; [1; 2; 6; 5]; [0; 3; 7; 4]]%nat.

(** The body of the loop over the vertices of [draw_3d_cube]. *)
Definition project_vertex (angle_x angle_y angle_z : R) (v : point3) : option point2 :=
  let '(x, y, z) := v in
  let (cos_x, sin_x) := (cos angle_x, sin angle_x) in
  let (y, z) := (y * cos_x - z * sin_x, y * sin_x + z * cos_x) in
  let (cos_y, sin_y) := (cos angle_y, sin angle_y) in
  let (x, z) := (x * cos_y - z * sin_y, x * sin_y + z * cos_y) in
  let (cos_z, sin_z) := (cos angle_z, sin angle_z) in
  let (x, y) := (x * cos_z - y * sin_z, x * sin_z + y * cos_z) in
  if Req_dec_T (200 - z + 0.001) 0 then None
  else
    let factor := 200 / (200 - z + 0.001) in
    Some (x * factor + IZR (WIDTH / 2 + 200), y * factor + IZR (HEIGHT / 2)).

(** The polygons that [draw_3d_cube] draws, in drawing order; [None] is an
    exception. *)
Definition draw_3d_cube (angle_x angle_y angle_z scale : R) : option (list (list point2)) :=
  match Mesh.all_not_none
          (map (project_vertex angle_x angle_y angle_z) (cube_vertices scale)) with
  | None => None
  | Some projected =>
      Mesh.for_each
        (fun face =>
           match Mesh.index_all projected face with
           | None => None
           | Some points => Some [points]
           end)
        cube_faces
  end.

End Square3.

(** ** square4.py: [draw_3d_cube] *)

Module Square4Scene.

Import Square4.

Definition cube_faces : list (list nat) :=
  [[0; 1; 2; 3]; [4; 5; 6; 7]; [0; 1; 5; 4]; [2; 3; 7; 6]; [1; 2; 6; 5]; [0; 3; 7; 4]]%nat.

Definition cube_colors : list colour :=
  [(0, 200, 255); (0, 180, 220); (0, 160, 200); (0, 140, 180); (0, 120, 160);
   (0, 100, 140)]%Z.

(** The vertices of the cube after the offset, before any rotation. *)
Definition cube_vertices (scale offset_x offset_y offset_z : R) : list point3 :=
  let size := 100 * scale in
  map (fun '(v0, v1, v2) => (v0 + offset_x, v1 + offset_y, v2 + offset_z))
      [(- size, - size, - size); (size, - size, - size); (size, size, - size);
       (- size, size, - size); (- size, - size, size); (size, - size, size);
       (size, size, size); (- size, size, size)].

(** The list [face_z_values] before it is sorted; [None] is an
    [IndexError] or the [ZeroDivisionError] of an empty face. *)
Definition face_z_values (vertices : list point3) : option (list (R * nat)) :=
  Mesh.for_each
    (fun '(i, face) =>
       match Mesh.index_all vertices face with
       | None => None
       | Some vs =>
           if (length face =? 0)%nat then None
           else Some [(Py.sum (map (fun v : point3 => snd v) vs) / Py.len face, i)]
       end)
    (Mesh.enumerate cube_faces).

(** The colour of a face after the lighting of [draw_3d_cube]. *)
Definition lit_color (face_idx : nat) : colour :=
  let '(c0, c1, c2) := nth face_idx cube_colors (0, 0, 0)%Z in
  let light_source : Z * Z * Z := (1, 1, 1)%Z in
  let '(normal_x, normal_y, normal_z) :=
    match face_idx with
    | 0%nat => (0, 0, -1)%Z
    | 1%nat => (0, 0, 1)%Z
    | 2%nat => (0, -1, 0)%Z
    | 3%nat => (0, 1, 0)%Z
    | 4%nat => (1, 0, 0)%Z
    | 5%nat => (-1, 0, 0)%Z
    | _ => (0, 0, 0)%Z
    end in
  let '(l0, l1, l2) := light_source in
  let dot_product := (normal_x * l0 + normal_y * l1 + normal_z * l2)%Z in
  let light_factor := Rmax 0.3 (IZR dot_product) in
  (Py.int (IZR c0 * light_factor), Py.int (IZR c1 * light_factor),
   Py.int (IZR c2 * light_factor)).

(** The test [0 <= p[0] < WIDTH and 0 <= p[1] < HEIGHT]. *)
Definition on_screen (p : point2) : bool :=
  negb (Py.ltb (fst p) 0) && Py.ltb (fst p) (IZR WIDTH)
  && (negb (Py.ltb (snd p) 0) && Py.ltb (snd p) (IZR HEIGHT)).

(** The polygons that [draw_3d_cube] draws, in drawing order, each with the
    index of its face and its lit colour. *)
Definition draw_3d_cube (angle_x angle_y angle_z scale offset_x offset_y offset_z
    camera_z : R) : option (list (nat * colour * list point2)) :=
  let vertices := cube_vertices scale offset_x offset_y offset_z in
  match Mesh.all_not_none
          (map (fun v =>
                  project_point (rotate_point_3d v angle_x angle_y angle_z)
                    (IZR (WIDTH / 2 + 200)) (IZR (HEIGHT / 2)) camera_z)
               vertices) with
  | None => None
  | Some projected =>
      match face_z_values vertices with
      | None => None
      | Some values =>
          Mesh.for_each
            (fun '(avg_z, face_idx) =>
               match nth_error cube_faces face_idx with
               | None => None
               | Some face =>
                   match Mesh.index_all projected face with
                   | None => None
                   | Some points =>
                       if forallb on_screen points
                       then Some [(face_idx, lit_color face_idx, points)]
                       else Some []
                   end
               end)
            (Py.sort_reverse (fun x : R * nat => fst x) values)
      end
  end.

(** *** square4.py: [draw_ground_plane] *)

(** [range(a, b)]. *)
Definition range (a b : Z) : list Z :=
  map (fun n => (a + Z.of_nat n)%Z) (seq 0 (Z.to_nat (b - a))).

(** A call of [pygame.draw.line]: the colour and the two end points. *)
Record line := mk_line { line_color : colour; x1 : Z; y1 : Z; x2 : Z; y2 : Z }.

Definition num_lines : Z := 30.
Definition spacing : Z := 40.
Definition perspective_offset : Z := 200.

(** The height [y_proj] of the horizontal line with index [j]; [None] is
    the [ZeroDivisionError] of a zero divisor. *)
Definition y_proj (horizon_y j : Z) : option R :=
  let z_depth := (j * spacing * 2)%Z in
  if Req_dec_T (IZR (perspective_offset + z_depth) + 0.001) 0 then None
  else
    let factor := IZR perspective_offset / (IZR (perspective_offset + z_depth) + 0.001) in
    Some (IZR horizon_y + (IZR (j * spacing) * 0.5) * factor).

(** The body of the inner loop of [draw_ground_plane]. *)
Definition horizontal_line (horizon_y j : Z) : option (list line) :=
  match y_proj horizon_y j with
  | None => None
  | Some y =>
      if Py.ltb y (IZR HEIGHT) then
        let line_color_h_val := Z.max 20 (100 - j * 4) in
        let line_color_h :=
          (line_color_h_val, line_color_h_val + 10, line_color_h_val + 30)%Z in
        Some [mk_line line_color_h 0 (Py.int y) WIDTH (Py.int y)]
      else Some []
  end.

(** The body of the outer loop: the horizontal lines, then the vertical
    line with index [i]. *)
Definition grid_column (horizon_y i : Z) : option (list line) :=
  let color_val := Z.max 30 (80 - Py.int (IZR (Z.abs i) * 1.5)) in
  let line_color := (color_val, color_val, color_val + 20)%Z in
  let x1_vert := (WIDTH / 2 + i * spacing)%Z in
  let y1_vert := horizon_y in
  let y2_vert := HEIGHT in
  match Mesh.for_each (horizontal_line horizon_y) (range 0 (num_lines + 1)) with
  | None => None
  | Some horizontal => Some (horizontal ++ [mk_line line_color x1_vert y1_vert x1_vert y2_vert])
  end.

(** The lines that [draw_ground_plane] draws, in drawing order. *)
Definition draw_ground_plane (camera_y_offset : Z) : option (list line) :=
  let horizon_y := (HEIGHT / 2 + camera_y_offset)%Z in
  Mesh.for_each (grid_column horizon_y) (range (- num_lines) (num_lines + 1)).

End Square4Scene.

(** ** square6.py *)

Module Square6.

Definition WIDTH : Z := 1200.
Definition HEIGHT : Z := 800.
Definition MAX_STAR_SIZE : R := 5.
Definition MIN_STAR_SIZE : R := 0.5.
Definition STAR_PROJECTION_DISTANCE : R := 400.
Definition CAMERA_DEFAULT_Z : R := 300.
Definition CAMERA_NEAR_CLIP : R := 1.0.
Definition CAMERA_FAR_CLIP : R := 6000.0.
Definition WORLD_SIZE : R := 3000.

Definition NUM_STARS : nat := 700.
Definition NUM_ASTEROIDS : nat := 10.
Definition NUM_NEBULA_BLOBS : nat := 5.
Definition COLOR_WHITE : colour := (255, 255, 255)%Z.
Definition COLOR_LIGHT_GREY : colour := (180, 180, 190)%Z.
Definition COLOR_CYAN_LIGHT : colour := (0, 200, 255)%Z.
Definition COLOR_BLUE_DEEP : colour := (20, 20, 60)%Z.
Definition COLOR_PURPLE : colour := (100, 0, 150)%Z.
Definition COLOR_TEAL : colour := (0, 150, 150)%Z.

Definition lerp (a b t : R) : R := a + (b - a) * t.

Definition rotate_point_3d (point : point3) (angle_x angle_y angle_z : R) : point3 :=
  let '(x, y, z) := point in
  let (cos_x, sin_x) := (cos angle_x, sin angle_x) in
  let (y, z) := (y * cos_x - z * sin_x, y * sin_x + z * cos_x) in
  let (cos_y, sin_y) := (cos angle_y, sin angle_y) in
  let (x, z) := (x * cos_y + z * sin_y, - x * sin_y + z * cos_y) in
  let (cos_z, sin_z) := (cos angle_z, sin angle_z) in
  let (x, y) := (x * cos_z - y * sin_z, x * sin_z + y * cos_z) in
  (x, y, z).

(** [project_point] returns [None] for a clipped point, and otherwise the
    tuple [(projected_x, projected_y, size_factor, z)]. *)
Definition project_point (point : point3) (camera_x camera_y camera_z : R)
    (screen_center_x screen_center_y : R) (projection_distance : R)
    : option (R * R * R * R) :=
  let '(px, py, pz) := point in
  let '(x, y, z) := (px - camera_x, py - camera_y, pz - camera_z) in
  if Py.ltb z CAMERA_NEAR_CLIP || Py.gtb z CAMERA_FAR_CLIP then None
  else
    let factor := projection_distance / z in
    let projected_x := x * factor + screen_center_x in
    let projected_y := y * factor + screen_center_y in
    let normalized_z := (z - CAMERA_NEAR_CLIP) / (CAMERA_FAR_CLIP - CAMERA_NEAR_CLIP) in
    let size_factor := Rmax 0.1 (1.0 - normalized_z) in
    Some (projected_x, projected_y, size_factor, z).

Module Star.

Record t := mk {
  initial_size : R; base_color : colour;
  x : R; y : R; z : R;
  size : R; trail_length : R; trail_alpha : R
}.

Definition with_z (self : t) (z' : R) : t :=
  mk (initial_size self) (base_color self) (x self) (y self) z'
     (size self) (trail_length self) (trail_alpha self).

Definition with_trail (self : t) (trail_length' trail_alpha' size' : R) : t :=
  mk (initial_size self) (base_color self) (x self) (y self) (z self)
     size' trail_length' trail_alpha'.

Definition reset (self : t) : Random.M t :=
  x' <- Random.uniform (- WORLD_SIZE) WORLD_SIZE ;;
  y' <- Random.uniform (- WORLD_SIZE) WORLD_SIZE ;;
  z' <- Random.uniform (CAMERA_DEFAULT_Z + 100) (CAMERA_FAR_CLIP - 100) ;;
  Random.ret (mk (initial_size self) (base_color self) x' y' z'
                 (initial_size self) 0 255).

(** [Star()]: the attributes that [reset] assigns do not exist before it
    is called and stand at 0 here. *)
Definition init : Random.M t :=
  initial_size <- Random.uniform MIN_STAR_SIZE MAX_STAR_SIZE ;;
  base_color <- Random.choice COLOR_WHITE
                  [COLOR_WHITE; COLOR_LIGHT_GREY; COLOR_CYAN_LIGHT] ;;
  reset (mk initial_size base_color 0 0 0 0 0 0).

Definition update (delta_z warp_factor : R) (self : t) : Random.M t :=
  let self := with_z self (z self + delta_z) in
  let self := with_z self (z self - delta_z * warp_factor * 20) in
  let self :=
    if Py.gtb warp_factor 0.1 then
      with_trail self
        (lerp (trail_length self) (MAX_STAR_SIZE * 30 * warp_factor) 0.1)
        (lerp (trail_alpha self) 50 0.1)
        (lerp (size self) (MAX_STAR_SIZE * 3) 0.1)
    else
      with_trail self
        (lerp (trail_length self) 0 0.1)
        (lerp (trail_alpha self) 255 0.1)
        (lerp (size self) (initial_size self) 0.1) in
  if Py.ltb (z self) CAMERA_NEAR_CLIP || Py.gtb (z self) CAMERA_FAR_CLIP then
    self <- reset self ;;
    if Py.gtb (z self) CAMERA_FAR_CLIP then
      u <- Random.uniform 0 (WORLD_SIZE / 2) ;;
      Random.ret (with_z self (CAMERA_NEAR_CLIP + WORLD_SIZE + u))
    else
      u <- Random.uniform 0 (WORLD_SIZE / 2) ;;
      Random.ret (with_z self (CAMERA_FAR_CLIP - u))
  else Random.ret self.

(** A sequence of [update] calls, one per [(delta_z, warp_factor)]. *)
Fixpoint updates (calls : list (R * R)) (self : t) : Random.M t :=
  match calls with
  | [] => Random.ret self
  | (delta_z, warp_factor) :: calls' =>
      self <- update delta_z warp_factor self ;; updates calls' self
  end.


End Star.

Module Particle.

Record t := mk {
  x : R; y : R; z : R;
  color : colour; size : R;
  vx : R; vy : R; vz : R;
  lifetime : R; current_lifetime : R
}.

(** [Particle(x, y, z, color, size, velocity, lifetime)]. *)
Definition init (x y z : R) (color : colour) (size : R) (velocity : point3)
    (lifetime : R) : t :=
  let '(vx, vy, vz) := velocity in
  mk x y z color size vx vy vz lifetime lifetime.

Definition update (dt camera_delta_z : R) (self : t) : t :=
  mk (x self + vx self * dt) (y self + vy self * dt)
     (z self + (vz self * dt + camera_delta_z))
     (color self) (size self) (vx self) (vy self) (vz self)
     (lifetime self) (current_lifetime self - dt).

End Particle.

Module ParticleSystem.

Record t := mk {
  source_pos_relative : point3;
  max_particles : nat;
  particles : list Particle.t;
  color : colour;
  size_range : R * R;
  velocity_range : R * R * R * R * R * R;
  lifetime_range : R * R;
  emission_rate : R;
  time_since_last_emission : R
}.

Definition init (source_pos_relative : point3) (max_particles : nat) (color : colour)
    (size_range : R * R) (velocity_range : R * R * R * R * R * R)
    (lifetime_range : R * R) (emission_rate : R) : t :=
  mk source_pos_relative max_particles [] color size_range velocity_range
     lifetime_range emission_rate 0.

Definition with_particles (self : t) (ps : list Particle.t) : t :=
  mk (source_pos_relative self) (max_particles self) ps (color self)
     (size_range self) (velocity_range self) (lifetime_range self)
     (emission_rate self) (time_since_last_emission self).

Definition with_time (self : t) (time : R) : t :=
  mk (source_pos_relative self) (max_particles self) (particles self) (color self)
     (size_range self) (velocity_range self) (lifetime_range self)
     (emission_rate self) time.

(** The body of the emission loop. *)
Definition emit (parent_pos parent_rotation : point3) (self : t) : Random.M t :=
  if (length (particles self) <? max_particles self)%nat then
    let '(rx, ry, rz) := parent_rotation in
    let '(sx, sy, sz) := rotate_point_3d (source_pos_relative self) rx ry rz in
    let '(ppx, ppy, ppz) := parent_pos in
    let px := ppx + sx in
    let py := ppy + sy in
    let pz := ppz + sz in
    let '(v0, v1, v2, v3, v4, v5) := velocity_range self in
    vx <- Random.uniform v0 v1 ;;
    vy <- Random.uniform v2 v3 ;;
    vz <- Random.uniform v4 v5 ;;
    size <- Random.uniform (fst (size_range self)) (snd (size_range self)) ;;
    lifetime <- Random.uniform (fst (lifetime_range self)) (snd (lifetime_range self)) ;;
    Random.ret (with_particles self
      (particles self ++ [Particle.init px py pz (color self) size (vx, vy, vz) lifetime]))
  else Random.ret self.

(** [for _ in range(n)] around [emit]. *)
Fixpoint emit_loop (n : nat) (parent_pos parent_rotation : point3) (self : t)
    : Random.M t :=
  match n with
  | O => Random.ret self
  | S n' =>
      self <- emit parent_pos parent_rotation self ;;
      emit_loop n' parent_pos parent_rotation self
  end.

(** The number of particles the emission loop is asked for. *)
Definition particles_to_emit (dt : R) (self : t) : Z :=
  Py.int ((time_since_last_emission self + dt) * emission_rate self).

(** [update]; [None] is the [ZeroDivisionError] raised by
    [particles_to_emit / self.emission_rate] when the rate is zero. *)
Definition update (dt : R) (parent_pos parent_rotation : point3) (camera_delta_z : R)
    (self : t) : Random.M (option t) :=
  let self := with_time self (time_since_last_emission self + dt) in
  let particles_to_emit := Py.int (time_since_last_emission self * emission_rate self) in
  self <- emit_loop (Py.range_len particles_to_emit) parent_pos parent_rotation self ;;
  if Req_dec_T (emission_rate self) 0 then Random.ret None
  else
    let self := with_time self
      (time_since_last_emission self - IZR particles_to_emit / emission_rate self) in
    let live_particles :=
      filter (fun p => Py.gtb (Particle.current_lifetime p) 0)
             (map (Particle.update dt camera_delta_z) (particles self)) in
    Random.ret (Some (with_particles self live_particles)).

(** One frame's arguments of [update]. *)
Record call := mk_call {
  dt : R; parent_pos : point3; parent_rotation : point3; camera_delta_z : R
}.

(** A sequence of [update] calls; it stops at the first one that raises. *)
Fixpoint updates (calls : list call) (self : t) : Random.M (option t) :=
  match calls with
  | [] => Random.ret (Some self)
  | c :: calls' =>
      r <- update (dt c) (parent_pos c) (parent_rotation c) (camera_delta_z c) self ;;
      match r with
      | None => Random.ret None
      | Some self' => updates calls' self'
      end
  end.

(** The sort with which [draw] starts; the particles are then drawn in
    this order. *)
Definition draw_sort (self : t) : t :=
  with_particles self (Py.sort_reverse Particle.z (particles self)).

End ParticleSystem.

(** *** The frame loop of [main] *)

Definition COLOR_ORANGE : colour := (255, 120, 0)%Z.
Definition COLOR_RED : colour := (255, 0, 0)%Z.
Definition station_scale : R := 150.

(** The first object that [main] puts in the scene. *)
Definition red_cube : Mesh.t := Mesh.Cube (200, 50, 500) 100 COLOR_RED.

(** The left engine trail that [main] creates. *)
Definition engine_left_ps : ParticleSystem.t :=
  ParticleSystem.init
    (-0.8 * station_scale, -0.1 * station_scale, 0.8 * station_scale)
    500 COLOR_ORANGE (1, 4) (-10, 10, -10, 10, 50, 100) (0.5, 1.5) 1000.

(** The smoothing of the warp factor in one tick. *)
Definition warp_tick (keys_warp : bool) (dt warp_factor : R) : R :=
  if keys_warp then lerp warp_factor 1.0 (5.0 * dt)
  else lerp warp_factor 0.0 (5.0 * dt).

(** [n] ticks with the same [dt] and the same warp key state. *)
Fixpoint warp_ticks (n : nat) (keys_warp : bool) (dt warp_factor : R) : R :=
  match n with
  | O => warp_factor
  | S n' => warp_ticks n' keys_warp dt (warp_tick keys_warp dt warp_factor)
  end.

(** The vertices of an object in world space. *)
Definition transformed_vertices (obj : Mesh.t) : list point3 :=
  map (fun v =>
         let '(r0, r1, r2) :=
           rotate_point_3d v (Mesh.angle_x obj) (Mesh.angle_y obj) (Mesh.angle_z obj) in
         (r0 * Mesh.scale obj + Mesh.x obj,
          r1 * Mesh.scale obj + Mesh.y obj,
          r2 * Mesh.scale obj + Mesh.z obj))
      (Mesh.vertices obj).

Definition projected_vertices_data (camera : point3) (transformed : list point3)
    : list (option (R * R * R * R)) :=
  let '(camera_x, camera_y, camera_z) := camera in
  map (fun v_world =>
         project_point v_world camera_x camera_y camera_z
           (IZR (WIDTH / 2)) (IZR (HEIGHT / 2)) CAMERA_DEFAULT_Z)
      transformed.

(** The body of the loop over [enumerate(obj.faces)]: [None] is an
    [IndexError] or the [ZeroDivisionError] of an empty face. *)
Definition face_polygons (obj : Mesh.t) (transformed : list point3)
    (projected : list (option (R * R * R * R))) (entry : nat * list nat)
    : option (list Mesh.polygon) :=
  let (i, face) := entry in
  match Mesh.index_all projected face with
  | None => None
  | Some data =>
      match Mesh.all_not_none data with
      | None => Some []
      | Some visible =>
          if (length face =? 0)%nat then None
          else
            let face_avg_z := Py.sum (map (fun d => snd d) visible) / Py.len face in
            let points_2d := map (fun d => (fst (fst (fst d)), snd (fst (fst d)))) visible in
            let color := Mesh.get_face_color obj i transformed in
            Some [(face_avg_z, color, points_2d)]
      end
  end.

Definition object_polygons (camera : point3) (obj : Mesh.t) : option (list Mesh.polygon) :=
  let transformed := transformed_vertices obj in
  let projected := projected_vertices_data camera transformed in
  Mesh.for_each (face_polygons obj transformed projected) (Mesh.enumerate (Mesh.faces obj)).

(** [all_polygons_to_draw] before it is sorted; [objs] is [objects + asteroids]. *)
Definition all_polygons_to_draw (camera : point3) (objs : list Mesh.t)
    : option (list Mesh.polygon) :=
  Mesh.for_each (object_polygons camera) objs.

(** The polygons of one frame in drawing order. *)
Definition frame_polygons (camera : point3) (objs : list Mesh.t)
    : option (list Mesh.polygon) :=
  option_map Mesh.draw_order (all_polygons_to_draw camera objs).

(** *** Asteroids and nebula blobs *)

Module Asteroid.

(** A [Base3DObject] with the three rotation speeds and [initial_z]. *)
Record t := mk {
  mesh : Mesh.t;
  rotation_speed_x : R; rotation_speed_y : R; rotation_speed_z : R;
  initial_z : R
}.

(** The loop that draws [num_verts] random vertices. *)
Fixpoint random_vertices (num_verts : nat) (vertices : list point3)
    : Random.M (list point3) :=
  match num_verts with
  | O => Random.ret vertices
  | S n =>
      let s := 0.5 in
      v0 <- Random.uniform (- s) s ;;
      v1 <- Random.uniform (- s) s ;;
      v2 <- Random.uniform (- s) s ;;
      random_vertices n (vertices ++ [(v0, v1, v2)])
  end.

(** The triangle fan around the centre vertex and the base polygon. *)
Definition fan_faces (num_verts : nat) : list (list nat) :=
  let center_vert_idx := num_verts in
  let faces :=
    map (fun i => [i; (S i) mod num_verts; center_vert_idx]%nat) (seq 0 num_verts) in
  if (3 <=? num_verts)%nat then faces ++ [seq 0 num_verts] else faces.

(** [Asteroid(position, size, color)]; [num_verts] is the value of
    [random.randint(8, 12)]. *)
Definition init (position : point3) (size : R) (color : colour) (num_verts : nat)
    : Random.M t :=
  let '(px, py, pz) := position in
  vertices <- random_vertices num_verts [] ;;
  let vertices := vertices ++ [(0, 0, 0)] in
  let faces := fan_faces num_verts in
  rotation_speed_x <- Random.uniform (-0.02) 0.02 ;;
  rotation_speed_y <- Random.uniform (-0.02) 0.02 ;;
  rotation_speed_z <- Random.uniform (-0.02) 0.02 ;;
  Random.ret
    (mk (Mesh.mk px py pz size vertices faces 0 0 0
           (Mesh.base_face_color color (length faces)))
        rotation_speed_x rotation_speed_y rotation_speed_z pz).

(** [Asteroid(position, size)] with the draw of [num_verts] and the
    default colour. *)
Definition new (position : point3) (size : R) : Random.M t :=
  num_verts <- Random.randint 8 12 ;;
  init position size (100, 80, 70)%Z (Z.to_nat num_verts).

(** The pose of the mesh, everything else kept. *)
Definition with_pose (m : Mesh.t) (x y z scale angle_x angle_y angle_z : R) : Mesh.t :=
  Mesh.mk x y z scale (Mesh.vertices m) (Mesh.faces m) angle_x angle_y angle_z
    (Mesh.get_face_color m).

Definition update (dt camera_delta_z : R) (self : t) : Random.M t :=
  let m := mesh self in
  dx <- Random.uniform (-5) 5 ;;
  let x := Mesh.x m + dx * dt in
  dy <- Random.uniform (-5) 5 ;;
  let y := Mesh.y m + dy * dt in
  let z := Mesh.z m + camera_delta_z in
  let angle_x := Mesh.angle_x m + rotation_speed_x self * dt in
  let angle_y := Mesh.angle_y m + rotation_speed_y self * dt in
  let angle_z := Mesh.angle_z m + rotation_speed_z self * dt in
  if Py.ltb z CAMERA_NEAR_CLIP then
    u <- Random.uniform 0 (WORLD_SIZE / 2) ;;
    let z := CAMERA_FAR_CLIP + u in
    x <- Random.uniform (- WORLD_SIZE) WORLD_SIZE ;;
    y <- Random.uniform (- WORLD_SIZE) WORLD_SIZE ;;
    scale <- Random.uniform 50 200 ;;
    rotation_speed_x <- Random.uniform (-0.02) 0.02 ;;
    rotation_speed_y <- Random.uniform (-0.02) 0.02 ;;
    rotation_speed_z <- Random.uniform (-0.02) 0.02 ;;
    Random.ret (mk (with_pose m x y z scale angle_x angle_y angle_z)
                   rotation_speed_x rotation_speed_y rotation_speed_z (initial_z self))
  else if Py.gtb z (CAMERA_FAR_CLIP + WORLD_SIZE) then
    u <- Random.uniform 0 (WORLD_SIZE / 2) ;;
    let z := CAMERA_NEAR_CLIP + u in
    Random.ret (mk (with_pose m x y z (Mesh.scale m) angle_x angle_y angle_z)
                   (rotation_speed_x self) (rotation_speed_y self)
                   (rotation_speed_z self) (initial_z self))
  else
    Random.ret (mk (with_pose m x y z (Mesh.scale m) angle_x angle_y angle_z)
                   (rotation_speed_x self) (rotation_speed_y self)
                   (rotation_speed_z self) (initial_z self)).

(** A sequence of [update] calls, one per [(dt, camera_delta_z)]. *)
Fixpoint updates (calls : list (R * R)) (self : t) : Random.M t :=
  match calls with
  | [] => Random.ret self
  | (dt, camera_delta_z) :: calls' =>
      self <- update dt camera_delta_z self ;; updates calls' self
  end.

End Asteroid.

Module NebulaBlob.

(** [initial_alpha] is the integer of [random.randint(30, 80)];
    [current_alpha] is a float after the first update. *)
Record t := mk {
  x : R; y : R; z : R;
  color : colour;
  initial_alpha : Z; current_alpha : R;
  fade_speed : R; size : R
}.

Definition with_position (self : t) (x' y' z' : R) : t :=
  mk x' y' z' (color self) (initial_alpha self) (current_alpha self)
     (fade_speed self) (size self).

Definition with_alpha (self : t) (current_alpha' : R) : t :=
  mk (x self) (y self) (z self) (color self) (initial_alpha self) current_alpha'
     (fade_speed self) (size self).

Definition reset (self : t) : Random.M t :=
  x' <- Random.uniform (- WORLD_SIZE * 2) (WORLD_SIZE * 2) ;;
  y' <- Random.uniform (- WORLD_SIZE * 2) (WORLD_SIZE * 2) ;;
  z' <- Random.uniform (CAMERA_FAR_CLIP / 2) (CAMERA_FAR_CLIP * 1.5) ;;
  Random.ret (with_position self x' y' z').

(** [NebulaBlob()]: [reset] runs first, on an object without any other
    attribute. *)
Definition init : Random.M t :=
  self <- reset (mk 0 0 0 (0, 0, 0)%Z 0 0 0 0) ;;
  color <- Random.choice COLOR_BLUE_DEEP [COLOR_BLUE_DEEP; COLOR_PURPLE; COLOR_TEAL] ;;
  initial_alpha <- Random.randint 30 80 ;;
  fade_speed <- Random.uniform 0.01 0.05 ;;
  size <- Random.uniform 300 1000 ;;
  Random.ret (mk (x self) (y self) (z self) color initial_alpha (IZR initial_alpha)
                 fade_speed size).

(** [update]; [now] is the reading of [time.time()]. *)
Definition update (now : R) (delta_z warp_factor : R) (self : t) : Random.M t :=
  let self := with_position self (x self) (y self) (z self + delta_z * 0.5) in
  let pulsed : Z :=
    Py.int (IZR (initial_alpha self)
            + sin (now * fade_speed self) * (IZR (initial_alpha self) * 0.5)) in
  let pulsed : Z := Z.max 0 (Z.min 255 pulsed) in
  let self :=
    if Py.gtb warp_factor 0.1 then with_alpha self (lerp (IZR pulsed) 255 0.05)
    else with_alpha self (lerp (IZR pulsed) (IZR (initial_alpha self)) 0.05) in
  if Py.ltb (z self) CAMERA_NEAR_CLIP || Py.gtb (z self) (CAMERA_FAR_CLIP * 2) then
    self <- reset self ;;
    u <- Random.uniform WORLD_SIZE (WORLD_SIZE * 2) ;;
    Random.ret (with_position self (x self) (y self) (CAMERA_FAR_CLIP + u))
  else Random.ret self.

(** A sequence of [update] calls, one per [(now, delta_z, warp_factor)]. *)
Fixpoint updates (calls : list (R * R * R)) (self : t) : Random.M t :=
  match calls with
  | [] => Random.ret self
  | (now, delta_z, warp_factor) :: calls' =>
      self <- update now delta_z warp_factor self ;; updates calls' self
  end.

End NebulaBlob.

(** *** Input and camera control in [main] *)

Module Controller.

Inductive key := K_w | K_s | K_a | K_d | K_SPACE | K_LSHIFT | K_e | K_other.

(** The events of [pygame.event.get()] that the loop distinguishes. *)
Inductive event := QUIT | KEYDOWN (k : key) | KEYUP (k : key) | OTHER.

(** The dictionary [keys]. *)
Record keys := mk_keys {
  forward : bool; backward : bool; left : bool; right : bool;
  up : bool; down : bool; warp : bool
}.

(** The variables of [main] that the loop carries from frame to frame. *)
Record t := mk {
  running : bool;
  pressed : keys;
  camera_x : R; camera_y : R; camera_z : R;
  camera_target_x : R; camera_target_y : R;
  current_speed : R; target_speed : R;
  warp_factor : R;
  camera_shake_intensity : R; camera_shake_duration : R
}.

Definition camera_lerp_factor : R := 3.0.
Definition max_speed_normal : R := 200.
Definition max_speed_warp : R := 1500.
Definition acceleration : R := 100.
Definition deceleration : R := 200.
Definition strafe_speed_base : R := 200.
Definition vertical_speed_base : R := 100.
Definition camera_shake_max_strength : R := 20.0.
Definition camera_shake_decay_rate : R := 0.9.

(** The state before the first frame. *)
Definition initial : t :=
  mk true (mk_keys false false false false false false false)
     0.0 0.0 0.0 0.0 0.0 0.0 0.0 0.0 0.0 0.0.

Definition with_keys (st : t) (k : keys) : t :=
  mk (running st) k (camera_x st) (camera_y st) (camera_z st)
     (camera_target_x st) (camera_target_y st) (current_speed st) (target_speed st)
     (warp_factor st) (camera_shake_intensity st) (camera_shake_duration st).

Definition with_shake (st : t) (intensity duration : R) : t :=
  mk (running st) (pressed st) (camera_x st) (camera_y st) (camera_z st)
     (camera_target_x st) (camera_target_y st) (current_speed st) (target_speed st)
     (warp_factor st) intensity duration.

Definition stop (st : t) : t :=
  mk false (pressed st) (camera_x st) (camera_y st) (camera_z st)
     (camera_target_x st) (camera_target_y st) (current_speed st) (target_speed st)
     (warp_factor st) (camera_shake_intensity st) (camera_shake_duration st).

(** The body of the loop over [pygame.event.get()]. *)
Definition handle_event (st : t) (e : event) : t :=
  let k := pressed st in
  match e with
  | QUIT => stop st
  | KEYDOWN K_w =>
      with_keys st (mk_keys true (backward k) (left k) (right k) (up k) (down k) (warp k))
  | KEYDOWN K_s =>
      with_keys st (mk_keys (forward k) true (left k) (right k) (up k) (down k) (warp k))
  | KEYDOWN K_a =>
      with_keys st (mk_keys (forward k) (backward k) true (right k) (up k) (down k) (warp k))
  | KEYDOWN K_d =>
      with_keys st (mk_keys (forward k) (backward k) (left k) true (up k) (down k) (warp k))
  | KEYDOWN K_SPACE =>
      with_keys st (mk_keys (forward k) (backward k) (left k) (right k) true (down k) (warp k))
  | KEYDOWN K_LSHIFT =>
      with_keys st (mk_keys (forward k) (backward k) (left k) (right k) (up k) true (warp k))
  | KEYDOWN K_e =>
      let st := with_keys st (mk_keys (forward k) (backward k) (left k) (right k)
                                (up k) (down k) (negb (warp k))) in
      if warp (pressed st) then with_shake st 1.0 0.5 else st
  | KEYDOWN K_other => st
  | KEYUP K_w =>
      with_keys st (mk_keys false (backward k) (left k) (right k) (up k) (down k) (warp k))
  | KEYUP K_s =>
      with_keys st (mk_keys (forward k) false (left k) (right k) (up k) (down k) (warp k))
  | KEYUP K_a =>
      with_keys st (mk_keys (forward k) (backward k) false (right k) (up k) (down k) (warp k))
  | KEYUP K_d =>
      with_keys st (mk_keys (forward k) (backward k) (left k) false (up k) (down k) (warp k))
  | KEYUP K_SPACE =>
      with_keys st (mk_keys (forward k) (backward k) (left k) (right k) false (down k) (warp k))
  | KEYUP K_LSHIFT =>
      with_keys st (mk_keys (forward k) (backward k) (left k) (right k) (up k) false (warp k))
  | KEYUP _ => st
  | OTHER => st
  end.

Definition handle_events (events : list event) (st : t) : t :=
  fold_left handle_event events st.

(** What one frame hands to the entity updates and to the drawing code. *)
Record outputs := mk_outputs {
  camera_delta_z : R; shake_offset_x : R; shake_offset_y : R
}.

(** The section "Update Game State" up to the camera shake. *)
Definition update_state (dt : R) (st : t) : Random.M (t * outputs) :=
  let k := pressed st in
  let target_speed := if warp k then max_speed_warp else max_speed_normal in
  let warp_factor := warp_tick (warp k) dt (warp_factor st) in
  let current_speed :=
    if forward k then Rmin target_speed (current_speed st + acceleration * dt)
    else if backward k then
      Rmax (- max_speed_normal / 2) (current_speed st - acceleration * dt)
    else if Py.gtb (current_speed st) 0 then
      Rmax 0.0 (current_speed st - deceleration * dt)
    else if Py.ltb (current_speed st) 0 then
      Rmin 0.0 (current_speed st + deceleration * dt)
    else current_speed st in
  let camera_delta_z := current_speed * dt in
  let camera_z := camera_z st + camera_delta_z in
  let camera_target_x := camera_target_x st in
  let camera_target_x :=
    if left k then camera_target_x - strafe_speed_base * dt else camera_target_x in
  let camera_target_x :=
    if right k then camera_target_x + strafe_speed_base * dt else camera_target_x in
  let camera_target_y := camera_target_y st in
  let camera_target_y :=
    if up k then camera_target_y - vertical_speed_base * dt else camera_target_y in
  let camera_target_y :=
    if down k then camera_target_y + vertical_speed_base * dt else camera_target_y in
  let camera_x := lerp (camera_x st) camera_target_x (camera_lerp_factor * dt) in
  let camera_y := lerp (camera_y st) camera_target_y (camera_lerp_factor * dt) in
  let camera_x := Rmax (- WORLD_SIZE) (Rmin WORLD_SIZE camera_x) in
  let camera_y := Rmax (- WORLD_SIZE / 2) (Rmin (WORLD_SIZE / 2) camera_y) in
  if Py.gtb (camera_shake_duration st) 0 then
    ux <- Random.uniform (-1) 1 ;;
    let shake_offset_x := ux * camera_shake_intensity st * camera_shake_max_strength in
    uy <- Random.uniform (-1) 1 ;;
    let shake_offset_y := uy * camera_shake_intensity st * camera_shake_max_strength in
    let camera_shake_duration := camera_shake_duration st - dt in
    let camera_shake_intensity :=
      camera_shake_intensity st * (1.0 - camera_shake_decay_rate * dt * 5) in
    let '(camera_shake_intensity, camera_shake_duration) :=
      if Py.ltb camera_shake_intensity 0.01 then (0.0, 0.0)
      else (camera_shake_intensity, camera_shake_duration) in
    Random.ret
      (mk (running st) k camera_x camera_y camera_z camera_target_x camera_target_y
          current_speed target_speed warp_factor
          camera_shake_intensity camera_shake_duration,
       mk_outputs camera_delta_z shake_offset_x shake_offset_y)
  else
    Random.ret
      (mk (running st) k camera_x camera_y camera_z camera_target_x camera_target_y
          current_speed target_speed warp_factor
          (camera_shake_intensity st) (camera_shake_duration st),
       mk_outputs camera_delta_z 0 0).

(** One pass through the loop body: the events of the frame, then the
    state update with the frame's [dt]. *)
Definition frame (events : list event) (dt : R) (st : t) : Random.M (t * outputs) :=
  update_state dt (handle_events events st).

(** [while running]: the state after the frames that the loop runs on a
    sequence of inputs; a frame that sees [QUIT] is still completed. *)
Fixpoint frames (inputs : list (list event * R)) (st : t) : Random.M t :=
  match inputs with
  | [] => Random.ret st
  | (events, dt) :: inputs' =>
      if running st then r <- frame events dt st ;; frames inputs' (fst r)
      else Random.ret st
  end.

End Controller.

(** *** The ground plane *)

Module GroundPlane.

Definition num_lines : Z := 40.
Definition spacing : R := 80.
Definition plane_y_offset : R := 100.

(** The two projected end points of the horizontal line with index [i];
    the line is drawn when both are there. *)
Definition horizontal_line (camera_pos : point3) (i : Z)
    : option (R * R * R * R) * option (R * R * R * R) :=
  let '(center_x, center_y, center_z) := camera_pos in
  let world_z := center_z + IZR i * spacing in
  (project_point (- WORLD_SIZE, plane_y_offset, world_z) center_x center_y center_z
     (IZR (WIDTH / 2)) (IZR (HEIGHT / 2)) CAMERA_DEFAULT_Z,
   project_point (WORLD_SIZE, plane_y_offset, world_z) center_x center_y center_z
     (IZR (WIDTH / 2)) (IZR (HEIGHT / 2)) CAMERA_DEFAULT_Z).

Definition horizontal_line_drawn (camera_pos : point3) (i : Z) : bool :=
  match horizontal_line camera_pos i with
  | (Some _, Some _) => true
  | _ => false
  end.

(** The indices of the loop [range(-num_lines // 2, num_lines // 2 + 1)]. *)
Definition line_indices : list Z :=
  map (fun n => (- num_lines / 2 + Z.of_nat n)%Z)
      (seq 0 (Z.to_nat (num_lines / 2 + 1 - - num_lines / 2))).

End GroundPlane.

(** *** The whole frame of [main] *)

Definition COLOR_GREEN_NEON : colour := (50, 255, 50)%Z.

(** The right engine trail that [main] creates. *)
Definition engine_right_ps : ParticleSystem.t :=
  ParticleSystem.init
    (0.8 * station_scale, -0.1 * station_scale, 0.8 * station_scale)
    500 COLOR_ORANGE (1, 4) (-10, 10, -10, 10, 50, 100) (0.5, 1.5) 1000.

Module World.

(** The class of an element of [objects], which selects its [update]. *)
Inductive kind := CubeObject | PyramidObject | ShipObject.

(** What [main] keeps from frame to frame. *)
Record t := mk {
  control : Controller.t;
  stars : list Star.t;
  asteroids : list Asteroid.t;
  nebulae : list NebulaBlob.t;
  objects : list (kind * Mesh.t);
  engine_left_ps : ParticleSystem.t;
  engine_right_ps : ParticleSystem.t
}.

(** A loop [for x in xs: x.update(...)] over a list of entities. *)
Fixpoint for_all {A B} (body : A -> Random.M B) (xs : list A) : Random.M (list B) :=
  match xs with
  | [] => Random.ret []
  | a :: xs' => b <- body a ;; bs <- for_all body xs' ;; Random.ret (b :: bs)
  end.

(** [obj.update(dt)] with the method of the object's class. *)
Definition object_update (dt : R) (obj : kind * Mesh.t) : kind * Mesh.t :=
  match fst obj with
  | CubeObject => (CubeObject, Mesh.Cube_update dt (snd obj))
  | PyramidObject => (PyramidObject, Mesh.Pyramid_update dt (snd obj))
  | ShipObject => (ShipObject, Mesh.ShipModel_update dt (snd obj))
  end.

(** [next((obj for obj in objects if isinstance(obj, ShipModel)), None)]. *)
Definition find_ship (objects : list (kind * Mesh.t)) : option Mesh.t :=
  match find (fun obj => match fst obj with ShipObject => true | _ => false end) objects with
  | Some obj => Some (snd obj)
  | None => None
  end.

(** The ring around the crosshair: its radius and its alpha, when it is
    drawn. *)
Definition crosshair_ring (current_speed : R) : option (Z * Z) :=
  if Py.gtb current_speed 0 then
    let ring_radius := Py.int (lerp 10 30 (current_speed / Controller.max_speed_warp)) in
    let alpha := Py.int (lerp 0 200 (current_speed / Controller.max_speed_warp)) in
    Some (ring_radius, Z.max 0 (Z.min 255 alpha))
  else None.

(** The part of the body of [while running] that changes what the loop
    carries to the next frame: the events, the state update, the updates of
    all entities (lines 757 to 850) and, from the drawing code, the two
    sorts that reorder [nebulae] and the particle lists in place.  The rest
    of the drawing code reads this state and hands it to [pygame]; it is
    not modelled.  [clock k] is the reading of [time.time()] in the update
    of the nebula with index [k]; [None] is the [ZeroDivisionError] of a
    particle system with emission rate 0. *)
Definition update_phase (events : list Controller.event) (dt : R) (clock : nat -> R) (w : t)
    : Random.M (option t) :=
  r <- Controller.frame events dt (control w) ;;
  let st := fst r in
  let camera_delta_z := Controller.camera_delta_z (snd r) in
  let warp_factor := Controller.warp_factor st in
  stars' <- for_all (Star.update camera_delta_z warp_factor) (stars w) ;;
  asteroids' <- for_all (Asteroid.update dt camera_delta_z) (asteroids w) ;;
  nebulae' <- for_all (fun '(k, nebula) =>
                         NebulaBlob.update (clock k) camera_delta_z warp_factor nebula)
                      (Mesh.enumerate (nebulae w)) ;;
  let objects' := map (object_update dt) (objects w) in
  match find_ship objects' with
  | Some ship =>
      let parent_pos := (Mesh.x ship, Mesh.y ship, Mesh.z ship) in
      let parent_rotation := (Mesh.angle_x ship, Mesh.angle_y ship, Mesh.angle_z ship) in
      left' <- ParticleSystem.update dt parent_pos parent_rotation camera_delta_z
                 (engine_left_ps w) ;;
      match left' with
      | None => Random.ret None
      | Some left' =>
          right' <- ParticleSystem.update dt parent_pos parent_rotation camera_delta_z
                      (engine_right_ps w) ;;
          match right' with
          | None => Random.ret None
          | Some right' =>
              Random.ret
                (Some (mk st stars' asteroids' (Py.sort_reverse NebulaBlob.z nebulae')
                          objects' (ParticleSystem.draw_sort left')
                          (ParticleSystem.draw_sort right')))
          end
      end
  | None =>
      Random.ret
        (Some (mk st stars' asteroids' (Py.sort_reverse NebulaBlob.z nebulae') objects'
                  (ParticleSystem.draw_sort (engine_left_ps w))
                  (ParticleSystem.draw_sort (engine_right_ps w))))
  end.

(** The update phases of [while running] on a sequence of frame inputs. *)
Fixpoint update_phases (inputs : list (list Controller.event * R * (nat -> R))) (w : t)
    : Random.M (option t) :=
  match inputs with
  | [] => Random.ret (Some w)
  | (events, dt, clock) :: inputs' =>
      if Controller.running (control w) then
        r <- update_phase events dt clock w ;;
        match r with
        | None => Random.ret None
        | Some w' => update_phases inputs' w'
        end
      else Random.ret (Some w)
  end.

(** The scene that [main] builds, for given stars, asteroids and nebulae. *)
Definition scene (stars : list Star.t) (asteroids : list Asteroid.t)
    (nebulae : list NebulaBlob.t) (now : nat -> R) : t :=
  mk Controller.initial stars asteroids nebulae
     [(CubeObject, Mesh.Cube (200, 50, 500) 100 COLOR_RED);
      (PyramidObject, Mesh.Pyramid (-300, 0, 700) 80 COLOR_GREEN_NEON);
      (ShipObject, Mesh.ShipModel (0, 0, 1000) station_scale (200, 200, 255)%Z now)]
     Square6.engine_left_ps Square6.engine_right_ps.

(** [[f() for _ in range(n)]]. *)
Definition repeat_call {A} (n : nat) (f : Random.M A) : Random.M (list A) :=
  for_all (fun _ => f) (seq 0 n).

(** The position and size arguments and the constructor call of one
    element of [asteroids]. *)
Definition build_asteroid : Random.M Asteroid.t :=
  px <- Random.uniform (- WORLD_SIZE) WORLD_SIZE ;;
  py <- Random.uniform (- WORLD_SIZE) WORLD_SIZE ;;
  pz <- Random.uniform (CAMERA_DEFAULT_Z + 1000) CAMERA_FAR_CLIP ;;
  size <- Random.uniform 50 200 ;;
  Asteroid.new (px, py, pz) size.

(** The state with which [main] enters the loop. *)
Definition build (now : nat -> R) : Random.M t :=
  stars <- repeat_call NUM_STARS Star.init ;;
  asteroids <- repeat_call NUM_ASTEROIDS build_asteroid ;;
  nebulae <- repeat_call NUM_NEBULA_BLOBS NebulaBlob.init ;;
  Random.ret (scene stars asteroids nebulae now).

End World.

End Square6.

(** ** square5.py

    [Particle] and [ParticleSystem] have the same text as in square6.py and
    are not repeated. *)

Module Square5.

Definition WIDTH : Z := 1200.
Definition HEIGHT : Z := 800.
Definition MAX_STAR_SIZE : R := 5.
Definition MIN_STAR_SIZE : R := 0.5.
Definition STAR_PROJECTION_DISTANCE : R := 400.
Definition CAMERA_DEFAULT_Z : R := 300.
Definition CAMERA_NEAR_CLIP : R := 1.0.
Definition CAMERA_FAR_CLIP : R := 5000.0.
Definition WORLD_SIZE : R := 2000.

Definition lerp (a b t : R) : R := a + (b - a) * t.

Definition rotate_point_3d (point : point3) (angle_x angle_y angle_z : R) : point3 :=
  let '(x, y, z) := point in
  let (cos_x, sin_x) := (cos angle_x, sin angle_x) in
  let (y, z) := (y * cos_x - z * sin_x, y * sin_x + z * cos_x) in
  let (cos_y, sin_y) := (cos angle_y, sin angle_y) in
  let (x, z) := (x * cos_y + z * sin_y, - x * sin_y + z * cos_y) in
  let (cos_z, sin_z) := (cos angle_z, sin angle_z) in
  let (x, y) := (x * cos_z - y * sin_z, x * sin_z + y * cos_z) in
  (x, y, z).

(** [project_point] returns [None] for a clipped point, and otherwise the
    tuple [(projected_x, projected_y, size_factor)]. *)
Definition project_point (point : point3) (camera_x camera_y camera_z : R)
    (screen_center_x screen_center_y : R) (projection_distance : R)
    : option (R * R * R) :=
  let '(px, py, pz) := point in
  let '(x, y, z) := (px - camera_x, py - camera_y, pz - camera_z) in
  if Py.ltb z CAMERA_NEAR_CLIP || Py.gtb z CAMERA_FAR_CLIP then None
  else
    let factor := projection_distance / z in
    let projected_x := x * factor + screen_center_x in
    let projected_y := y * factor + screen_center_y in
    let normalized_z := (z - CAMERA_NEAR_CLIP) / (CAMERA_FAR_CLIP - CAMERA_NEAR_CLIP) in
    let size_factor := Rmax 0.1 (1.0 - normalized_z) in
    Some (projected_x, projected_y, size_factor).

Module Star.

Record t := mk {
  initial_size : R; base_color : colour;
  x : R; y : R; z : R;
  size : R; trail_length : R; trail_alpha : R
}.

Definition with_z (self : t) (z' : R) : t :=
  mk (initial_size self) (base_color self) (x self) (y self) z'
     (size self) (trail_length self) (trail_alpha self).

Definition with_trail (self : t) (trail_length' trail_alpha' size' : R) : t :=
  mk (initial_size self) (base_color self) (x self) (y self) (z self)
     size' trail_length' trail_alpha'.

Definition update (delta_z warp_factor : R) (self : t) : Random.M t :=
  let self := with_z self (z self + delta_z) in
  let self := with_z self (z self - delta_z * warp_factor * 10) in
  let self :=
    if Py.gtb warp_factor 0.1 then
      with_trail self
        (lerp (trail_length self) (MAX_STAR_SIZE * 20 * warp_factor) 0.1)
        (lerp (trail_alpha self) 50 0.1)
        (lerp (size self) (MAX_STAR_SIZE * 2) 0.1)
    else
      with_trail self
        (lerp (trail_length self) 0 0.1)
        (lerp (trail_alpha self) 255 0.1)
        (lerp (size self) (initial_size self) 0.1) in
  if Py.ltb (z self) CAMERA_NEAR_CLIP || Py.gtb (z self) CAMERA_FAR_CLIP then
    if Py.gtb (z self) CAMERA_FAR_CLIP then
      u <- Random.uniform 0 WORLD_SIZE ;;
      Random.ret (with_z self (CAMERA_NEAR_CLIP + WORLD_SIZE + u))
    else
      u <- Random.uniform 0 WORLD_SIZE ;;
      Random.ret (with_z self (CAMERA_FAR_CLIP - 100 - u))
  else Random.ret self.

Fixpoint updates (calls : list (R * R)) (self : t) : Random.M t :=
  match calls with
  | [] => Random.ret self
  | (delta_z, warp_factor) :: calls' =>
      self <- update delta_z warp_factor self ;; updates calls' self
  end.

End Star.

Module Particle := Square6.Particle.
Module ParticleSystem := Square6.ParticleSystem.

(** *** The frame loop of [main] *)

Definition COLOR_RED : colour := (255, 0, 0)%Z.

(** The first object that [main] puts in the scene. *)
Definition red_cube : Mesh.t := Mesh.Cube (200, 50, 500) 100 COLOR_RED.

Definition transformed_vertices (obj : Mesh.t) : list point3 :=
  map (fun v =>
         let '(r0, r1, r2) :=
           rotate_point_3d v (Mesh.angle_x obj) (Mesh.angle_y obj) (Mesh.angle_z obj) in
         (r0 * Mesh.scale obj + Mesh.x obj,
          r1 * Mesh.scale obj + Mesh.y obj,
          r2 * Mesh.scale obj + Mesh.z obj))
      (Mesh.vertices obj).

Definition projected_vertices (camera : point3) (transformed : list point3)
    : list (option (R * R * R)) :=
  let '(camera_x, camera_y, camera_z) := camera in
  map (fun v_world =>
         project_point v_world camera_x camera_y camera_z
           (IZR (WIDTH / 2)) (IZR (HEIGHT / 2)) CAMERA_DEFAULT_Z)
      transformed.

(** [all(projected_vertices[v_idx] is not None for v_idx in face)]: the
    generator stops at the first clipped vertex; [None] is an [IndexError].
    In [face_polygons] the later subscripts of a face that passed this test
    cannot fail; their [None] branches are the exceptions Python would
    raise there. *)
Fixpoint all_projected {A} (projected : list (option A)) (face : list nat) : option bool :=
  match face with
  | [] => Some true
  | v_idx :: face' =>
      match nth_error projected v_idx with
      | None => None
      | Some None => Some false
      | Some (Some _) => all_projected projected face'
      end
  end.

Definition face_polygons (obj : Mesh.t) (transformed : list point3)
    (projected : list (option (R * R * R))) (entry : nat * list nat)
    : option (list Mesh.polygon) :=
  let (i, face) := entry in
  match all_projected projected face with
  | None => None
  | Some false => Some []
  | Some true =>
      match Mesh.index_all transformed face with
      | None => None
      | Some world =>
          if (length face =? 0)%nat then None
          else
            let face_avg_z := Py.sum (map (fun v => snd v) world) / Py.len face in
            match Mesh.index_all projected face with
            | None => None
            | Some data =>
                match Mesh.all_not_none data with
                | None => None
                | Some visible =>
                    let points_2d := map (fun p => (fst (fst p), snd (fst p))) visible in
                    let color := Mesh.get_face_color obj i transformed in
                    Some [(face_avg_z, color, points_2d)]
                end
            end
      end
  end.

Definition object_polygons (camera : point3) (obj : Mesh.t) : option (list Mesh.polygon) :=
  let transformed := transformed_vertices obj in
  let projected := projected_vertices camera transformed in
  Mesh.for_each (face_polygons obj transformed projected) (Mesh.enumerate (Mesh.faces obj)).

Definition all_polygons_to_draw (camera : point3) (objs : list Mesh.t)
    : option (list Mesh.polygon) :=
  Mesh.for_each (object_polygons camera) objs.

Definition frame_polygons (camera : point3) (objs : list Mesh.t)
    : option (list Mesh.polygon) :=
  option_map Mesh.draw_order (all_polygons_to_draw camera objs).

End Square5.

(** ** Vocabulary of the properties *)

Module Spec.

(** The camera-space depth of a world point. *)
Definition view_depth (point : point3) (camera_z : R) : R := snd point - camera_z.

(** The components of the tuple returned by square6.py. *)
Definition screen_x (r : R * R * R * R) : R := fst (fst (fst r)).
Definition screen_y (r : R * R * R * R) : R := snd (fst (fst r)).
Definition size_factor (r : R * R * R * R) : R := snd (fst r).

(** The components of the tuple returned by square5.py. *)
Definition screen_x5 (r : R * R * R) : R := fst (fst r).
Definition screen_y5 (r : R * R * R) : R := snd (fst r).
Definition size_factor5 (r : R * R * R) : R := snd r.

(** The linear falloff of the size factor. *)
Definition falloff (near far depth : R) : R :=
  Rmax 0.1 (1.0 - (depth - near) / (far - near)).

(** The depth a star has after the two depth assignments of [update] in
    square6.py, before the reset test. *)
Definition moved6 (delta_z warp_factor : R) (s : Square6.Star.t) : R :=
  Square6.Star.z s + delta_z - delta_z * warp_factor * 20.

Definition moved5 (delta_z warp_factor : R) (s : Square5.Star.t) : R :=
  Square5.Star.z s + delta_z - delta_z * warp_factor * 10.

(** A star of square6.py and of square5.py at a given depth. *)
Definition star6_at (z : R) : Square6.Star.t :=
  Square6.Star.mk 1 (255, 255, 255)%Z 0 0 z 1 0 255.
Definition star5_at (z : R) : Square5.Star.t :=
  Square5.Star.mk 1 (255, 255, 255)%Z 0 0 z 1 0 255.

(** The state in which the emission loop of [update] starts. *)
Definition timed (dt : R) (s : Square6.ParticleSystem.t) : Square6.ParticleSystem.t :=
  Square6.ParticleSystem.with_time s
    (Square6.ParticleSystem.time_since_last_emission s + dt).

(** The two orders of a drawing sequence: an earlier polygon has a depth
    key that is not smaller, respectively greater. *)
Definition not_before {A} (key : A -> R) (a b : A) : Prop := key a >= key b.
Definition strictly_before {A} (key : A -> R) (a b : A) : Prop := key a > key b.

(** The vertex that a face index denotes. *)
Definition vertex_at (world : list point3) (i : nat) : point3 := nth i world (0, 0, 0).

(** The average camera-space depth of the vertices of a face. *)
Definition face_view_depth (camera_z : R) (world : list point3) (face : list nat) : R :=
  Py.sum (map (fun i => view_depth (vertex_at world i) camera_z) face)
  / Py.len face.

(** The average world-space Z of the vertices of a face. *)
Definition face_world_depth (world : list point3) (face : list nat) : R :=
  Py.sum (map (fun i => snd (vertex_at world i)) face) / Py.len face.

(** No vertex of the face is clipped. *)
Definition in_view (near far camera_z : R) (world : list point3) (face : list nat) : bool :=
  forallb (fun i =>
             let d := view_depth (vertex_at world i) camera_z in
             negb (Py.ltb d near || Py.gtb d far)) face.

(** Faces are non-empty tuples of indices into the vertex list. *)
Definition well_formed (obj : Mesh.t) : Prop :=
  Forall (fun face =>
            face <> [] /\
            Forall (fun i => (i < length (Mesh.vertices obj))%nat) face)
         (Mesh.faces obj).

(** The world-space vertices of the cube of [main]. *)
Definition cube_world : list point3 :=
  [(150, 0, 450); (250, 0, 450); (250, 100, 450); (150, 100, 450);
   (150, 0, 550); (250, 0, 550); (250, 100, 550); (150, 100, 550)].

(** The square of the distance of a point from the origin. *)
Definition sq_norm (p : point3) : R :=
  fst (fst p) * fst (fst p) + snd (fst p) * snd (fst p) + snd p * snd p.

(** The state that [Star.__init__] establishes and [Star.update] keeps in
    square6.py: the star is inside the lateral world bounds, its trail and
    size are between their resting and their warp values. *)
Definition star_kept (s : Square6.Star.t) : Prop :=
  - Square6.WORLD_SIZE <= Square6.Star.x s <= Square6.WORLD_SIZE /\
  - Square6.WORLD_SIZE <= Square6.Star.y s <= Square6.WORLD_SIZE /\
  50 <= Square6.Star.trail_alpha s <= 255 /\
  0 <= Square6.Star.trail_length s <= Square6.MAX_STAR_SIZE * 30 /\
  Square6.Star.initial_size s <= Square6.Star.size s <= Square6.MAX_STAR_SIZE * 3.

(** The ranges handed to [ParticleSystem(...)] are given as (low, high). *)
Definition ranges_ordered (s : Square6.ParticleSystem.t) : Prop :=
  let '(v0, v1, v2, v3, v4, v5) := Square6.ParticleSystem.velocity_range s in
  v0 <= v1 /\ v2 <= v3 /\ v4 <= v5 /\
  fst (Square6.ParticleSystem.size_range s) <= snd (Square6.ParticleSystem.size_range s) /\
  fst (Square6.ParticleSystem.lifetime_range s)
    <= snd (Square6.ParticleSystem.lifetime_range s).

(** A particle as the system [s] emits it and ages it: its velocity, size
    and lifetime are inside the ranges of [s], and its remaining lifetime
    is at most its lifetime less [age]. *)
Definition particle_of (s : Square6.ParticleSystem.t) (age : R)
    (p : Square6.Particle.t) : Prop :=
  let '(v0, v1, v2, v3, v4, v5) := Square6.ParticleSystem.velocity_range s in
  v0 <= Square6.Particle.vx p <= v1 /\
  v2 <= Square6.Particle.vy p <= v3 /\
  v4 <= Square6.Particle.vz p <= v5 /\
  fst (Square6.ParticleSystem.size_range s) <= Square6.Particle.size p
    <= snd (Square6.ParticleSystem.size_range s) /\
  fst (Square6.ParticleSystem.lifetime_range s) <= Square6.Particle.lifetime p
    <= snd (Square6.ParticleSystem.lifetime_range s) /\
  Square6.Particle.current_lifetime p <= Square6.Particle.lifetime p - age.

(** The bounds that the frame loop of square6.py keeps on the camera. *)
Definition controlled (st : Square6.Controller.t) : Prop :=
  - Square6.Controller.max_speed_normal / 2 <= Square6.Controller.current_speed st
    <= Square6.Controller.max_speed_warp /\
  - Square6.WORLD_SIZE <= Square6.Controller.camera_x st <= Square6.WORLD_SIZE /\
  - Square6.WORLD_SIZE / 2 <= Square6.Controller.camera_y st <= Square6.WORLD_SIZE / 2 /\
  0 <= Square6.Controller.camera_shake_intensity st <= 1.

(** The number of times the warp key goes down in a list of events. *)
Definition warp_presses (events : list Square6.Controller.event) : nat :=
  length (filter (fun e => match e with
                           | Square6.Controller.KEYDOWN Square6.Controller.K_e => true
                           | _ => false
                           end) events).

(** No event of the list is [QUIT]. *)
Definition no_quit (events : list Square6.Controller.event) : bool :=
  forallb (fun e => match e with Square6.Controller.QUIT => false | _ => true end) events.

(** Every index of every face is below [n]. *)
Definition faces_below (n : nat) (faces : list (list nat)) : Prop :=
  Forall (Forall (fun i => (i < n)%nat)) faces.

(** The ranges of a particle system are never assigned after construction. *)
Definition same_ranges (s s' : Square6.ParticleSystem.t) : Prop :=
  Square6.ParticleSystem.velocity_range s' = Square6.ParticleSystem.velocity_range s /\
  Square6.ParticleSystem.size_range s' = Square6.ParticleSystem.size_range s /\
  Square6.ParticleSystem.lifetime_range s' = Square6.ParticleSystem.lifetime_range s.

(** [xs] is [ys] with some elements left out. *)
Fixpoint subsequence (xs ys : list nat) {struct ys} : bool :=
  match ys with
  | [] => match xs with [] => true | _ :: _ => false end
  | y :: ys' =>
      match xs with
      | [] => true
      | x :: xs' => if (x =? y)%nat then subsequence xs' ys' else subsequence xs ys'
      end
  end.

(** What the frame loop keeps of a particle system: it can be updated, it
    respects its limit, its ranges are ordered and its particles are its
    own. *)
Definition engine_kept (s : Square6.ParticleSystem.t) : Prop :=
  Square6.ParticleSystem.emission_rate s <> 0 /\
  (length (Square6.ParticleSystem.particles s)
     <= Square6.ParticleSystem.max_particles s)%nat /\
  ranges_ordered s /\
  Forall (particle_of s 0) (Square6.ParticleSystem.particles s).

(** The state that the frame loop of square6.py keeps. *)
Definition world_kept (w : Square6.World.t) : Prop :=
  controlled (Square6.World.control w) /\
  0 <= Square6.Controller.warp_factor (Square6.World.control w) <= 1 /\
  Forall star_kept (Square6.World.stars w) /\
  Forall (fun n => (0 <= Square6.NebulaBlob.initial_alpha n <= 255)%Z)
         (Square6.World.nebulae w) /\
  engine_kept (Square6.World.engine_left_ps w) /\
  engine_kept (Square6.World.engine_right_ps w).

(** Every star, asteroid and nebula is at a depth inside the range in which
    its [update] keeps it, and every nebula has an alpha in [[0, 255]]. *)
Definition world_in_range (w : Square6.World.t) : Prop :=
  Forall (fun s => Square6.CAMERA_NEAR_CLIP <= Square6.Star.z s <= Square6.CAMERA_FAR_CLIP)
         (Square6.World.stars w) /\
  Forall (fun a => Square6.CAMERA_NEAR_CLIP <= Mesh.z (Square6.Asteroid.mesh a)
                     <= Square6.CAMERA_FAR_CLIP + Square6.WORLD_SIZE)
         (Square6.World.asteroids w) /\
  Forall (fun n => Square6.CAMERA_NEAR_CLIP <= Square6.NebulaBlob.z n
                     <= Square6.CAMERA_FAR_CLIP * 2 /\
                   0 <= Square6.NebulaBlob.current_alpha n <= 255)
         (Square6.World.nebulae w).

(** The lists of the scene have the sizes, and the objects the classes,
    that they had in [w]. *)
Definition same_population (w w' : Square6.World.t) : Prop :=
  length (Square6.World.stars w') = length (Square6.World.stars w) /\
  length (Square6.World.asteroids w') = length (Square6.World.asteroids w) /\
  length (Square6.World.nebulae w') = length (Square6.World.nebulae w) /\
  map fst (Square6.World.objects w') = map fst (Square6.World.objects w).

(** A colour that [pygame] accepts: every channel is in [[0, 255]]. *)
Definition valid_colour (c : colour) : Prop :=
  let '(r, g, b) := c in (0 <= r <= 255 /\ 0 <= g <= 255 /\ 0 <= b <= 255)%Z.

(** What the loop over the sorted faces of [draw_3d_cube] in square4.py
    draws for the face [face_idx]: the face with its lit colour when all its
    projected points are on screen, and nothing otherwise. *)
Definition cube_face_drawn (projected : list point2) (face_idx : nat)
    : list (nat * colour * list point2) :=
  match nth_error Square4Scene.cube_faces face_idx with
  | Some face =>
      match Mesh.index_all projected face with
      | Some points =>
          if forallb Square4Scene.on_screen points
          then [(face_idx, Square4Scene.lit_color face_idx, points)]
          else []
      | None => []
      end
  | None => []
  end.

End Spec.

(** * Part II: properties *)

Import Spec.

(** ** Facts about the Python primitives *)

Module PyFacts.

Lemma ltb_true a b : Py.ltb a b = true <-> a < b.
Proof. unfold Py.ltb; destruct (Rlt_dec a b); split; intros; (easy || lra). Qed.

Lemma ltb_false a b : Py.ltb a b = false <-> b <= a.
Proof. unfold Py.ltb; destruct (Rlt_dec a b); split; intros; (easy || lra). Qed.

Lemma gtb_true a b : Py.gtb a b = true <-> a > b.
Proof. unfold Py.gtb; rewrite ltb_true; lra. Qed.

Lemma gtb_false a b : Py.gtb a b = false <-> a <= b.
Proof. unfold Py.gtb; rewrite ltb_false; lra. Qed.

(** The clip test [z < near or z > far]. *)
Lemma clip_true z near far :
  Py.ltb z near || Py.gtb z far = true <-> z < near \/ z > far.
Proof. rewrite orb_true_iff, ltb_true, gtb_true; tauto. Qed.

Lemma clip_false z near far :
  Py.ltb z near || Py.gtb z far = false <-> near <= z <= far.
Proof. rewrite orb_false_iff, ltb_false, gtb_false; tauto. Qed.

Lemma int_nonneg x : 0 <= x -> IZR (Py.int x) <= x < IZR (Py.int x) + 1.
Proof.
intros Hx; unfold Py.int; destruct (Rle_dec 0 x) as [_|n]; [|contradiction].
destruct (base_Int_part x); lra.
Qed.

Lemma int_nonneg_pos x : 0 <= x -> (0 <= Py.int x)%Z.
Proof.
intros Hx; destruct (int_nonneg x Hx) as [_ Hlt].
apply Z.lt_succ_r, lt_IZR; rewrite succ_IZR; lra.
Qed.

Lemma int_IZR (k : Z) : (0 <= k)%Z -> Py.int (IZR k) = k.
Proof.
intros Hk; unfold Py.int; destruct (Rle_dec 0 (IZR k)) as [_|n].
- symmetry; apply Int_part_spec; lra.
- exfalso; apply n, IZR_le; exact Hk.
Qed.

Lemma sum_acc xs a : fold_left Rplus xs a = a + Py.sum xs.
Proof.
unfold Py.sum; revert a; induction xs as [|x xs IH]; intros a; simpl.
- lra.
- rewrite IH, (IH (0 + x)); lra.
Qed.

Lemma sum_cons x xs : Py.sum (x :: xs) = x + Py.sum xs.
Proof. unfold Py.sum at 1; simpl; rewrite sum_acc; lra. Qed.

Lemma sum_nil : Py.sum [] = 0.
Proof. reflexivity. Qed.

End PyFacts.

Module RandomFacts.

Lemma uniform_range a b g : a <= b -> Random.unit_samples g ->
  a <= fst (Random.uniform a b g) <= b /\
  Random.unit_samples (snd (Random.uniform a b g)).
Proof.
intros Hab H; unfold Random.uniform, Random.bind, Random.ret, Random.random; simpl.
destruct (H (Random.cursor g)) as [H0 H1]; split; [|exact H].
split; nra.
Qed.

Lemma constant_unit u : 0 <= u < 1 -> Random.unit_samples (Random.constant u).
Proof. intros H n; exact H. Qed.

End RandomFacts.

(** ** Perspective projection *)

Module Projection.

Lemma project_point6_none p cx cy cz scx scy d :
  Square6.project_point p cx cy cz scx scy d = None <->
  view_depth p cz < Square6.CAMERA_NEAR_CLIP \/ view_depth p cz > Square6.CAMERA_FAR_CLIP.
Proof.
destruct p as [[px py] pz]; unfold Square6.project_point, view_depth; simpl.
rewrite <- PyFacts.clip_true.
destruct (Py.ltb _ _ || Py.gtb _ _); split; intros H; congruence.
Qed.

Lemma project_point6_some p cx cy cz scx scy d :
  Square6.CAMERA_NEAR_CLIP <= view_depth p cz <= Square6.CAMERA_FAR_CLIP ->
  Square6.project_point p cx cy cz scx scy d =
  Some ((fst (fst p) - cx) * (d / view_depth p cz) + scx,
        (snd (fst p) - cy) * (d / view_depth p cz) + scy,
        falloff Square6.CAMERA_NEAR_CLIP Square6.CAMERA_FAR_CLIP (view_depth p cz),
        view_depth p cz).
Proof.
destruct p as [[px py] pz]; unfold Square6.project_point, view_depth; simpl.
intros H; apply PyFacts.clip_false in H; rewrite H; reflexivity.
Qed.

Lemma project_point6_inv p cx cy cz scx scy d r :
  Square6.project_point p cx cy cz scx scy d = Some r ->
  Square6.CAMERA_NEAR_CLIP <= view_depth p cz <= Square6.CAMERA_FAR_CLIP /\
  r = ((fst (fst p) - cx) * (d / view_depth p cz) + scx,
       (snd (fst p) - cy) * (d / view_depth p cz) + scy,
       falloff Square6.CAMERA_NEAR_CLIP Square6.CAMERA_FAR_CLIP (view_depth p cz),
       view_depth p cz).
Proof.
intros H.
assert (Hin : Square6.CAMERA_NEAR_CLIP <= view_depth p cz <= Square6.CAMERA_FAR_CLIP).
{ destruct (Rlt_dec (view_depth p cz) Square6.CAMERA_NEAR_CLIP) as [Hl|Hl];
  [|destruct (Rlt_dec Square6.CAMERA_FAR_CLIP (view_depth p cz)) as [Hg|Hg]].
  - rewrite (proj2 (project_point6_none p cx cy cz scx scy d)) in H by (left; exact Hl).
    discriminate.
  - rewrite (proj2 (project_point6_none p cx cy cz scx scy d)) in H by (right; exact Hg).
    discriminate.
  - lra. }
split; [exact Hin|].
rewrite (project_point6_some p cx cy cz scx scy d Hin) in H; congruence.
Qed.

Lemma project_point5_none p cx cy cz scx scy d :
  Square5.project_point p cx cy cz scx scy d = None <->
  view_depth p cz < Square5.CAMERA_NEAR_CLIP \/ view_depth p cz > Square5.CAMERA_FAR_CLIP.
Proof.
destruct p as [[px py] pz]; unfold Square5.project_point, view_depth; simpl.
rewrite <- PyFacts.clip_true.
destruct (Py.ltb _ _ || Py.gtb _ _); split; intros H; congruence.
Qed.

Lemma project_point5_some p cx cy cz scx scy d :
  Square5.CAMERA_NEAR_CLIP <= view_depth p cz <= Square5.CAMERA_FAR_CLIP ->
  Square5.project_point p cx cy cz scx scy d =
  Some ((fst (fst p) - cx) * (d / view_depth p cz) + scx,
        (snd (fst p) - cy) * (d / view_depth p cz) + scy,
        falloff Square5.CAMERA_NEAR_CLIP Square5.CAMERA_FAR_CLIP (view_depth p cz)).
Proof.
destruct p as [[px py] pz]; unfold Square5.project_point, view_depth; simpl.
intros H; apply PyFacts.clip_false in H; rewrite H; reflexivity.
Qed.

Lemma project_point5_inv p cx cy cz scx scy d r :
  Square5.project_point p cx cy cz scx scy d = Some r ->
  Square5.CAMERA_NEAR_CLIP <= view_depth p cz <= Square5.CAMERA_FAR_CLIP /\
  r = ((fst (fst p) - cx) * (d / view_depth p cz) + scx,
       (snd (fst p) - cy) * (d / view_depth p cz) + scy,
       falloff Square5.CAMERA_NEAR_CLIP Square5.CAMERA_FAR_CLIP (view_depth p cz)).
Proof.
intros H.
assert (Hin : Square5.CAMERA_NEAR_CLIP <= view_depth p cz <= Square5.CAMERA_FAR_CLIP).
{ destruct (Rlt_dec (view_depth p cz) Square5.CAMERA_NEAR_CLIP) as [Hl|Hl];
  [|destruct (Rlt_dec Square5.CAMERA_FAR_CLIP (view_depth p cz)) as [Hg|Hg]].
  - rewrite (proj2 (project_point5_none p cx cy cz scx scy d)) in H by (left; exact Hl).
    discriminate.
  - rewrite (proj2 (project_point5_none p cx cy cz scx scy d)) in H by (right; exact Hg).
    discriminate.
  - lra. }
split; [exact Hin|].
rewrite (project_point5_some p cx cy cz scx scy d Hin) in H; congruence.
Qed.

(** The falloff between two clip planes [near < far]. *)
Section Falloff.
Variables near far : R.
Hypothesis near_lt_far : near < far.

Lemma falloff_bounds depth : near <= depth -> 0.1 <= falloff near far depth <= 1.
Proof.
intros H; unfold falloff.
assert (0 <= (depth - near) / (far - near)).
{ apply Rmult_le_pos; [lra|]. left; apply Rinv_0_lt_compat; lra. }
unfold Rmax; destruct (Rle_dec _ _); lra.
Qed.

Lemma falloff_antitone d1 d2 : d1 <= d2 -> falloff near far d2 <= falloff near far d1.
Proof.
intros H; unfold falloff.
assert ((d1 - near) / (far - near) <= (d2 - near) / (far - near)).
{ apply Rmult_le_compat_r; [|lra]. left; apply Rinv_0_lt_compat; lra. }
unfold Rmax; destruct (Rle_dec _ _); destruct (Rle_dec _ _); lra.
Qed.

Lemma falloff_near : falloff near far near = 1.
Proof.
unfold falloff.
replace ((near - near) / (far - near)) with 0 by (unfold Rdiv; ring).
unfold Rmax; destruct (Rle_dec _ _); lra.
Qed.

Lemma falloff_floor depth :
  near + 0.9 * (far - near) <= depth -> falloff near far depth = 0.1.
Proof.
intros H; unfold falloff.
assert (0.9 <= (depth - near) / (far - near)).
{ apply (Rmult_le_reg_r (far - near)); [lra|].
  unfold Rdiv; rewrite Rmult_assoc, Rinv_l by lra; lra. }
unfold Rmax; destruct (Rle_dec _ _); lra.
Qed.

End Falloff.

Lemma clip_planes6 : Square6.CAMERA_NEAR_CLIP < Square6.CAMERA_FAR_CLIP.
Proof. unfold Square6.CAMERA_NEAR_CLIP, Square6.CAMERA_FAR_CLIP; lra. Qed.

Lemma clip_planes5 : Square5.CAMERA_NEAR_CLIP < Square5.CAMERA_FAR_CLIP.
Proof. unfold Square5.CAMERA_NEAR_CLIP, Square5.CAMERA_FAR_CLIP; lra. Qed.

(** C1 (amended).  [project_point] returns [None] exactly when the
    camera-space depth [z - camera_z] is below the near clip or beyond the
    far clip.  For every other depth the division is by a non-zero depth and
    the result carries the screen coordinates
    [(x - camera_x) * (projection_distance / depth) + screen_center_x] and
    [(y - camera_y) * (projection_distance / depth) + screen_center_y];
    in square6.py the tuple ends with the depth that was used, in square5.py
    it has the two coordinates and the size factor only. *)
Theorem project_point_contract :
  (forall px py pz camera_x camera_y camera_z screen_center_x screen_center_y
          projection_distance,
     let depth := pz - camera_z in
     (Square6.project_point (px, py, pz) camera_x camera_y camera_z
        screen_center_x screen_center_y projection_distance = None <->
      depth < Square6.CAMERA_NEAR_CLIP \/ depth > Square6.CAMERA_FAR_CLIP) /\
     (Square6.CAMERA_NEAR_CLIP <= depth <= Square6.CAMERA_FAR_CLIP ->
      depth <> 0 /\
      exists size_factor,
        Square6.project_point (px, py, pz) camera_x camera_y camera_z
          screen_center_x screen_center_y projection_distance =
        Some ((px - camera_x) * (projection_distance / depth) + screen_center_x,
              (py - camera_y) * (projection_distance / depth) + screen_center_y,
              size_factor, depth))) /\
  (forall px py pz camera_x camera_y camera_z screen_center_x screen_center_y
          projection_distance,
     let depth := pz - camera_z in
     (Square5.project_point (px, py, pz) camera_x camera_y camera_z
        screen_center_x screen_center_y projection_distance = None <->
      depth < Square5.CAMERA_NEAR_CLIP \/ depth > Square5.CAMERA_FAR_CLIP) /\
     (Square5.CAMERA_NEAR_CLIP <= depth <= Square5.CAMERA_FAR_CLIP ->
      depth <> 0 /\
      exists size_factor,
        Square5.project_point (px, py, pz) camera_x camera_y camera_z
          screen_center_x screen_center_y projection_distance =
        Some ((px - camera_x) * (projection_distance / depth) + screen_center_x,
              (py - camera_y) * (projection_distance / depth) + screen_center_y,
              size_factor))).
Proof.
split; intros px py pz cx cy cz scx scy d depth; subst depth.
- split.
  + apply (project_point6_none (px, py, pz)).
  + intros H; split.
    * unfold Square6.CAMERA_NEAR_CLIP in H; lra.
    * eexists; apply (project_point6_some (px, py, pz)); exact H.
- split.
  + apply (project_point5_none (px, py, pz)).
  + intros H; split.
    * unfold Square5.CAMERA_NEAR_CLIP in H; lra.
    * eexists; apply (project_point5_some (px, py, pz)); exact H.
Qed.

(** The scenario of the specification: a point 300 units in front of a
    camera at the origin projects to the screen centre offsets given. *)
Lemma project_point_contract_witness :
  300 - 0 <> 0 /\
  exists size_factor,
    Square6.project_point (0, 0, 300) 0 0 0 600 400 300 =
    Some ((0 - 0) * (300 / (300 - 0)) + 600, (0 - 0) * (300 / (300 - 0)) + 400,
          size_factor, 300 - 0).
Proof.
apply (proj1 project_point_contract 0 0 300 0 0 0 600 400 300).
unfold Square6.CAMERA_NEAR_CLIP, Square6.CAMERA_FAR_CLIP; lra.
Defined.

(** C1, as stated, fails on square5.py: its [project_point] gives the same
    result for the depths 4600 and 4700, so no component of the returned
    tuple is the depth that was used. *)
Lemma square5_result_without_depth :
  ~ exists depth_of : R * R * R -> R,
      forall point camera_x camera_y camera_z screen_center_x screen_center_y
             projection_distance r,
        Square5.project_point point camera_x camera_y camera_z
          screen_center_x screen_center_y projection_distance = Some r ->
        depth_of r = view_depth point camera_z.
Proof.
intros [depth_of H].
assert (Hin1 : Square5.CAMERA_NEAR_CLIP <= view_depth (0, 0, 4600) 0
               <= Square5.CAMERA_FAR_CLIP).
{ unfold view_depth, Square5.CAMERA_NEAR_CLIP, Square5.CAMERA_FAR_CLIP; simpl; lra. }
assert (Hin2 : Square5.CAMERA_NEAR_CLIP <= view_depth (0, 0, 4700) 0
               <= Square5.CAMERA_FAR_CLIP).
{ unfold view_depth, Square5.CAMERA_NEAR_CLIP, Square5.CAMERA_FAR_CLIP; simpl; lra. }
pose proof (H _ _ _ _ _ _ _ _ (project_point5_some (0, 0, 4600) 0 0 0 600 400 300 Hin1)) as E1.
pose proof (H _ _ _ _ _ _ _ _ (project_point5_some (0, 0, 4700) 0 0 0 600 400 300 Hin2)) as E2.
rewrite !(falloff_floor _ _ clip_planes5) in E1, E2;
  try (unfold view_depth, Square5.CAMERA_NEAR_CLIP, Square5.CAMERA_FAR_CLIP; simpl; lra).
simpl in E1, E2.
replace ((0 - 0) * (300 / view_depth (0, 0, 4600) 0) + 600) with 600 in E1 by ring.
replace ((0 - 0) * (300 / view_depth (0, 0, 4700) 0) + 600) with 600 in E2 by ring.
replace ((0 - 0) * (300 / view_depth (0, 0, 4600) 0) + 400) with 400 in E1 by ring.
replace ((0 - 0) * (300 / view_depth (0, 0, 4700) 0) + 400) with 400 in E2 by ring.
rewrite E1 in E2; unfold view_depth in E2; simpl in E2; lra.
Qed.

(** C9.  For every depth between the clip planes [project_point] returns a
    result, and the size factor in it lies in [[0.1, 1.0]], does not increase
    when the depth grows, is 1.0 at the near clip and sits on its floor 0.1
    over the last tenth of the range, the far clip included.  Both
    variants. *)
Theorem size_factor_falloff :
  (forall p p' cx cy cz scx scy d,
     Square6.CAMERA_NEAR_CLIP <= view_depth p cz <= Square6.CAMERA_FAR_CLIP ->
     Square6.CAMERA_NEAR_CLIP <= view_depth p' cz <= Square6.CAMERA_FAR_CLIP ->
     exists r r',
       Square6.project_point p cx cy cz scx scy d = Some r /\
       Square6.project_point p' cx cy cz scx scy d = Some r' /\
       0.1 <= size_factor r <= 1.0 /\
       (view_depth p cz <= view_depth p' cz -> size_factor r' <= size_factor r) /\
       (view_depth p cz = Square6.CAMERA_NEAR_CLIP -> size_factor r = 1.0) /\
       (Square6.CAMERA_NEAR_CLIP
          + 0.9 * (Square6.CAMERA_FAR_CLIP - Square6.CAMERA_NEAR_CLIP)
          <= view_depth p cz -> size_factor r = 0.1) /\
       (view_depth p cz = Square6.CAMERA_FAR_CLIP -> size_factor r = 0.1)) /\
  (forall p p' cx cy cz scx scy d,
     Square5.CAMERA_NEAR_CLIP <= view_depth p cz <= Square5.CAMERA_FAR_CLIP ->
     Square5.CAMERA_NEAR_CLIP <= view_depth p' cz <= Square5.CAMERA_FAR_CLIP ->
     exists r r',
       Square5.project_point p cx cy cz scx scy d = Some r /\
       Square5.project_point p' cx cy cz scx scy d = Some r' /\
       0.1 <= size_factor5 r <= 1.0 /\
       (view_depth p cz <= view_depth p' cz -> size_factor5 r' <= size_factor5 r) /\
       (view_depth p cz = Square5.CAMERA_NEAR_CLIP -> size_factor5 r = 1.0) /\
       (Square5.CAMERA_NEAR_CLIP
          + 0.9 * (Square5.CAMERA_FAR_CLIP - Square5.CAMERA_NEAR_CLIP)
          <= view_depth p cz -> size_factor5 r = 0.1) /\
       (view_depth p cz = Square5.CAMERA_FAR_CLIP -> size_factor5 r = 0.1)).
Proof.
split; intros p p' cx cy cz scx scy d Hin Hin'.
- rewrite (project_point6_some p cx cy cz scx scy d Hin),
          (project_point6_some p' cx cy cz scx scy d Hin').
  eexists; eexists; split; [reflexivity|]; split; [reflexivity|].
  unfold size_factor; simpl.
  pose proof clip_planes6 as Hnf.
  repeat split.
  + apply (falloff_bounds _ _ Hnf); lra.
  + replace 1.0 with 1 by lra. apply (falloff_bounds _ _ Hnf); lra.
  + apply (falloff_antitone _ _ Hnf).
  + intros ->. replace 1.0 with 1 by lra. apply falloff_near.
  + apply (falloff_floor _ _ Hnf).
  + intros E; apply (falloff_floor _ _ Hnf); lra.
- rewrite (project_point5_some p cx cy cz scx scy d Hin),
          (project_point5_some p' cx cy cz scx scy d Hin').
  eexists; eexists; split; [reflexivity|]; split; [reflexivity|].
  unfold size_factor5; simpl.
  pose proof clip_planes5 as Hnf.
  repeat split.
  + apply (falloff_bounds _ _ Hnf); lra.
  + replace 1.0 with 1 by lra. apply (falloff_bounds _ _ Hnf); lra.
  + apply (falloff_antitone _ _ Hnf).
  + intros ->. replace 1.0 with 1 by lra. apply falloff_near.
  + apply (falloff_floor _ _ Hnf).
  + intros E; apply (falloff_floor _ _ Hnf); lra.
Qed.

(** The near and the far clip plane seen from a camera at the origin, in
    square6.py and in square5.py: both points are projected, with the size
    factors 1.0 and 0.1. *)
Lemma size_factor_falloff_witness :
  (exists r r',
     Square6.project_point (0, 0, 1) 0 0 0 600 400 300 = Some r /\
     Square6.project_point (0, 0, 6000) 0 0 0 600 400 300 = Some r' /\
     size_factor r = 1.0 /\ size_factor r' = 0.1 /\ size_factor r' <= size_factor r) /\
  (exists r r',
     Square5.project_point (0, 0, 1) 0 0 0 600 400 300 = Some r /\
     Square5.project_point (0, 0, 5000) 0 0 0 600 400 300 = Some r' /\
     size_factor5 r = 1.0 /\ size_factor5 r' = 0.1 /\ size_factor5 r' <= size_factor5 r).
Proof.
split.
- destruct (proj1 size_factor_falloff (0, 0, 1) (0, 0, 6000) 0 0 0 600 400 300)
    as (r & r' & E & E' & _ & Hm & Hn & _ & _);
    [unfold view_depth, Square6.CAMERA_NEAR_CLIP, Square6.CAMERA_FAR_CLIP; simpl; lra
    |unfold view_depth, Square6.CAMERA_NEAR_CLIP, Square6.CAMERA_FAR_CLIP; simpl; lra|].
  destruct (proj1 size_factor_falloff (0, 0, 6000) (0, 0, 6000) 0 0 0 600 400 300)
    as (q & q' & F & _ & _ & _ & _ & _ & Hf);
    [unfold view_depth, Square6.CAMERA_NEAR_CLIP, Square6.CAMERA_FAR_CLIP; simpl; lra
    |unfold view_depth, Square6.CAMERA_NEAR_CLIP, Square6.CAMERA_FAR_CLIP; simpl; lra|].
  assert (q = r') by congruence; subst q.
  exists r, r'; split; [exact E|]; split; [exact E'|].
  split; [apply Hn; unfold view_depth, Square6.CAMERA_NEAR_CLIP; simpl; lra|].
  split; [apply Hf; unfold view_depth, Square6.CAMERA_FAR_CLIP; simpl; lra|].
  apply Hm; unfold view_depth; simpl; lra.
- destruct (proj2 size_factor_falloff (0, 0, 1) (0, 0, 5000) 0 0 0 600 400 300)
    as (r & r' & E & E' & _ & Hm & Hn & _ & _);
    [unfold view_depth, Square5.CAMERA_NEAR_CLIP, Square5.CAMERA_FAR_CLIP; simpl; lra
    |unfold view_depth, Square5.CAMERA_NEAR_CLIP, Square5.CAMERA_FAR_CLIP; simpl; lra|].
  destruct (proj2 size_factor_falloff (0, 0, 5000) (0, 0, 5000) 0 0 0 600 400 300)
    as (q & q' & F & _ & _ & _ & _ & _ & Hf);
    [unfold view_depth, Square5.CAMERA_NEAR_CLIP, Square5.CAMERA_FAR_CLIP; simpl; lra
    |unfold view_depth, Square5.CAMERA_NEAR_CLIP, Square5.CAMERA_FAR_CLIP; simpl; lra|].
  assert (q = r') by congruence; subst q.
  exists r, r'; split; [exact E|]; split; [exact E'|].
  split; [apply Hn; unfold view_depth, Square5.CAMERA_NEAR_CLIP; simpl; lra|].
  split; [apply Hf; unfold view_depth, Square5.CAMERA_FAR_CLIP; simpl; lra|].
  apply Hm; unfold view_depth; simpl; lra.
Defined.

End Projection.

(** ** Stars *)

Module Stars.

Lemma update6_depth delta_z warp_factor s g :
  Random.unit_samples g ->
  let z1 := moved6 delta_z warp_factor s in
  let r := Square6.Star.update delta_z warp_factor s g in
  Random.unit_samples (snd r) /\
  ((Square6.CAMERA_NEAR_CLIP <= z1 <= Square6.CAMERA_FAR_CLIP /\
    Square6.Star.z (fst r) = z1) \/
   ((z1 < Square6.CAMERA_NEAR_CLIP \/ z1 > Square6.CAMERA_FAR_CLIP) /\
    Square6.CAMERA_FAR_CLIP - Square6.WORLD_SIZE / 2 <= Square6.Star.z (fst r)
      <= Square6.CAMERA_FAR_CLIP)).
Proof.
intros Hg z1 r; subst r z1; unfold moved6.
set (z1 := Square6.Star.z s + delta_z - delta_z * warp_factor * 20).
unfold Square6.Star.update.
set (s1 := if Py.gtb warp_factor 0.1 then _ else _).
assert (Hz : Square6.Star.z s1 = z1).
{ subst s1; destruct (Py.gtb warp_factor 0.1); reflexivity. }
rewrite Hz.
destruct (Py.ltb z1 _ || Py.gtb z1 _) eqn:Hclip.
- apply PyFacts.clip_true in Hclip.
  cbv beta iota zeta delta [Square6.Star.reset Random.bind Random.ret Random.uniform
    Random.random].
  cbn [Random.samples Random.cursor Square6.Star.z].
  pose proof (Hg (S (S (Random.cursor g)))) as Hu2.
  pose proof (Hg (S (S (S (Random.cursor g))))) as Hu3.
  unfold Square6.CAMERA_NEAR_CLIP, Square6.CAMERA_FAR_CLIP, Square6.WORLD_SIZE,
    Square6.CAMERA_DEFAULT_Z in *.
  match goal with |- context [Py.gtb ?a ?b] => destruct (Py.gtb a b) eqn:Hfar end.
  + apply PyFacts.gtb_true in Hfar. exfalso. nra.
  + cbn [Square6.Star.z Square6.Star.with_z fst snd Random.samples Random.cursor].
    split; [exact Hg|]. right. split; [exact Hclip|]. nra.
- apply PyFacts.clip_false in Hclip.
  unfold Random.ret; cbn [fst snd]. split; [exact Hg|]. left. split; [exact Hclip| exact Hz].
Qed.

Lemma update5_depth delta_z warp_factor s g :
  Random.unit_samples g ->
  let z1 := moved5 delta_z warp_factor s in
  let r := Square5.Star.update delta_z warp_factor s g in
  Random.unit_samples (snd r) /\
  ((Square5.CAMERA_NEAR_CLIP <= z1 <= Square5.CAMERA_FAR_CLIP /\
    Square5.Star.z (fst r) = z1) \/
   (z1 > Square5.CAMERA_FAR_CLIP /\
    Square5.CAMERA_NEAR_CLIP + Square5.WORLD_SIZE <= Square5.Star.z (fst r)
      <= Square5.CAMERA_NEAR_CLIP + 2 * Square5.WORLD_SIZE) \/
   (z1 < Square5.CAMERA_NEAR_CLIP /\
    Square5.CAMERA_FAR_CLIP - 100 - Square5.WORLD_SIZE <= Square5.Star.z (fst r)
      <= Square5.CAMERA_FAR_CLIP - 100)).
Proof.
intros Hg z1 r; subst r z1; unfold moved5.
set (z1 := Square5.Star.z s + delta_z - delta_z * warp_factor * 10).
unfold Square5.Star.update.
set (s1 := if Py.gtb warp_factor 0.1 then _ else _).
assert (Hz : Square5.Star.z s1 = z1).
{ subst s1; destruct (Py.gtb warp_factor 0.1); reflexivity. }
rewrite Hz.
pose proof (Hg (Random.cursor g)) as Hu.
destruct (Py.ltb z1 _ || Py.gtb z1 _) eqn:Hclip.
- apply PyFacts.clip_true in Hclip.
  destruct (Py.gtb z1 Square5.CAMERA_FAR_CLIP) eqn:Hfar;
    cbv beta iota zeta delta [Random.bind Random.ret Random.uniform Random.random];
    cbn [Square5.Star.z Square5.Star.with_z fst snd Random.samples Random.cursor];
    (split; [exact Hg|]); right.
  + apply PyFacts.gtb_true in Hfar. left. split; [lra|].
    unfold Square5.CAMERA_NEAR_CLIP, Square5.WORLD_SIZE; nra.
  + apply PyFacts.gtb_false in Hfar. right. split; [lra|].
    unfold Square5.CAMERA_FAR_CLIP, Square5.WORLD_SIZE; nra.
- apply PyFacts.clip_false in Hclip.
  unfold Random.ret; cbn [fst snd]. split; [exact Hg|]. left. split; [exact Hclip| exact Hz].
Qed.

Lemma update6_in_range delta_z warp_factor s g :
  Random.unit_samples g ->
  Random.unit_samples (snd (Square6.Star.update delta_z warp_factor s g)) /\
  Square6.CAMERA_NEAR_CLIP
    <= Square6.Star.z (fst (Square6.Star.update delta_z warp_factor s g))
    <= Square6.CAMERA_FAR_CLIP.
Proof.
intros Hg; destruct (update6_depth delta_z warp_factor s g Hg) as [Hg' H].
split; [exact Hg'|].
unfold Square6.CAMERA_NEAR_CLIP, Square6.CAMERA_FAR_CLIP, Square6.WORLD_SIZE in *.
destruct H as [[H1 ->]|[_ H]]; lra.
Qed.

Lemma update5_in_range delta_z warp_factor s g :
  Random.unit_samples g ->
  Random.unit_samples (snd (Square5.Star.update delta_z warp_factor s g)) /\
  Square5.CAMERA_NEAR_CLIP
    <= Square5.Star.z (fst (Square5.Star.update delta_z warp_factor s g))
    <= Square5.CAMERA_FAR_CLIP.
Proof.
intros Hg; destruct (update5_depth delta_z warp_factor s g Hg) as [Hg' H].
split; [exact Hg'|].
unfold Square5.CAMERA_NEAR_CLIP, Square5.CAMERA_FAR_CLIP, Square5.WORLD_SIZE in *.
destruct H as [[H1 ->]|[[_ H]|[_ H]]]; lra.
Qed.

(** A star whose depth is in range keeps it in range through any further
    sequence of updates. *)
Lemma updates6_in_range calls : forall s g,
  Random.unit_samples g ->
  Square6.CAMERA_NEAR_CLIP <= Square6.Star.z s <= Square6.CAMERA_FAR_CLIP ->
  Square6.CAMERA_NEAR_CLIP <= Square6.Star.z (fst (Square6.Star.updates calls s g))
    <= Square6.CAMERA_FAR_CLIP.
Proof.
induction calls as [|[dz wf] calls IH]; intros s g Hg Hs; simpl.
- exact Hs.
- unfold Random.bind.
  destruct (update6_in_range dz wf s g Hg) as [Hg' Hs'].
  destruct (Square6.Star.update dz wf s g) as [s' g']; simpl in *.
  apply IH; assumption.
Qed.

Lemma updates5_in_range calls : forall s g,
  Random.unit_samples g ->
  Square5.CAMERA_NEAR_CLIP <= Square5.Star.z s <= Square5.CAMERA_FAR_CLIP ->
  Square5.CAMERA_NEAR_CLIP <= Square5.Star.z (fst (Square5.Star.updates calls s g))
    <= Square5.CAMERA_FAR_CLIP.
Proof.
induction calls as [|[dz wf] calls IH]; intros s g Hg Hs; simpl.
- exact Hs.
- unfold Random.bind.
  destruct (update5_in_range dz wf s g Hg) as [Hg' Hs'].
  destruct (Square5.Star.update dz wf s g) as [s' g']; simpl in *.
  apply IH; assumption.
Qed.

(** C3.  Whatever the star and whatever the non-empty sequence of
    [update(delta_z, warp_factor)] calls, the depth of the star lies in
    [[CAMERA_NEAR_CLIP, CAMERA_FAR_CLIP]] when the last call returns, in
    square6.py and in square5.py.  The random samples are the values of
    [random.random()], in [[0, 1)]. *)
Theorem star_depth_invariant :
  (forall delta_z warp_factor calls s g,
     Random.unit_samples g ->
     Square6.CAMERA_NEAR_CLIP
       <= Square6.Star.z (fst (Square6.Star.updates ((delta_z, warp_factor) :: calls) s g))
       <= Square6.CAMERA_FAR_CLIP) /\
  (forall delta_z warp_factor calls s g,
     Random.unit_samples g ->
     Square5.CAMERA_NEAR_CLIP
       <= Square5.Star.z (fst (Square5.Star.updates ((delta_z, warp_factor) :: calls) s g))
       <= Square5.CAMERA_FAR_CLIP).
Proof.
split; intros dz wf calls s g Hg; simpl; unfold Random.bind.
- destruct (update6_in_range dz wf s g Hg) as [Hg' Hs'].
  destruct (Square6.Star.update dz wf s g) as [s' g']; simpl in *.
  apply updates6_in_range; assumption.
- destruct (update5_in_range dz wf s g Hg) as [Hg' Hs'].
  destruct (Square5.Star.update dz wf s g) as [s' g']; simpl in *.
  apply updates5_in_range; assumption.
Qed.

(** A star far behind the near clip, moved by two calls (the second one
    under warp), with every sample equal to one half. *)
Lemma star_depth_invariant_witness :
  Square6.CAMERA_NEAR_CLIP
    <= Square6.Star.z
         (fst (Square6.Star.updates [(-50, 0); (25, 1)] (star6_at (-7)) (Random.constant (1/2))))
    <= Square6.CAMERA_FAR_CLIP.
Proof.
apply (proj1 star_depth_invariant (-50) 0 [(25, 1)] (star6_at (-7)) (Random.constant (1/2))).
apply RandomFacts.constant_unit; lra.
Defined.

(** C8 (amended).  A star at depth [CAMERA_NEAR_CLIP - 1] that is updated
    once with [delta_z = 0] ends the call with a depth in
    [[CAMERA_FAR_CLIP - WORLD_SIZE / 2, CAMERA_FAR_CLIP]] in square6.py, and
    in [[CAMERA_FAR_CLIP - 100 - WORLD_SIZE, CAMERA_FAR_CLIP - 100]] in
    square5.py. *)
Theorem star_reset_interval :
  (forall warp_factor s g,
     Random.unit_samples g ->
     Square6.Star.z s = Square6.CAMERA_NEAR_CLIP - 1 ->
     Square6.CAMERA_FAR_CLIP - Square6.WORLD_SIZE / 2
       <= Square6.Star.z (fst (Square6.Star.update 0 warp_factor s g))
       <= Square6.CAMERA_FAR_CLIP) /\
  (forall warp_factor s g,
     Random.unit_samples g ->
     Square5.Star.z s = Square5.CAMERA_NEAR_CLIP - 1 ->
     Square5.CAMERA_FAR_CLIP - 100 - Square5.WORLD_SIZE
       <= Square5.Star.z (fst (Square5.Star.update 0 warp_factor s g))
       <= Square5.CAMERA_FAR_CLIP - 100).
Proof.
split; intros wf s g Hg Hz.
- destruct (update6_depth 0 wf s g Hg) as [_ H]; unfold moved6 in H.
  rewrite Hz in H; unfold Square6.CAMERA_NEAR_CLIP, Square6.CAMERA_FAR_CLIP in *.
  destruct H as [[H _]|[_ H]]; lra.
- destruct (update5_depth 0 wf s g Hg) as [_ H]; unfold moved5 in H.
  rewrite Hz in H; unfold Square5.CAMERA_NEAR_CLIP, Square5.CAMERA_FAR_CLIP in *.
  destruct H as [[H _]|[[H _]|[_ H]]]; lra.
Qed.

Lemma star_reset_interval_witness :
  Square6.CAMERA_FAR_CLIP - Square6.WORLD_SIZE / 2
    <= Square6.Star.z
         (fst (Square6.Star.update 0 0 (star6_at (Square6.CAMERA_NEAR_CLIP - 1))
                 (Random.constant (9/10))))
    <= Square6.CAMERA_FAR_CLIP.
Proof.
apply (proj1 star_reset_interval 0 (star6_at (Square6.CAMERA_NEAR_CLIP - 1))
         (Random.constant (9/10))).
- apply RandomFacts.constant_unit; lra.
- reflexivity.
Defined.

(** C8, as stated, fails on square5.py: with the sample 0.9 the star that
    starts at [CAMERA_NEAR_CLIP - 1] is put at depth 3100, below
    [CAMERA_FAR_CLIP - WORLD_SIZE / 2 = 4000]. *)
Lemma square5_reset_below_interval :
  let s := fst (Square5.Star.update 0 0 (star5_at (Square5.CAMERA_NEAR_CLIP - 1))
                  (Random.constant (9/10))) in
  Square5.Star.z s = 3100 /\
  ~ (Square5.CAMERA_FAR_CLIP - Square5.WORLD_SIZE / 2 <= Square5.Star.z s
       <= Square5.CAMERA_FAR_CLIP).
Proof.
assert (E : Square5.Star.z
              (fst (Square5.Star.update 0 0 (star5_at (Square5.CAMERA_NEAR_CLIP - 1))
                      (Random.constant (9/10)))) = 3100).
{ unfold Square5.Star.update.
  set (s1 := if Py.gtb 0 0.1 then _ else _).
  assert (Hz : Square5.Star.z s1 = 0).
  { subst s1; destruct (Py.gtb 0 0.1); cbn; unfold Square5.CAMERA_NEAR_CLIP; lra. }
  rewrite Hz.
  assert (Hn : Py.ltb 0 Square5.CAMERA_NEAR_CLIP = true).
  { apply PyFacts.ltb_true; unfold Square5.CAMERA_NEAR_CLIP; lra. }
  assert (Hf : Py.gtb 0 Square5.CAMERA_FAR_CLIP = false).
  { apply PyFacts.gtb_false; unfold Square5.CAMERA_FAR_CLIP; lra. }
  rewrite Hn, Hf; cbn.
  unfold Square5.CAMERA_FAR_CLIP, Square5.WORLD_SIZE; lra. }
cbv zeta; rewrite E; split; [reflexivity|].
unfold Square5.CAMERA_FAR_CLIP, Square5.WORLD_SIZE; lra.
Qed.

End Stars.

(** ** The divisor of the perspective divide *)

Module Divisor.







End Divisor.

(** ** Rotation *)

Module Rotation.

(** C5 (amended).  [rotate_point_3d] of square5.py and of square6.py are the
    same function.  The one of square4.py turns about the Y axis in the
    opposite direction: it returns what the other two return for the
    negated [angle_y]. *)
Theorem rotate_point_3d_variants :
  forall point angle_x angle_y angle_z,
    Square5.rotate_point_3d point angle_x angle_y angle_z
      = Square6.rotate_point_3d point angle_x angle_y angle_z /\
    Square4.rotate_point_3d point angle_x angle_y angle_z
      = Square5.rotate_point_3d point angle_x (- angle_y) angle_z.
Proof.
intros [[x y] z] ax ay az; split; [reflexivity|].
unfold Square4.rotate_point_3d, Square5.rotate_point_3d.
rewrite cos_neg, sin_neg.
f_equal; [f_equal|]; ring.
Qed.

(** C5, as stated, fails: a quarter turn about Y sends the point (1, 0, 0)
    to (0, 0, 1) in square4.py and to (0, 0, -1) in square5.py. *)
Lemma rotate_point_3d_quarter_turn :
  Square4.rotate_point_3d (1, 0, 0) 0 (PI / 2) 0 = (0, 0, 1) /\
  Square5.rotate_point_3d (1, 0, 0) 0 (PI / 2) 0 = (0, 0, -1) /\
  Square4.rotate_point_3d (1, 0, 0) 0 (PI / 2) 0
    <> Square5.rotate_point_3d (1, 0, 0) 0 (PI / 2) 0.
Proof.
assert (E4 : Square4.rotate_point_3d (1, 0, 0) 0 (PI / 2) 0 = (0, 0, 1)).
{ unfold Square4.rotate_point_3d; rewrite cos_0, sin_0, cos_PI2, sin_PI2.
  f_equal; [f_equal|]; ring. }
assert (E5 : Square5.rotate_point_3d (1, 0, 0) 0 (PI / 2) 0 = (0, 0, -1)).
{ unfold Square5.rotate_point_3d; rewrite cos_0, sin_0, cos_PI2, sin_PI2.
  f_equal; [f_equal|]; ring. }
repeat split; [exact E4 | exact E5 |].
rewrite E4, E5; intros H; injection H; lra.
Qed.

End Rotation.

(** ** The warp factor *)

Module Warp.

(** With [5 * dt] at most 1 the smoothing toward 1.0 stays in [[0, 1]] and
    does not decrease. *)
Lemma warp_tick_small_dt dt w :
  0 < dt -> 5 * dt <= 1 -> 0 <= w <= 1 ->
  w <= Square6.warp_tick true dt w <= 1.
Proof.
intros Hdt H5 Hw; unfold Square6.warp_tick, Square6.lerp.
replace 1.0 with 1 by lra; replace 5.0 with 5 by lra.
replace (w + (1 - w) * (5 * dt)) with (1 - (1 - w) * (1 - 5 * dt)) by ring.
assert (0 <= (1 - w) * (1 - 5 * dt)) by (apply Rmult_le_pos; lra).
assert (0 <= (1 - w) * (5 * dt)) by (apply Rmult_le_pos; lra).
lra.
Qed.

Lemma warp_ticks_small_dt n : forall dt w,
  0 < dt -> 5 * dt <= 1 -> 0 <= w <= 1 ->
  w <= Square6.warp_ticks n true dt w <= 1.
Proof.
induction n as [|n IH]; intros dt w Hdt H5 Hw; cbn [Square6.warp_ticks].
- lra.
- pose proof (warp_tick_small_dt dt w Hdt H5 Hw) as H1.
  assert (H2 : 0 <= Square6.warp_tick true dt w <= 1) by lra.
  pose proof (IH dt _ Hdt H5 H2); lra.
Qed.

(** The distance to 1.0 shrinks by the factor [1 - 5 * dt] in every tick. *)
Lemma warp_ticks_closed_form n : forall dt w,
  1 - Square6.warp_ticks n true dt w = (1 - 5 * dt) ^ n * (1 - w).
Proof.
induction n as [|n IH]; intros dt w; cbn [Square6.warp_ticks pow].
- lra.
- rewrite IH; unfold Square6.warp_tick, Square6.lerp.
  replace 1.0 with 1 by lra; replace 5.0 with 5 by lra; ring.
Qed.

(** C6: the code leaves the interval.  One tick of 0.3 s with the warp key
    on takes the warp factor from 0 to 1.5; two ticks of 0.5 s take it to
    2.5 and then to -1.25. *)
Theorem warp_factor_overshoot :
  Square6.warp_ticks 1 true 0.3 0 = 1.5 /\
  Square6.warp_ticks 1 true 0.5 0 = 2.5 /\
  Square6.warp_ticks 2 true 0.5 0 = -1.25.
Proof.
unfold Square6.warp_ticks, Square6.warp_tick, Square6.lerp; repeat split; lra.
Qed.

End Warp.

(** ** The particle system *)

Module Particles.

Import Square6.ParticleSystem.

(** What one pass through the body of the emission loop changes. *)
Lemma emit_spec pp pr s g :
  let s' := fst (emit pp pr s g) in
  max_particles s' = max_particles s /\
  emission_rate s' = emission_rate s /\
  time_since_last_emission s' = time_since_last_emission s /\
  length (particles s') =
    if (length (particles s) <? max_particles s)%nat
    then S (length (particles s)) else length (particles s).
Proof.
unfold emit.
destruct (length (particles s) <? max_particles s)%nat.
- destruct pr as [[rx ry] rz].
  destruct (Square6.rotate_point_3d (source_pos_relative s) rx ry rz) as [[sx sy] sz].
  destruct pp as [[ppx ppy] ppz].
  destruct (velocity_range s) as [[[[[v0 v1] v2] v3] v4] v5].
  cbv beta iota zeta delta [Random.bind Random.ret Random.uniform Random.random].
  cbn [fst with_particles max_particles emission_rate time_since_last_emission particles].
  rewrite length_app; simpl; repeat split; lia.
- unfold Random.ret; cbn [fst]; repeat split; reflexivity.
Qed.

Lemma emit_loop_spec n : forall pp pr s g,
  let s' := fst (emit_loop n pp pr s g) in
  max_particles s' = max_particles s /\
  emission_rate s' = emission_rate s /\
  time_since_last_emission s' = time_since_last_emission s /\
  (length (particles s) <= max_particles s ->
   length (particles s') = Nat.min (length (particles s) + n) (max_particles s))%nat.
Proof.
induction n as [|n IH]; intros pp pr s g; cbn [emit_loop].
- unfold Random.ret; cbn [fst]; repeat split; lia.
- unfold Random.bind.
  pose proof (emit_spec pp pr s g) as He.
  destruct (emit pp pr s g) as [s1 g1]; cbn [fst] in He.
  destruct He as (Hm & Hr & Ht & Hl).
  specialize (IH pp pr s1 g1); cbv zeta in IH.
  destruct IH as (Hm' & Hr' & Ht' & Hl').
  cbv zeta; repeat split; try congruence.
  intros Hle. rewrite Hl', Hl, Hm.
  + destruct (Nat.ltb_spec (length (particles s)) (max_particles s)); lia.
  + rewrite Hl, Hm.
    destruct (Nat.ltb_spec (length (particles s)) (max_particles s)); lia.
Qed.

(** The emission loop never holds more than [max_particles] particles,
    whatever the number of iterations. *)
Lemma emit_loop_bounded n pp pr s g :
  (length (particles s) <= max_particles s ->
   length (particles (fst (emit_loop n pp pr s g))) <= max_particles s)%nat.
Proof.
intros H; destruct (emit_loop_spec n pp pr s g) as (_ & _ & _ & Hl).
rewrite (Hl H); lia.
Qed.

(** [update] raises exactly when the rate is zero; otherwise it keeps a part
    of the particles the emission loop has produced and takes the emitted
    time off the accumulator. *)
Lemma update_spec dt pp pr cdz s g :
  let n := particles_to_emit dt s in
  let looped := fst (emit_loop (Py.range_len n) pp pr (timed dt s) g) in
  match fst (update dt pp pr cdz s g) with
  | None => emission_rate s = 0
  | Some s' =>
      emission_rate s <> 0 /\
      max_particles s' = max_particles s /\
      emission_rate s' = emission_rate s /\
      time_since_last_emission s'
        = time_since_last_emission s + dt - IZR n / emission_rate s /\
      (length (particles s') <= length (particles looped))%nat
  end.
Proof.
cbv zeta; unfold update, particles_to_emit, timed.
cbn [time_since_last_emission emission_rate with_time].
set (n := Py.int ((time_since_last_emission s + dt) * emission_rate s)).
set (s0 := with_time s (time_since_last_emission s + dt)).
unfold Random.bind.
pose proof (emit_loop_spec (Py.range_len n) pp pr s0 g) as H.
destruct (emit_loop (Py.range_len n) pp pr s0 g) as [s1 g1]; cbn [fst] in *.
destruct H as (Hm & Hr & Ht & _).
subst s0; cbn [max_particles emission_rate time_since_last_emission with_time] in *.
destruct (Req_dec_T (emission_rate s1) 0) as [E|E]; unfold Random.ret; cbn [fst].
- congruence.
- cbn [max_particles emission_rate time_since_last_emission with_particles with_time particles].
  repeat split; try congruence.
  etransitivity; [apply filter_length_le|]. rewrite length_map; lia.
Qed.

Lemma updates_bounded calls : forall s g,
  (length (particles s) <= max_particles s)%nat ->
  match fst (updates calls s g) with
  | None => emission_rate s = 0
  | Some s' =>
      (length (particles s') <= max_particles s)%nat /\
      max_particles s' = max_particles s /\
      emission_rate s' = emission_rate s
  end.
Proof.
induction calls as [|c calls IH]; intros s g Hs; cbn [updates].
- unfold Random.ret; cbn [fst]; repeat split; assumption.
- unfold Random.bind.
  pose proof (update_spec (dt c) (parent_pos c) (parent_rotation c)
                (camera_delta_z c) s g) as Hu.
  pose proof (emit_loop_bounded (Py.range_len (particles_to_emit (dt c) s))
                (parent_pos c) (parent_rotation c) (timed (dt c) s) g Hs) as Hb.
  cbv zeta in Hu.
  destruct (update (dt c) (parent_pos c) (parent_rotation c) (camera_delta_z c) s g)
    as [[s1|] g1]; cbn [fst] in Hu.
  + destruct Hu as (Hr & Hm & Hr' & _ & Hl).
    cbn [timed with_time max_particles] in Hb.
    assert (Hs1 : (length (particles s1) <= max_particles s1)%nat) by lia.
    specialize (IH s1 g1 Hs1).
    destruct (fst (updates calls s1 g1)) as [s2|].
    * destruct IH as (H1 & H2 & H3); repeat split; congruence || lia.
    * congruence.
  + unfold Random.ret; cbn [fst]; exact Hu.
Qed.

(** C7.  A particle system built by [ParticleSystem(...)] and driven by any
    sequence of [update] calls, with any [dt] and any emission rate, never
    stores more than [max_particles] particles: not when an update has
    returned, and not after any number of iterations of the emission loop of
    a further update.  An update fails only by the division by an emission
    rate of zero. *)
Theorem particle_count_bounded :
  forall source_pos_relative max_particles color size_range velocity_range
         lifetime_range emission_rate calls g,
    match fst (updates calls
                 (init source_pos_relative max_particles color size_range
                    velocity_range lifetime_range emission_rate) g) with
    | None => emission_rate = 0
    | Some s' =>
        (length (particles s') <= max_particles)%nat /\
        forall k dt parent_pos parent_rotation g',
          (length (particles
                     (fst (emit_loop k parent_pos parent_rotation (timed dt s') g')))
           <= max_particles)%nat
    end.
Proof.
intros src mx col sr vr lr rate calls g.
pose proof (updates_bounded calls (init src mx col sr vr lr rate) g) as H.
cbn [init particles max_particles emission_rate length] in H.
specialize (H (Nat.le_0_l mx)).
destruct (fst (updates calls (init src mx col sr vr lr rate) g)) as [s'|]; [|exact H].
destruct H as (Hl & Hm & _); split; [exact Hl|].
intros k dt pp pr g'.
pose proof (emit_loop_bounded k pp pr (timed dt s') g') as Hb.
cbn [timed with_time max_particles particles] in Hb.
rewrite Hm in Hb; apply Hb; exact Hl.
Qed.






End Particles.

(** ** The depth-sorted compositor *)

Module Compositor.

(** *** The sort *)

Section SortFacts.
Context {A : Type} (key : A -> R).

Lemma insert_desc_perm a xs : Permutation (Py.insert_desc key a xs) (a :: xs).
Proof.
induction xs as [|b xs IH]; simpl.
- apply Permutation_refl.
- destruct (Py.ltb (key a) (key b)).
  + rewrite IH; apply perm_swap.
  + apply Permutation_refl.
Qed.

Lemma sort_reverse_perm xs : Permutation (Py.sort_reverse key xs) xs.
Proof.
induction xs as [|a xs IH]; simpl.
- apply perm_nil.
- rewrite insert_desc_perm; apply perm_skip; exact IH.
Qed.

Lemma insert_desc_sorted a xs :
  StronglySorted (not_before key) xs -> StronglySorted (not_before key) (Py.insert_desc key a xs).
Proof.
induction xs as [|b xs IH]; simpl; intros Hs.
- constructor; constructor.
- apply StronglySorted_inv in Hs; destruct Hs as [Hxs Hb].
  destruct (Py.ltb (key a) (key b)) eqn:E.
  + apply PyFacts.ltb_true in E.
    constructor; [apply IH; exact Hxs|].
    apply (Permutation_Forall (Permutation_sym (insert_desc_perm a xs))).
    constructor; [unfold not_before; lra | exact Hb].
  + apply PyFacts.ltb_false in E.
    constructor; [constructor; assumption|].
    constructor; [unfold not_before; lra|].
    apply (Forall_impl _ (P := not_before key b)); [|exact Hb].
    unfold not_before; intros c Hc; lra.
Qed.

Lemma sort_reverse_sorted xs : StronglySorted (not_before key) (Py.sort_reverse key xs).
Proof.
induction xs as [|a xs IH]; simpl.
- constructor.
- apply insert_desc_sorted; exact IH.
Qed.

Lemma filter_sorted (R0 : A -> A -> Prop) f xs :
  StronglySorted R0 xs -> StronglySorted R0 (filter f xs).
Proof.
induction 1 as [|a xs Hs IH Ha]; simpl.
- constructor.
- destruct (f a); [|exact IH].
  constructor; [exact IH|].
  apply Forall_forall; intros b Hb; apply filter_In in Hb.
  rewrite Forall_forall in Ha; apply Ha, Hb.
Qed.

Lemma distinct_keys_strict xs :
  NoDup (map key xs) -> StronglySorted (not_before key) xs -> StronglySorted (strictly_before key) xs.
Proof.
intros Hnd Hs; induction Hs as [|a xs Hs IH Ha]; [constructor|].
simpl in Hnd; apply NoDup_cons_iff in Hnd; destruct Hnd as [Hin Hnd].
constructor; [apply IH; exact Hnd|].
rewrite Forall_forall in *; intros b Hb.
specialize (Ha b Hb); unfold not_before, strictly_before in *.
destruct (Req_dec_T (key a) (key b)) as [E|E]; [|lra].
exfalso; apply Hin; rewrite E; apply in_map; exact Hb.
Qed.

Lemma filter_keys_distinct f xs :
  NoDup (map key xs) -> NoDup (map key (filter f xs)).
Proof.
induction xs as [|a xs IH]; simpl; intros Hnd; [constructor|].
apply NoDup_cons_iff in Hnd; destruct Hnd as [Hin Hnd].
destruct (f a); [|apply IH; exact Hnd].
simpl; constructor; [|apply IH; exact Hnd].
intros Hc; apply Hin.
apply in_map_iff in Hc; destruct Hc as (b & Hb & Hbin).
apply filter_In in Hbin; rewrite <- Hb; apply in_map, Hbin.
Qed.

End SortFacts.

(** The order in which a frame draws its polygons. *)
Lemma draw_order_sorted polys :
  StronglySorted (not_before Mesh.depth_key) (Mesh.draw_order polys) /\
  (NoDup (map Mesh.depth_key polys) ->
   StronglySorted (strictly_before Mesh.depth_key) (Mesh.draw_order polys)) /\
  Permutation (Mesh.draw_order polys) (filter Mesh.is_drawn polys).
Proof.
unfold Mesh.draw_order; repeat split.
- apply filter_sorted, sort_reverse_sorted.
- intros Hnd; apply distinct_keys_strict.
  + apply filter_keys_distinct.
    apply (Permutation_NoDup
             (Permutation_map _ (Permutation_sym (sort_reverse_perm _ polys))) Hnd).
  + apply filter_sorted, sort_reverse_sorted.
- generalize (sort_reverse_perm Mesh.depth_key polys).
  generalize (Py.sort_reverse Mesh.depth_key polys); intros l Hp.
  induction Hp as [|a l l' Hp IH|a b l|l l' l'' _ IH1 _ IH2]; simpl.
  + constructor.
  + destruct (Mesh.is_drawn a); [apply perm_skip|]; exact IH.
  + destruct (Mesh.is_drawn a), (Mesh.is_drawn b);
      try apply Permutation_refl; apply perm_swap.
  + etransitivity; eassumption.
Qed.

(** *** The depth keys *)

Lemma index_all_map {A B} (f : A -> B) (d : A) (xs : list A) (idxs : list nat) :
  Forall (fun i => (i < length xs)%nat) idxs ->
  Mesh.index_all (map f xs) idxs = Some (map (fun i => f (nth i xs d)) idxs).
Proof.
induction 1 as [|i idxs Hi _ IH]; simpl; [reflexivity|].
rewrite IH, nth_error_map, (nth_error_nth' xs d Hi); reflexivity.
Qed.

Lemma sum_map_shift {A} (f : A -> R) (c : R) (xs : list A) :
  Py.sum (map f xs) = Py.sum (map (fun a => f a - c) xs) + Py.len xs * c.
Proof.
unfold Py.len; induction xs as [|a xs IH].
- simpl; rewrite PyFacts.sum_nil; lra.
- cbn [map]; rewrite !PyFacts.sum_cons, IH.
  change (length (a :: xs)) with (S (length xs)); rewrite S_INR; lra.
Qed.

(** The world-space key is the camera-space key moved by the camera depth. *)
Lemma face_world_view_depth camera_z world face :
  face <> [] ->
  face_world_depth world face = face_view_depth camera_z world face + camera_z.
Proof.
intros Hne; unfold face_world_depth, face_view_depth, view_depth.
rewrite (sum_map_shift (fun i => snd (vertex_at world i)) camera_z).
assert (Hlen : Py.len face <> 0).
{ unfold Py.len; destruct face; [contradiction|].
  apply not_0_INR; discriminate. }
field; exact Hlen.
Qed.

(** *** square6.py *)

Section Square6Frame.
Variables camera_x camera_y camera_z : R.

Let near := Square6.CAMERA_NEAR_CLIP.
Let far := Square6.CAMERA_FAR_CLIP.

Let project (v : point3) :=
  Square6.project_point v camera_x camera_y camera_z
    (IZR (Square6.WIDTH / 2)) (IZR (Square6.HEIGHT / 2)) Square6.CAMERA_DEFAULT_Z.

Lemma all_not_none6 world face :
  Mesh.all_not_none (map (fun i => project (vertex_at world i)) face) =
  if in_view near far camera_z world face
  then Some (map (fun i =>
                    let v := vertex_at world i in
                    let d := view_depth v camera_z in
                    ((fst (fst v) - camera_x) * (Square6.CAMERA_DEFAULT_Z / d)
                       + IZR (Square6.WIDTH / 2),
                     (snd (fst v) - camera_y) * (Square6.CAMERA_DEFAULT_Z / d)
                       + IZR (Square6.HEIGHT / 2),
                     falloff near far d, d)) face)
  else None.
Proof.
induction face as [|i face IH]; [reflexivity|].
cbn [map Mesh.all_not_none in_view forallb].
fold (in_view near far camera_z world face).
set (d := view_depth (vertex_at world i) camera_z).
destruct (Py.ltb d near || Py.gtb d far) eqn:E; cbn [negb andb].
- apply PyFacts.clip_true in E.
  subst project; cbv beta.
  rewrite (proj2 (Projection.project_point6_none _ _ _ _ _ _ _) E); reflexivity.
- apply PyFacts.clip_false in E.
  subst project; cbv beta.
  rewrite (Projection.project_point6_some _ _ _ _ _ _ _ E), IH.
  destruct (in_view near far camera_z world face); reflexivity.
Qed.

Lemma face_polygons6 obj world i face :
  face <> [] ->
  Forall (fun v_idx => (v_idx < length world)%nat) face ->
  exists polys,
    Square6.face_polygons obj world
      (Square6.projected_vertices_data (camera_x, camera_y, camera_z) world) (i, face)
      = Some polys /\
    map Mesh.depth_key polys =
      if in_view near far camera_z world face
      then [face_view_depth camera_z world face] else [].
Proof.
intros Hne Hidx; unfold Square6.face_polygons, Square6.projected_vertices_data.
rewrite (index_all_map _ (0, 0, 0) world face Hidx).
change (fun i0 : nat =>
          Square6.project_point (nth i0 world (0, 0, 0)) camera_x camera_y camera_z
            (IZR (Square6.WIDTH / 2)) (IZR (Square6.HEIGHT / 2))
            Square6.CAMERA_DEFAULT_Z)
  with (fun i0 => project (vertex_at world i0)).
rewrite all_not_none6.
destruct (in_view near far camera_z world face).
- destruct face as [|v face]; [contradiction|].
  cbn [length Nat.eqb].
  eexists; split; [reflexivity|].
  cbn [map Mesh.depth_key fst]; unfold face_view_depth.
  rewrite map_map; reflexivity.
- eexists; split; reflexivity.
Qed.

Lemma object_faces6 obj world faces : forall i,
  Forall (fun face => face <> [] /\
                      Forall (fun v_idx => (v_idx < length world)%nat) face) faces ->
  exists polys,
    Mesh.for_each
      (Square6.face_polygons obj world
         (Square6.projected_vertices_data (camera_x, camera_y, camera_z) world))
      (Mesh.enumerate_from i faces) = Some polys /\
    map Mesh.depth_key polys =
      map (face_view_depth camera_z world) (filter (in_view near far camera_z world) faces).
Proof.
induction faces as [|face faces IH]; intros i Hwf; cbn [Mesh.enumerate_from Mesh.for_each].
- exists []; split; reflexivity.
- inversion Hwf as [|f fs [Hne Hidx] Hrest]; subst.
  destruct (face_polygons6 obj world i face Hne Hidx) as (p1 & E1 & K1).
  destruct (IH (S i) Hrest) as (p2 & E2 & K2).
  rewrite E1, E2; exists (p1 ++ p2); split; [reflexivity|].
  rewrite map_app, K1, K2; cbn [filter].
  destruct (in_view near far camera_z world face); reflexivity.
Qed.

Lemma all_polygons6 objs :
  Forall well_formed objs ->
  exists polys,
    Square6.all_polygons_to_draw (camera_x, camera_y, camera_z) objs = Some polys /\
    map Mesh.depth_key polys =
      flat_map (fun obj =>
                  map (face_view_depth camera_z (Square6.transformed_vertices obj))
                      (filter (in_view near far camera_z (Square6.transformed_vertices obj))
                              (Mesh.faces obj)))
               objs.
Proof.
unfold Square6.all_polygons_to_draw.
induction 1 as [|obj objs Hobj _ IH]; cbn [Mesh.for_each flat_map].
- exists []; split; reflexivity.
- destruct IH as (p2 & E2 & K2).
  assert (Hwf : Forall (fun face => face <> [] /\
                  Forall (fun v_idx =>
                            (v_idx < length (Square6.transformed_vertices obj))%nat) face)
                  (Mesh.faces obj)).
  { unfold Square6.transformed_vertices; rewrite length_map; exact Hobj. }
  destruct (object_faces6 obj (Square6.transformed_vertices obj) (Mesh.faces obj) 0%nat Hwf)
    as (p1 & E1 & K1).
  rewrite E2; unfold Square6.object_polygons, Mesh.enumerate.
  rewrite E1; exists (p1 ++ p2); split; [reflexivity|].
  rewrite map_app, K1, K2; reflexivity.
Qed.

End Square6Frame.

(** *** square5.py *)

Section Square5Frame.
Variables camera_x camera_y camera_z : R.

Let near := Square5.CAMERA_NEAR_CLIP.
Let far := Square5.CAMERA_FAR_CLIP.

Let project (v : point3) :=
  Square5.project_point v camera_x camera_y camera_z
    (IZR (Square5.WIDTH / 2)) (IZR (Square5.HEIGHT / 2)) Square5.CAMERA_DEFAULT_Z.

Lemma all_projected5 world face :
  Forall (fun v_idx => (v_idx < length world)%nat) face ->
  Square5.all_projected (map project world) face
    = Some (in_view near far camera_z world face).
Proof.
induction 1 as [|i face Hi _ IH]; [reflexivity|].
cbn [Square5.all_projected in_view forallb].
fold (in_view near far camera_z world face).
rewrite nth_error_map, (nth_error_nth' world (0, 0, 0) Hi); cbn [option_map].
fold (vertex_at world i).
set (d := view_depth (vertex_at world i) camera_z).
destruct (Py.ltb d near || Py.gtb d far) eqn:E; cbn [negb andb].
- apply PyFacts.clip_true in E.
  subst project; cbv beta.
  rewrite (proj2 (Projection.project_point5_none _ _ _ _ _ _ _) E); reflexivity.
- apply PyFacts.clip_false in E.
  subst project; cbv beta.
  rewrite (Projection.project_point5_some _ _ _ _ _ _ _ E); exact IH.
Qed.

Lemma all_not_none5 world face :
  in_view near far camera_z world face = true ->
  exists visible,
    Mesh.all_not_none (map (fun i => project (vertex_at world i)) face) = Some visible.
Proof.
induction face as [|i face IH]; intros Hv.
- exists []; reflexivity.
- cbn [in_view forallb] in Hv; apply andb_true_iff in Hv; destruct Hv as [Hi Hv].
  destruct (IH Hv) as (visible & E).
  apply negb_true_iff, PyFacts.clip_false in Hi.
  cbn [map Mesh.all_not_none]; subst project; cbv beta.
  rewrite (Projection.project_point5_some _ _ _ _ _ _ _ Hi).
  cbv beta in E; rewrite E; eexists; reflexivity.
Qed.

Lemma face_polygons5 obj world i face :
  face <> [] ->
  Forall (fun v_idx => (v_idx < length world)%nat) face ->
  exists polys,
    Square5.face_polygons obj world
      (Square5.projected_vertices (camera_x, camera_y, camera_z) world) (i, face)
      = Some polys /\
    map Mesh.depth_key polys =
      if in_view near far camera_z world face
      then [face_world_depth world face] else [].
Proof.
intros Hne Hidx; unfold Square5.face_polygons, Square5.projected_vertices.
change (fun v_world : point3 =>
          Square5.project_point v_world camera_x camera_y camera_z
            (IZR (Square5.WIDTH / 2)) (IZR (Square5.HEIGHT / 2))
            Square5.CAMERA_DEFAULT_Z) with project.
rewrite (all_projected5 world face Hidx).
destruct (in_view near far camera_z world face) eqn:Hv.
- pose proof (index_all_map (fun v : point3 => v) (0, 0, 0) world face Hidx) as Ew.
  rewrite map_id in Ew; rewrite Ew.
  destruct face as [|v face]; [contradiction|].
  cbn [length Nat.eqb].
  rewrite (index_all_map project (0, 0, 0) world (v :: face) Hidx).
  destruct (all_not_none5 world (v :: face) Hv) as (visible & E).
  unfold vertex_at in E; rewrite E.
  eexists; split; [reflexivity|].
  cbn [map Mesh.depth_key fst]; unfold face_world_depth.
  rewrite map_map; reflexivity.
- eexists; split; reflexivity.
Qed.

Lemma object_faces5 obj world faces : forall i,
  Forall (fun face => face <> [] /\
                      Forall (fun v_idx => (v_idx < length world)%nat) face) faces ->
  exists polys,
    Mesh.for_each
      (Square5.face_polygons obj world
         (Square5.projected_vertices (camera_x, camera_y, camera_z) world))
      (Mesh.enumerate_from i faces) = Some polys /\
    map Mesh.depth_key polys =
      map (fun face => face_view_depth camera_z world face + camera_z)
          (filter (in_view near far camera_z world) faces).
Proof.
induction faces as [|face faces IH]; intros i Hwf; cbn [Mesh.enumerate_from Mesh.for_each].
- exists []; split; reflexivity.
- inversion Hwf as [|f fs [Hne Hidx] Hrest]; subst.
  destruct (face_polygons5 obj world i face Hne Hidx) as (p1 & E1 & K1).
  destruct (IH (S i) Hrest) as (p2 & E2 & K2).
  rewrite E1, E2; exists (p1 ++ p2); split; [reflexivity|].
  rewrite map_app, K1, K2; cbn [filter].
  destruct (in_view near far camera_z world face); [|reflexivity].
  cbn [map app]; rewrite (face_world_view_depth camera_z world face Hne); reflexivity.
Qed.

Lemma all_polygons5 objs :
  Forall well_formed objs ->
  exists polys,
    Square5.all_polygons_to_draw (camera_x, camera_y, camera_z) objs = Some polys /\
    map Mesh.depth_key polys =
      flat_map (fun obj =>
                  map (fun face =>
                         face_view_depth camera_z (Square5.transformed_vertices obj) face
                         + camera_z)
                      (filter (in_view near far camera_z (Square5.transformed_vertices obj))
                              (Mesh.faces obj)))
               objs.
Proof.
unfold Square5.all_polygons_to_draw.
induction 1 as [|obj objs Hobj _ IH]; cbn [Mesh.for_each flat_map].
- exists []; split; reflexivity.
- destruct IH as (p2 & E2 & K2).
  assert (Hwf : Forall (fun face => face <> [] /\
                  Forall (fun v_idx =>
                            (v_idx < length (Square5.transformed_vertices obj))%nat) face)
                  (Mesh.faces obj)).
  { unfold Square5.transformed_vertices; rewrite length_map; exact Hobj. }
  destruct (object_faces5 obj (Square5.transformed_vertices obj) (Mesh.faces obj) 0%nat Hwf)
    as (p1 & E1 & K1).
  rewrite E2; unfold Square5.object_polygons, Mesh.enumerate.
  rewrite E1; exists (p1 ++ p2); split; [reflexivity|].
  rewrite map_app, K1, K2; reflexivity.
Qed.

End Square5Frame.

(** *** The cube of [main] *)

Ltac list_of_points :=
  repeat match goal with
         | |- (_ :: _) = (_ :: _) => apply (f_equal2 cons)
         | |- (_, _) = (_, _) => apply (f_equal2 pair)
         | |- @eq R _ _ => lra
         | |- [] = [] => reflexivity
         end.

Lemma red_cube_world6 : Square6.transformed_vertices Square6.red_cube = cube_world.
Proof.
unfold Square6.transformed_vertices, Square6.red_cube, Mesh.Cube, cube_world.
cbn [Mesh.vertices Mesh.angle_x Mesh.angle_y Mesh.angle_z Mesh.scale
     Mesh.x Mesh.y Mesh.z map Square6.rotate_point_3d].
rewrite cos_0, sin_0; list_of_points.
Qed.

Lemma red_cube_world5 : Square5.transformed_vertices Square5.red_cube = cube_world.
Proof.
unfold Square5.transformed_vertices, Square5.red_cube, Mesh.Cube, cube_world.
cbn [Mesh.vertices Mesh.angle_x Mesh.angle_y Mesh.angle_z Mesh.scale
     Mesh.x Mesh.y Mesh.z map Square5.rotate_point_3d].
rewrite cos_0, sin_0; list_of_points.
Qed.

Lemma cube_well_formed position size color : well_formed (Mesh.Cube position size color).
Proof.
destruct position as [[px py] pz]; unfold well_formed, Mesh.Cube.
cbn [Mesh.faces Mesh.vertices length].
repeat constructor; try discriminate; lia.
Qed.

Lemma in_range_true d near far :
  near <= d <= far -> negb (Py.ltb d near || Py.gtb d far) = true.
Proof. intros H; apply negb_true_iff, PyFacts.clip_false; exact H. Qed.

(** C2 (amended).  The polygons that [main] collects from all mesh
    entities are drawn in descending order of their depth key, strictly
    descending when the keys are distinct, and the drawn polygons are the
    collected ones that pass the size test of the draw loop.  For meshes
    whose faces are non-empty tuples of valid vertex indices the collection
    succeeds and holds one polygon per face without a clipped vertex.  In
    square6.py the key of a face is the average view depth (world z minus
    camera z) of its vertices.  In square5.py the key is the average world z
    of its vertices, which is that average view depth plus the camera z. *)
Theorem painter_depth_order :
  (forall polys,
     StronglySorted (not_before Mesh.depth_key) (Mesh.draw_order polys) /\
     (NoDup (map Mesh.depth_key polys) ->
      StronglySorted (strictly_before Mesh.depth_key) (Mesh.draw_order polys)) /\
     Permutation (Mesh.draw_order polys) (filter Mesh.is_drawn polys)) /\
  (forall camera_x camera_y camera_z objs,
     Forall well_formed objs ->
     exists polys,
       Square6.all_polygons_to_draw (camera_x, camera_y, camera_z) objs = Some polys /\
       Square6.frame_polygons (camera_x, camera_y, camera_z) objs
         = Some (Mesh.draw_order polys) /\
       map Mesh.depth_key polys =
         flat_map (fun obj =>
                     let world := Square6.transformed_vertices obj in
                     map (face_view_depth camera_z world)
                         (filter (in_view Square6.CAMERA_NEAR_CLIP Square6.CAMERA_FAR_CLIP
                                    camera_z world)
                                 (Mesh.faces obj)))
                  objs) /\
  (forall camera_x camera_y camera_z objs,
     Forall well_formed objs ->
     exists polys,
       Square5.all_polygons_to_draw (camera_x, camera_y, camera_z) objs = Some polys /\
       Square5.frame_polygons (camera_x, camera_y, camera_z) objs
         = Some (Mesh.draw_order polys) /\
       map Mesh.depth_key polys =
         flat_map (fun obj =>
                     let world := Square5.transformed_vertices obj in
                     map (fun face => face_view_depth camera_z world face + camera_z)
                         (filter (in_view Square5.CAMERA_NEAR_CLIP Square5.CAMERA_FAR_CLIP
                                    camera_z world)
                                 (Mesh.faces obj)))
                  objs).
Proof.
split; [exact draw_order_sorted|]. split.
- intros cx cy cz objs Hwf.
  destruct (all_polygons6 cx cy cz objs Hwf) as (polys & E & K).
  exists polys; repeat split; [exact E | | exact K].
  unfold Square6.frame_polygons; rewrite E; reflexivity.
- intros cx cy cz objs Hwf.
  destruct (all_polygons5 cx cy cz objs Hwf) as (polys & E & K).
  exists polys; repeat split; [exact E | | exact K].
  unfold Square5.frame_polygons; rewrite E; reflexivity.
Qed.

(** The cube of [main] seen by a camera that has advanced 100 units. *)
Lemma painter_depth_order_witness :
  exists polys,
    Square6.all_polygons_to_draw (0, 0, 100) [Square6.red_cube] = Some polys /\
    Square6.frame_polygons (0, 0, 100) [Square6.red_cube] = Some (Mesh.draw_order polys) /\
    map Mesh.depth_key polys =
      flat_map (fun obj =>
                  let world := Square6.transformed_vertices obj in
                  map (face_view_depth 100 world)
                      (filter (in_view Square6.CAMERA_NEAR_CLIP Square6.CAMERA_FAR_CLIP
                                 100 world)
                              (Mesh.faces obj)))
               [Square6.red_cube].
Proof.
apply (proj1 (proj2 painter_depth_order) 0 0 100 [Square6.red_cube]).
constructor; [apply cube_well_formed | constructor].
Defined.

(** C2, as stated, fails on square5.py: with the camera at depth 100 the
    front face of the cube of [main] gets the key 450, the average world z
    of its vertices, while their average view depth is 350. *)
Lemma square5_key_is_world_depth :
  exists polys,
    Square5.all_polygons_to_draw (0, 0, 100) [Square5.red_cube] = Some polys /\
    hd_error (map Mesh.depth_key polys) = Some 450 /\
    face_view_depth 100 (Square5.transformed_vertices Square5.red_cube) [0; 1; 2; 3]%nat
      = 350.
Proof.
assert (Hwf : Forall well_formed [Square5.red_cube]).
{ constructor; [apply cube_well_formed | constructor]. }
destruct (all_polygons5 0 0 100 [Square5.red_cube] Hwf) as (polys & E & K).
assert (Hd : face_view_depth 100 cube_world [0; 1; 2; 3]%nat = 350).
{ unfold face_view_depth, Py.sum, Py.len, view_depth, vertex_at, cube_world.
  cbn [map nth fold_left snd length INR]. lra. }
exists polys; split; [exact E|]. rewrite red_cube_world5. split; [|exact Hd].
rewrite K; cbn [flat_map]; rewrite red_cube_world5.
unfold Square5.red_cube at 1, Mesh.Cube at 1; cbn [Mesh.faces filter].
assert (Hv : in_view Square5.CAMERA_NEAR_CLIP Square5.CAMERA_FAR_CLIP 100 cube_world
               [0; 1; 2; 3]%nat = true).
{ unfold in_view, view_depth, vertex_at, cube_world.
  cbn [forallb nth snd].
  rewrite !in_range_true;
    [reflexivity | unfold Square5.CAMERA_NEAR_CLIP, Square5.CAMERA_FAR_CLIP; lra ..]. }
rewrite Hv; cbn [map app hd_error]; rewrite Hd; f_equal; lra.
Qed.

End Compositor.

(** ** Rotation, interpolation and perspective *)

Module Geometry.

(** One planar rotation keeps the sum of the two squares. *)
Lemma planar_rotation a b c s :
  c * c + s * s = 1 ->
  (a * c - b * s) * (a * c - b * s) + (a * s + b * c) * (a * s + b * c) = a * a + b * b.
Proof.
intros H.
replace ((a * c - b * s) * (a * c - b * s) + (a * s + b * c) * (a * s + b * c))
  with ((a * a + b * b) * (c * c + s * s)) by ring.
rewrite H; ring.
Qed.

Lemma planar_rotation' a b c s :
  c * c + s * s = 1 ->
  (a * c + b * s) * (a * c + b * s) + (- a * s + b * c) * (- a * s + b * c) = a * a + b * b.
Proof.
intros H.
replace ((a * c + b * s) * (a * c + b * s) + (- a * s + b * c) * (- a * s + b * c))
  with ((a * a + b * b) * (c * c + s * s)) by ring.
rewrite H; ring.
Qed.

Lemma cos_sin_unit a : cos a * cos a + sin a * sin a = 1.
Proof. pose proof (sin2_cos2 a) as H; unfold Rsqr in H; lra. Qed.

(** X1.  With the three angles at zero [rotate_point_3d] returns the point
    it was given, in square4.py, square5.py and square6.py. *)
Theorem rotate_point_3d_zero :
  forall point,
    Square4.rotate_point_3d point 0 0 0 = point /\
    Square5.rotate_point_3d point 0 0 0 = point /\
    Square6.rotate_point_3d point 0 0 0 = point.
Proof.
intros [[x y] z].
unfold Square4.rotate_point_3d, Square5.rotate_point_3d, Square6.rotate_point_3d.
rewrite cos_0, sin_0.
repeat split; (f_equal; [f_equal|]; ring).
Qed.

(** X2.  [rotate_point_3d] keeps the distance of a point from the origin:
    the sum of the squares of the coordinates is the same before and after,
    for every angle triple and in each of the three variants. *)
Theorem rotate_point_3d_norm :
  forall point angle_x angle_y angle_z,
    sq_norm (Square4.rotate_point_3d point angle_x angle_y angle_z) = sq_norm point /\
    sq_norm (Square5.rotate_point_3d point angle_x angle_y angle_z) = sq_norm point /\
    sq_norm (Square6.rotate_point_3d point angle_x angle_y angle_z) = sq_norm point.
Proof.
intros [[x y] z] ax ay az.
pose proof (cos_sin_unit ax) as Hx.
pose proof (cos_sin_unit ay) as Hy.
pose proof (cos_sin_unit az) as Hz.
assert (H4 : sq_norm (Square4.rotate_point_3d (x, y, z) ax ay az) = sq_norm (x, y, z)).
{ unfold Square4.rotate_point_3d, sq_norm; cbn [fst snd].
  set (y1 := y * cos ax - z * sin ax).
  set (z1 := y * sin ax + z * cos ax).
  set (x2 := x * cos ay - z1 * sin ay).
  set (z2 := x * sin ay + z1 * cos ay).
  pose proof (planar_rotation x2 y1 _ _ Hz) as E3.
  pose proof (planar_rotation x z1 _ _ Hy) as E2; fold x2 z2 in E2.
  pose proof (planar_rotation y z _ _ Hx) as E1; fold y1 z1 in E1.
  lra. }
assert (H5 : sq_norm (Square5.rotate_point_3d (x, y, z) ax ay az) = sq_norm (x, y, z)).
{ unfold Square5.rotate_point_3d, sq_norm; cbn [fst snd].
  set (y1 := y * cos ax - z * sin ax).
  set (z1 := y * sin ax + z * cos ax).
  set (x2 := x * cos ay + z1 * sin ay).
  set (z2 := - x * sin ay + z1 * cos ay).
  pose proof (planar_rotation x2 y1 _ _ Hz) as E3.
  pose proof (planar_rotation' x z1 _ _ Hy) as E2; fold x2 z2 in E2.
  pose proof (planar_rotation y z _ _ Hx) as E1; fold y1 z1 in E1.
  lra. }
repeat split; [exact H4 | exact H5 | exact H5].
Qed.

(** X3.  [lerp] returns [a] at [t = 0] and [b] at [t = 1], and for [t] in
    [[0, 1]] its value lies between [a] and [b]. *)
Theorem lerp_between :
  forall a b t,
    Square6.lerp a b 0 = a /\ Square6.lerp a b 1 = b /\
    (0 <= t <= 1 -> Rmin a b <= Square6.lerp a b t <= Rmax a b).
Proof.
intros a b t; unfold Square6.lerp; repeat split; try lra;
  intros; unfold Rmin, Rmax; destruct (Rle_dec a b); nra.
Qed.

Lemma lerp_between_witness : Rmin 10 30 <= Square6.lerp 10 30 0.25 <= Rmax 10 30.
Proof. apply (lerp_between 10 30 0.25); lra. Defined.

(** X4.  Perspective is inversely proportional to depth: when a point is
    moved [k] times as far from the camera along the viewing axis and both
    positions are projected, its offset from the screen centre is divided by
    [k]. *)
Theorem project_point_inverse_depth :
  forall px py pz camera_x camera_y camera_z scx scy d k r r',
    0 < k ->
    Square6.project_point (px, py, pz) camera_x camera_y camera_z scx scy d = Some r ->
    Square6.project_point (px, py, camera_z + k * (pz - camera_z))
      camera_x camera_y camera_z scx scy d = Some r' ->
    screen_x r' - scx = (screen_x r - scx) / k /\
    screen_y r' - scy = (screen_y r - scy) / k.
Proof.
intros px py pz cx cy cz scx scy d k r r' Hk Hr Hr'.
apply Projection.project_point6_inv in Hr, Hr'.
destruct Hr as [Hin ->], Hr' as [Hin' ->].
unfold screen_x, screen_y, view_depth in *; cbn [fst snd] in *.
unfold Square6.CAMERA_NEAR_CLIP in Hin.
replace (cz + k * (pz - cz) - cz) with (k * (pz - cz)) by ring.
split; field; split; lra.
Qed.

Lemma project_point_inverse_depth_witness :
  screen_x (90 * (300 / (view_depth (90, 60, 600) 0)) + 600,
            60 * (300 / (view_depth (90, 60, 600) 0)) + 400,
            falloff Square6.CAMERA_NEAR_CLIP Square6.CAMERA_FAR_CLIP
              (view_depth (90, 60, 600) 0),
            view_depth (90, 60, 600) 0) - 600
  = (screen_x (90 * (300 / (view_depth (90, 60, 300) 0)) + 600,
               60 * (300 / (view_depth (90, 60, 300) 0)) + 400,
               falloff Square6.CAMERA_NEAR_CLIP Square6.CAMERA_FAR_CLIP
                 (view_depth (90, 60, 300) 0),
               view_depth (90, 60, 300) 0) - 600) / 2.
Proof.
assert (H1 : Square6.CAMERA_NEAR_CLIP <= view_depth (90, 60, 300) 0
             <= Square6.CAMERA_FAR_CLIP).
{ unfold view_depth, Square6.CAMERA_NEAR_CLIP, Square6.CAMERA_FAR_CLIP; simpl; lra. }
assert (H2 : Square6.CAMERA_NEAR_CLIP <= view_depth (90, 60, 0 + 2 * (300 - 0)) 0
             <= Square6.CAMERA_FAR_CLIP).
{ unfold view_depth, Square6.CAMERA_NEAR_CLIP, Square6.CAMERA_FAR_CLIP; simpl; lra. }
pose proof (Projection.project_point6_some (90, 60, 300) 0 0 0 600 400 300 H1) as E1.
pose proof (Projection.project_point6_some (90, 60, 0 + 2 * (300 - 0)) 0 0 0 600 400 300 H2)
  as E2.
destruct (project_point_inverse_depth 90 60 300 0 0 0 600 400 300 2 _ _
            ltac:(lra) E1 E2) as [Hx _].
unfold screen_x, view_depth in *; cbn [fst snd] in *.
replace (0 + 2 * (300 - 0)) with 600 in Hx by lra.
replace (90 - 0) with 90 in Hx by lra.
exact Hx.
Defined.

End Geometry.

(** ** The look of a star *)

Module StarLooks.

Lemma lerp_tenth a b lo hi :
  lo <= a <= hi -> lo <= b <= hi -> lo <= Square6.lerp a b 0.1 <= hi.
Proof. unfold Square6.lerp; intros; lra. Qed.

Lemma star_update_kept delta_z warp_factor s g :
  Random.unit_samples g -> warp_factor <= 1 -> star_kept s ->
  star_kept (fst (Square6.Star.update delta_z warp_factor s g)) /\
  Square6.Star.initial_size (fst (Square6.Star.update delta_z warp_factor s g))
    = Square6.Star.initial_size s /\
  Random.unit_samples (snd (Square6.Star.update delta_z warp_factor s g)).
Proof.
intros Hg Hw (Hx & Hy & Ha & Hl & Hs).
unfold Square6.Star.update.
set (s1 := if Py.gtb warp_factor 0.1 then _ else _).
assert (K1 : star_kept s1 /\ Square6.Star.initial_size s1 = Square6.Star.initial_size s).
{ subst s1; unfold star_kept, Square6.MAX_STAR_SIZE in *.
  destruct (Py.gtb warp_factor 0.1) eqn:E;
    cbn [Square6.Star.with_trail Square6.Star.with_z Square6.Star.x Square6.Star.y
         Square6.Star.z Square6.Star.size Square6.Star.trail_length
         Square6.Star.trail_alpha Square6.Star.initial_size].
  - apply PyFacts.gtb_true in E.
    repeat split; try lra; try (apply lerp_tenth; lra);
      unfold Square6.lerp; lra.
  - repeat split; try lra; try (apply lerp_tenth; lra);
      unfold Square6.lerp; lra. }
destruct K1 as [K1 K1i].
destruct (Py.ltb (Square6.Star.z s1) _ || Py.gtb (Square6.Star.z s1) _).
- cbv beta iota zeta delta [Square6.Star.reset Random.bind Random.ret Random.uniform
    Random.random].
  cbn [Random.samples Random.cursor Square6.Star.z].
  pose proof (Hg (Random.cursor g)) as Hu0.
  pose proof (Hg (S (Random.cursor g))) as Hu1.
  match goal with |- context [Py.gtb ?a ?b] => destruct (Py.gtb a b) end;
    cbn [fst snd]; unfold Square6.Star.with_z;
    cbn [Square6.Star.x Square6.Star.y Square6.Star.size
         Square6.Star.trail_length Square6.Star.trail_alpha Square6.Star.initial_size];
    (split; [|split; [exact K1i | exact Hg]]);
    unfold star_kept, Square6.WORLD_SIZE, Square6.MAX_STAR_SIZE in *;
    cbn [Square6.Star.x Square6.Star.y Square6.Star.size
         Square6.Star.trail_length Square6.Star.trail_alpha Square6.Star.initial_size];
    repeat split; lra.
- unfold Random.ret; cbn [fst snd]; split; [exact K1 | split; [exact K1i | exact Hg]].
Qed.

(** X5.  In square6.py a star that lies inside the lateral world bounds, with
    a trail alpha in [[50, 255]], a trail length in [[0, 150]] and a size
    between its initial size and 15, is again such a star after every
    sequence of updates with warp factors of at most 1; its initial size
    never changes. *)
Theorem star_state_kept :
  forall calls s g,
    Random.unit_samples g ->
    Forall (fun call => snd call <= 1) calls ->
    star_kept s ->
    star_kept (fst (Square6.Star.updates calls s g)) /\
    Square6.Star.initial_size (fst (Square6.Star.updates calls s g))
      = Square6.Star.initial_size s.
Proof.
induction calls as [|[dz wf] calls IH]; intros s g Hg Hw Hs.
- split; [exact Hs | reflexivity].
- inversion Hw as [|c cs Hwf Hrest]; subst; cbn [snd] in Hwf.
  cbn [Square6.Star.updates]; unfold Random.bind.
  destruct (star_update_kept dz wf s g Hg Hwf Hs) as (K & Ki & Hg').
  destruct (Square6.Star.update dz wf s g) as [s' g']; cbn [fst snd] in *.
  destruct (IH s' g' Hg' Hrest K) as [K2 Ki2].
  split; [exact K2 | congruence].
Qed.

Lemma star_state_kept_witness :
  star_kept (fst (Square6.Star.updates [(-50, 0); (25, 1)] (star6_at (-7))
                    (Random.constant (1/2)))).
Proof.
apply (star_state_kept [(-50, 0); (25, 1)] (star6_at (-7)) (Random.constant (1/2))).
- apply RandomFacts.constant_unit; lra.
- repeat constructor; simpl; lra.
- unfold star_kept, star6_at, Square6.WORLD_SIZE, Square6.MAX_STAR_SIZE; simpl; lra.
Defined.

End StarLooks.

(** ** Asteroids and nebula blobs *)

Module Entities.

Lemma asteroid_update_spec dt camera_delta_z a g :
  Random.unit_samples g ->
  let a' := fst (Square6.Asteroid.update dt camera_delta_z a g) in
  let m := Square6.Asteroid.mesh a in
  let m' := Square6.Asteroid.mesh a' in
  Random.unit_samples (snd (Square6.Asteroid.update dt camera_delta_z a g)) /\
  Mesh.vertices m' = Mesh.vertices m /\
  Mesh.faces m' = Mesh.faces m /\
  Square6.CAMERA_NEAR_CLIP <= Mesh.z m'
    <= Square6.CAMERA_FAR_CLIP + Square6.WORLD_SIZE /\
  (Mesh.z m + camera_delta_z < Square6.CAMERA_NEAR_CLIP ->
   Square6.CAMERA_FAR_CLIP <= Mesh.z m' /\ 50 <= Mesh.scale m' <= 200 /\
   - Square6.WORLD_SIZE <= Mesh.x m' <= Square6.WORLD_SIZE /\
   - Square6.WORLD_SIZE <= Mesh.y m' <= Square6.WORLD_SIZE) /\
  (Square6.CAMERA_NEAR_CLIP <= Mesh.z m + camera_delta_z
     <= Square6.CAMERA_FAR_CLIP + Square6.WORLD_SIZE ->
   Mesh.z m' = Mesh.z m + camera_delta_z /\ Mesh.scale m' = Mesh.scale m).
Proof.
intros Hg; cbv zeta.
unfold Square6.Asteroid.update.
cbv beta iota zeta delta [Random.bind Random.ret Random.uniform Random.random].
cbn [Random.samples Random.cursor].
set (z1 := Mesh.z (Square6.Asteroid.mesh a) + camera_delta_z).
pose proof (Hg (S (S (Random.cursor g)))) as Hu2.
pose proof (Hg (S (S (S (Random.cursor g))))) as Hu3.
pose proof (Hg (S (S (S (S (Random.cursor g)))))) as Hu4.
pose proof (Hg (S (S (S (S (S (Random.cursor g))))))) as Hu5.
unfold Square6.CAMERA_NEAR_CLIP, Square6.CAMERA_FAR_CLIP, Square6.WORLD_SIZE in *.
destruct (Py.ltb z1 1.0) eqn:E1.
- apply PyFacts.ltb_true in E1.
  cbn [fst snd Square6.Asteroid.mesh Square6.Asteroid.with_pose Mesh.vertices Mesh.faces
       Mesh.x Mesh.y Mesh.z Mesh.scale Random.samples Random.cursor].
  repeat split; intros; try (cbn [Random.samples]; apply Hg); try reflexivity; try lra.
- apply PyFacts.ltb_false in E1.
  destruct (Py.gtb z1 (6000.0 + 3000)) eqn:E2.
  + apply PyFacts.gtb_true in E2.
    cbn [fst snd Square6.Asteroid.mesh Square6.Asteroid.with_pose Mesh.vertices Mesh.faces
         Mesh.x Mesh.y Mesh.z Mesh.scale Random.samples Random.cursor].
    repeat split; intros; try (cbn [Random.samples]; apply Hg); try reflexivity; try lra.
  + apply PyFacts.gtb_false in E2.
    cbn [fst snd Square6.Asteroid.mesh Square6.Asteroid.with_pose Mesh.vertices Mesh.faces
         Mesh.x Mesh.y Mesh.z Mesh.scale Random.samples Random.cursor].
    repeat split; intros; try (cbn [Random.samples]; apply Hg); try reflexivity; try lra.
Qed.

(** X6.  After every non-empty sequence of [Asteroid.update] calls the
    depth of the asteroid lies in
    [[CAMERA_NEAR_CLIP, CAMERA_FAR_CLIP + WORLD_SIZE]], and its vertex and
    face lists are the ones it was built with. *)
Theorem asteroid_depth_kept :
  forall dt camera_delta_z calls a g,
    Random.unit_samples g ->
    let a' := fst (Square6.Asteroid.updates ((dt, camera_delta_z) :: calls) a g) in
    Square6.CAMERA_NEAR_CLIP <= Mesh.z (Square6.Asteroid.mesh a')
      <= Square6.CAMERA_FAR_CLIP + Square6.WORLD_SIZE /\
    Mesh.vertices (Square6.Asteroid.mesh a') = Mesh.vertices (Square6.Asteroid.mesh a) /\
    Mesh.faces (Square6.Asteroid.mesh a') = Mesh.faces (Square6.Asteroid.mesh a).
Proof.
intros dt cdz calls; revert dt cdz.
induction calls as [|[dt2 cdz2] calls IH]; intros dt cdz a g Hg.
- cbn [Square6.Asteroid.updates]; unfold Random.bind.
  destruct (asteroid_update_spec dt cdz a g Hg) as (_ & Hv & Hf & Hz & _).
  destruct (Square6.Asteroid.update dt cdz a g) as [a1 g1]; cbn [fst snd] in *.
  unfold Random.ret; cbn [fst]; repeat split; assumption || apply Hz.
- cbn [Square6.Asteroid.updates]; unfold Random.bind.
  destruct (asteroid_update_spec dt cdz a g Hg) as (Hg1 & Hv & Hf & _).
  destruct (Square6.Asteroid.update dt cdz a g) as [a1 g1]; cbn [fst snd] in *.
  specialize (IH dt2 cdz2 a1 g1 Hg1); cbv zeta in IH.
  cbn [Square6.Asteroid.updates] in IH; unfold Random.bind in IH.
  destruct IH as (Hz & Hv' & Hf'); cbv zeta.
  repeat split; try apply Hz; congruence.
Qed.

(** An asteroid of [main], pushed behind the camera and then moved on. *)
Lemma asteroid_depth_kept_witness :
  let a := fst (Square6.Asteroid.init (100, -200, 2000) 120 (100, 80, 70)%Z 9
                  (Random.constant (1/4))) in
  let a' := fst (Square6.Asteroid.updates [(0.02, -2500); (0.02, 30)] a
                   (Random.constant (1/2))) in
  Square6.CAMERA_NEAR_CLIP <= Mesh.z (Square6.Asteroid.mesh a')
    <= Square6.CAMERA_FAR_CLIP + Square6.WORLD_SIZE.
Proof.
apply (asteroid_depth_kept 0.02 (-2500) [(0.02, 30)]).
apply RandomFacts.constant_unit; lra.
Defined.

Lemma clamped_alpha z : 0 <= IZR (Z.max 0 (Z.min 255 z)) <= 255.
Proof. split; apply IZR_le; lia. Qed.

Lemma nebula_update_spec now delta_z warp_factor n g :
  Random.unit_samples g ->
  (0 <= Square6.NebulaBlob.initial_alpha n <= 255)%Z ->
  let n' := fst (Square6.NebulaBlob.update now delta_z warp_factor n g) in
  Random.unit_samples (snd (Square6.NebulaBlob.update now delta_z warp_factor n g)) /\
  Square6.NebulaBlob.initial_alpha n' = Square6.NebulaBlob.initial_alpha n /\
  0 <= Square6.NebulaBlob.current_alpha n' <= 255 /\
  Square6.CAMERA_NEAR_CLIP <= Square6.NebulaBlob.z n' <= Square6.CAMERA_FAR_CLIP * 2.
Proof.
intros Hg Hia; cbv zeta.
unfold Square6.NebulaBlob.update.
cbn [Square6.NebulaBlob.with_position Square6.NebulaBlob.initial_alpha
     Square6.NebulaBlob.fade_speed Square6.NebulaBlob.z].
set (pulsed := Z.max 0 (Z.min 255 _)).
pose proof (clamped_alpha
  (Py.int (IZR (Square6.NebulaBlob.initial_alpha n)
           + sin (now * Square6.NebulaBlob.fade_speed n)
             * (IZR (Square6.NebulaBlob.initial_alpha n) * 0.5)))) as Hp.
fold pulsed in Hp.
assert (Hia' : 0 <= IZR (Square6.NebulaBlob.initial_alpha n) <= 255).
{ split; apply IZR_le; lia. }
set (n1 := if Py.gtb warp_factor 0.1 then _ else _).
assert (K : 0 <= Square6.NebulaBlob.current_alpha n1 <= 255 /\
            Square6.NebulaBlob.z n1 = Square6.NebulaBlob.z n + delta_z * 0.5 /\
            Square6.NebulaBlob.initial_alpha n1 = Square6.NebulaBlob.initial_alpha n).
{ subst n1; destruct (Py.gtb warp_factor 0.1);
    cbn [Square6.NebulaBlob.with_alpha Square6.NebulaBlob.current_alpha
         Square6.NebulaBlob.z Square6.NebulaBlob.initial_alpha];
    unfold Square6.lerp; repeat split; lra. }
destruct K as (Ka & Kz & Ki).
destruct (Py.ltb (Square6.NebulaBlob.z n1) _ || Py.gtb (Square6.NebulaBlob.z n1) _) eqn:E.
- cbv beta iota zeta delta [Square6.NebulaBlob.reset Random.bind Random.ret
    Random.uniform Random.random].
  cbn [fst snd Random.samples Random.cursor Square6.NebulaBlob.with_position
       Square6.NebulaBlob.x Square6.NebulaBlob.y Square6.NebulaBlob.z
       Square6.NebulaBlob.current_alpha Square6.NebulaBlob.initial_alpha].
  pose proof (Hg (S (S (S (Random.cursor g))))) as Hu.
  unfold Square6.CAMERA_NEAR_CLIP, Square6.CAMERA_FAR_CLIP, Square6.WORLD_SIZE.
  repeat split; try (cbn [Random.samples]; apply Hg); try exact Ki; try lra.
- apply PyFacts.clip_false in E.
  unfold Random.ret; cbn [fst snd].
  repeat split; try (cbn [Random.samples]; apply Hg); try exact Ki; try lra.
Qed.

(** X7.  After every non-empty sequence of [NebulaBlob.update] calls, at any
    clock readings, the depth of the blob lies in
    [[CAMERA_NEAR_CLIP, 2 * CAMERA_FAR_CLIP]] and, for an initial alpha in
    [[0, 255]], its current alpha lies in [[0, 255]]. *)
Theorem nebula_kept :
  forall call calls n g,
    Random.unit_samples g ->
    (0 <= Square6.NebulaBlob.initial_alpha n <= 255)%Z ->
    let n' := fst (Square6.NebulaBlob.updates (call :: calls) n g) in
    0 <= Square6.NebulaBlob.current_alpha n' <= 255 /\
    Square6.CAMERA_NEAR_CLIP <= Square6.NebulaBlob.z n' <= Square6.CAMERA_FAR_CLIP * 2.
Proof.
intros call calls; revert call.
induction calls as [|call2 calls IH]; intros [[now dz] wf] n g Hg Hia.
- cbn [Square6.NebulaBlob.updates]; unfold Random.bind.
  destruct (nebula_update_spec now dz wf n g Hg Hia) as (_ & _ & Ha & Hz).
  destruct (Square6.NebulaBlob.update now dz wf n g) as [n1 g1]; cbn [fst snd] in *.
  unfold Random.ret; cbn [fst]; split; assumption.
- cbn [Square6.NebulaBlob.updates]; unfold Random.bind.
  destruct (nebula_update_spec now dz wf n g Hg Hia) as (Hg1 & Hi & _).
  destruct (Square6.NebulaBlob.update now dz wf n g) as [n1 g1]; cbn [fst snd] in *.
  rewrite <- Hi in Hia.
  specialize (IH call2 n1 g1 Hg1 Hia); cbv zeta in IH.
  destruct call2 as [[now2 dz2] wf2].
  cbn [Square6.NebulaBlob.updates] in IH; unfold Random.bind in IH.
  exact IH.
Qed.

Lemma nebula_kept_witness :
  let n := Square6.NebulaBlob.mk 0 0 11990 (100, 0, 150)%Z 80 80 0.03 500 in
  let n' := fst (Square6.NebulaBlob.updates [(10, 30, 1); (10.02, 30, 0)] n
                   (Random.constant (1/2))) in
  0 <= Square6.NebulaBlob.current_alpha n' <= 255 /\
  Square6.CAMERA_NEAR_CLIP <= Square6.NebulaBlob.z n' <= Square6.CAMERA_FAR_CLIP * 2.
Proof.
apply (nebula_kept (10, 30, 1) [(10.02, 30, 0)]).
- apply RandomFacts.constant_unit; lra.
- simpl; lia.
Defined.

End Entities.

(** ** The life of a particle *)

Module ParticleLife.

Import Square6.ParticleSystem.

Lemma same_ranges_refl s : same_ranges s s.
Proof. repeat split. Qed.

Lemma particle_of_ranges s s' age p :
  same_ranges s s' -> particle_of s age p -> particle_of s' age p.
Proof.
intros (Hv & Hs & Hl); unfold particle_of; rewrite Hv, Hs, Hl; exact (fun H => H).
Qed.

Lemma particle_of_younger s age age' p :
  age' <= age -> particle_of s age p -> particle_of s age' p.
Proof.
unfold particle_of; destruct (velocity_range s) as [[[[[v0 v1] v2] v3] v4] v5].
intros Ha (H1 & H2 & H3 & H4 & H5 & H6); repeat split; try apply H1; try apply H2;
  try apply H3; try apply H4; try apply H5; lra.
Qed.

Lemma emit_kept pp pr s g :
  Random.unit_samples g -> ranges_ordered s ->
  Forall (particle_of s 0) (particles s) ->
  same_ranges s (fst (emit pp pr s g)) /\
  Forall (particle_of s 0) (particles (fst (emit pp pr s g))) /\
  Random.unit_samples (snd (emit pp pr s g)).
Proof.
intros Hg Hord Hinv; unfold emit.
destruct (length (particles s) <? max_particles s)%nat.
- destruct pr as [[rx ry] rz].
  destruct (Square6.rotate_point_3d (source_pos_relative s) rx ry rz) as [[sx sy] sz].
  destruct pp as [[ppx ppy] ppz].
  unfold ranges_ordered, particle_of in *.
  destruct (velocity_range s) as [[[[[v0 v1] v2] v3] v4] v5] eqn:Ev.
  destruct Hord as (O1 & O2 & O3 & O4 & O5).
  cbv beta iota zeta delta [Random.bind Random.ret Random.uniform Random.random].
  cbn [fst snd with_particles particles Random.samples Random.cursor].
  pose proof (Hg (Random.cursor g)) as U0.
  pose proof (Hg (S (Random.cursor g))) as U1.
  pose proof (Hg (S (S (Random.cursor g)))) as U2.
  pose proof (Hg (S (S (S (Random.cursor g))))) as U3.
  pose proof (Hg (S (S (S (S (Random.cursor g)))))) as U4.
  split; [repeat split|]. split; [|exact Hg].
  apply Forall_app; split; [exact Hinv|].
  constructor; [|constructor].
  unfold Square6.Particle.init;
    cbn [Square6.Particle.vx Square6.Particle.vy Square6.Particle.vz
         Square6.Particle.size Square6.Particle.lifetime
         Square6.Particle.current_lifetime].
  repeat split; nra.
- unfold Random.ret; cbn [fst snd].
  split; [apply same_ranges_refl | split; assumption].
Qed.

Lemma same_ranges_trans s1 s2 s3 :
  same_ranges s1 s2 -> same_ranges s2 s3 -> same_ranges s1 s3.
Proof. intros (A & B & C) (A' & B' & C'); repeat split; congruence. Qed.

Lemma ranges_ordered_same s s' : same_ranges s s' -> ranges_ordered s -> ranges_ordered s'.
Proof.
intros (Hv & Hs & Hl); unfold ranges_ordered; rewrite Hv, Hs, Hl; exact (fun H => H).
Qed.

Lemma emit_loop_kept n : forall pp pr s g,
  Random.unit_samples g -> ranges_ordered s ->
  Forall (particle_of s 0) (particles s) ->
  same_ranges s (fst (emit_loop n pp pr s g)) /\
  Forall (particle_of s 0) (particles (fst (emit_loop n pp pr s g))) /\
  Random.unit_samples (snd (emit_loop n pp pr s g)).
Proof.
induction n as [|n IH]; intros pp pr s g Hg Hord Hinv; cbn [emit_loop].
- unfold Random.ret; cbn [fst snd].
  split; [apply same_ranges_refl | split; assumption].
- unfold Random.bind.
  destruct (emit_kept pp pr s g Hg Hord Hinv) as (Hr & Hi & Hg1).
  destruct (emit pp pr s g) as [s1 g1]; cbn [fst snd] in *.
  assert (Hi1 : Forall (particle_of s1 0) (particles s1)).
  { eapply Forall_impl; [|exact Hi]. intros p; apply particle_of_ranges; exact Hr. }
  destruct (IH pp pr s1 g1 Hg1 (ranges_ordered_same _ _ Hr Hord) Hi1) as (Hr2 & Hi2 & Hg2).
  split; [eapply same_ranges_trans; eassumption|]. split; [|exact Hg2].
  eapply Forall_impl; [|exact Hi2].
  intros p; apply particle_of_ranges.
  destruct Hr as (A & B & C); repeat split; congruence.
Qed.

(** One update: the stored particles have aged by [dt] and are alive. *)
Lemma particle_update_kept dt pp pr cdz s g :
  Random.unit_samples g -> ranges_ordered s -> 0 <= dt ->
  Forall (particle_of s 0) (particles s) ->
  match fst (update dt pp pr cdz s g) with
  | None => emission_rate s = 0
  | Some s' =>
      same_ranges s s' /\
      Forall (fun p => 0 < Square6.Particle.current_lifetime p /\ particle_of s dt p)
             (particles s')
  end /\
  Random.unit_samples (snd (update dt pp pr cdz s g)).
Proof.
intros Hg Hord Hdt Hinv; unfold update.
set (s0 := with_time s (time_since_last_emission s + dt)).
set (n := Py.range_len _).
assert (Hr0 : same_ranges s s0) by (subst s0; repeat split).
assert (Hi0 : Forall (particle_of s0 0) (particles s0)).
{ subst s0; exact Hinv. }
unfold Random.bind.
pose proof (emit_loop_kept n pp pr s0 g Hg (ranges_ordered_same _ _ Hr0 Hord) Hi0)
  as (Hr1 & Hi1 & Hg1).
pose proof (Particles.emit_loop_spec n pp pr s0 g) as (_ & Hrate & _).
destruct (emit_loop n pp pr s0 g) as [s1 g1]; cbn [fst snd] in *.
destruct (Req_dec_T (emission_rate s1) 0) as [E|E]; unfold Random.ret; cbn [fst snd].
- split; [|exact Hg1]. rewrite <- E, Hrate; reflexivity.
- split; [|exact Hg1]. split.
  + destruct Hr1 as (A & B & C); repeat split; cbn; assumption.
  + cbn [particles with_particles].
    apply Forall_forall; intros p Hp.
    apply filter_In in Hp; destruct Hp as [Hp Halive].
    apply PyFacts.gtb_true in Halive.
    split; [lra|].
    apply in_map_iff in Hp; destruct Hp as (q & <- & Hq).
    rewrite Forall_forall in Hi1; specialize (Hi1 q Hq).
    change (particle_of s 0 q) in Hi1.
    clear - Hi1 Hdt; revert Hi1; unfold particle_of.
    destruct (velocity_range s) as [[[[[v0 v1] v2] v3] v4] v5]; intros Hi1.
    cbn [Square6.Particle.update Square6.Particle.vx Square6.Particle.vy
         Square6.Particle.vz Square6.Particle.size Square6.Particle.lifetime
         Square6.Particle.current_lifetime].
    destruct Hi1 as (H1 & H2 & H3 & H4 & H5 & H6); repeat split;
      try apply H1; try apply H2; try apply H3; try apply H4; try apply H5; lra.
Qed.

(** Any sequence of updates with [dt >= 0], and then one more. *)
Lemma particle_updates_kept calls : forall last s g,
  Random.unit_samples g -> ranges_ordered s ->
  Forall (fun c => 0 <= dt c) (calls ++ [last]) ->
  Forall (particle_of s 0) (particles s) ->
  match fst (updates (calls ++ [last]) s g) with
  | None => emission_rate s = 0
  | Some s' =>
      Forall (fun p => 0 < Square6.Particle.current_lifetime p /\ particle_of s (dt last) p)
             (particles s')
  end.
Proof.
induction calls as [|c calls IH]; intros last s g Hg Hord Hdt Hinv.
- cbn [app updates]; unfold Random.bind.
  inversion Hdt as [|c' cs Hc _]; subst.
  destruct (particle_update_kept (dt last) (parent_pos last) (parent_rotation last)
              (camera_delta_z last) s g Hg Hord Hc Hinv) as [Hu _].
  destruct (update (dt last) (parent_pos last) (parent_rotation last)
              (camera_delta_z last) s g) as [[s1|] g1]; cbn [fst] in *;
    unfold Random.ret; cbn [fst]; [apply Hu | exact Hu].
- cbn [app updates]; unfold Random.bind.
  inversion Hdt as [|c' cs Hc Hrest]; subst.
  destruct (particle_update_kept (dt c) (parent_pos c) (parent_rotation c)
              (camera_delta_z c) s g Hg Hord Hc Hinv) as [Hu Hg1].
  pose proof (Particles.update_spec (dt c) (parent_pos c) (parent_rotation c)
                (camera_delta_z c) s g) as Hs; cbv zeta in Hs.
  destruct (update (dt c) (parent_pos c) (parent_rotation c)
              (camera_delta_z c) s g) as [[s1|] g1]; cbn [fst snd] in *.
  + destruct Hu as [Hr Hi]. destruct Hs as (_ & _ & Hrate & _).
    assert (Hi1 : Forall (particle_of s1 0) (particles s1)).
    { eapply Forall_impl; [|exact Hi]. intros p [_ Hp].
      apply (particle_of_ranges s s1 0 p Hr).
      apply (particle_of_younger s (dt c) 0 p Hc Hp). }
    specialize (IH last s1 g1 Hg1 (ranges_ordered_same _ _ Hr Hord) Hrest Hi1).
    destruct (fst (updates (calls ++ [last]) s1 g1)) as [s2|]; [|congruence].
    eapply Forall_impl; [|exact IH]. intros p [Hp1 Hp2]; split; [exact Hp1|].
    apply (particle_of_ranges s1 s (dt last) p); [|exact Hp2].
    destruct Hr as (A & B & C); repeat split; congruence.
  + unfold Random.ret; cbn [fst]; exact Hu.
Qed.

Lemma init_ordered src mx col sr vr lr rate :
  ranges_ordered (init src mx col sr vr lr rate) <->
  (let '(v0, v1, v2, v3, v4, v5) := vr in
   v0 <= v1 /\ v2 <= v3 /\ v4 <= v5 /\ fst sr <= snd sr /\ fst lr <= snd lr).
Proof. reflexivity. Qed.

(** X8.  After any non-empty sequence of updates with [dt >= 0] on a
    system built with ordered ranges, every stored particle has a remaining
    lifetime above zero and at most its lifetime less the last [dt], and its
    velocity, size and lifetime are inside the ranges of the system. *)
Theorem particles_alive_and_in_range :
  forall source_pos_relative max_particles color size_range velocity_range
         lifetime_range emission_rate calls last g,
    let s := init source_pos_relative max_particles color size_range velocity_range
               lifetime_range emission_rate in
    Random.unit_samples g -> ranges_ordered s ->
    Forall (fun c => 0 <= dt c) (calls ++ [last]) ->
    match fst (updates (calls ++ [last]) s g) with
    | None => emission_rate = 0
    | Some s' =>
        Forall (fun p => 0 < Square6.Particle.current_lifetime p /\
                         particle_of s (dt last) p)
               (particles s')
    end.
Proof.
intros src mx col sr vr lr rate calls last g s Hg Hord Hdt.
apply (particle_updates_kept calls last s g Hg Hord Hdt).
constructor.
Qed.

Lemma engine_ordered : ranges_ordered Square6.engine_left_ps.
Proof. unfold ranges_ordered; simpl; lra. Qed.

Lemma particles_alive_and_in_range_witness :
  let c := mk_call 0.02 (0, 0, 1000) (0, 0, 0) 4 in
  match fst (updates ([c] ++ [c]) Square6.engine_left_ps (Random.constant (1/2))) with
  | None => 1000 = 0
  | Some s' =>
      Forall (fun p => 0 < Square6.Particle.current_lifetime p /\
                       particle_of Square6.engine_left_ps (dt c) p)
             (particles s')
  end.
Proof.
apply (particles_alive_and_in_range
         (-0.8 * Square6.station_scale, -0.1 * Square6.station_scale,
          0.8 * Square6.station_scale)
         500 Square6.COLOR_ORANGE (1, 4) (-10, 10, -10, 10, 50, 100) (0.5, 1.5) 1000
         [mk_call 0.02 (0, 0, 1000) (0, 0, 0) 4]
         (mk_call 0.02 (0, 0, 1000) (0, 0, 0) 4) (Random.constant (1/2))).
- apply RandomFacts.constant_unit; lra.
- exact engine_ordered.
- repeat constructor; simpl; lra.
Defined.

(** X9.  A frame at least as long as the longest lifetime leaves the system
    empty: the particles emitted in an update are aged by that update's [dt]
    like all others, so none survives it. *)
Theorem long_frame_empties :
  forall source_pos_relative max_particles color size_range velocity_range
         lifetime_range emission_rate calls last g,
    let s := init source_pos_relative max_particles color size_range velocity_range
               lifetime_range emission_rate in
    Random.unit_samples g -> ranges_ordered s ->
    Forall (fun c => 0 <= dt c) (calls ++ [last]) ->
    snd lifetime_range <= dt last ->
    match fst (updates (calls ++ [last]) s g) with
    | None => emission_rate = 0
    | Some s' => particles s' = []
    end.
Proof.
intros src mx col sr vr lr rate calls last g s Hg Hord Hdt Hlong.
pose proof (particle_updates_kept calls last s g Hg Hord Hdt (Forall_nil _)) as H.
destruct (fst (updates (calls ++ [last]) s g)) as [s'|]; [|exact H].
destruct (particles s') as [|p ps]; [reflexivity|exfalso].
inversion H as [|p' ps' [Hp1 Hp2] _]; subst.
unfold particle_of in Hp2; subst s; cbn [init velocity_range lifetime_range size_range] in Hp2.
destruct vr as [[[[[v0 v1] v2] v3] v4] v5].
destruct Hp2 as (_ & _ & _ & _ & H5 & H6); lra.
Qed.

Lemma long_frame_empties_witness :
  match fst (updates ([mk_call 0.02 (0, 0, 1000) (0, 0, 0) 4]
                        ++ [mk_call 1.5 (0, 0, 1000) (0, 0, 0) 300])
               Square6.engine_left_ps (Random.constant (1/2))) with
  | None => 1000 = 0
  | Some s' => particles s' = []
  end.
Proof.
apply (long_frame_empties
         (-0.8 * Square6.station_scale, -0.1 * Square6.station_scale,
          0.8 * Square6.station_scale)
         500 Square6.COLOR_ORANGE (1, 4) (-10, 10, -10, 10, 50, 100) (0.5, 1.5) 1000
         [mk_call 0.02 (0, 0, 1000) (0, 0, 0) 4]
         (mk_call 1.5 (0, 0, 1000) (0, 0, 0) 300) (Random.constant (1/2))).
- apply RandomFacts.constant_unit; lra.
- exact engine_ordered.
- repeat constructor; simpl; lra.
- simpl; lra.
Defined.

(** X11.  The sort at the start of [ParticleSystem.draw] reorders the stored
    particles from the farthest to the nearest and neither adds nor drops
    one: the count that [update] bounds is the count after drawing. *)
Theorem draw_sort_reorders :
  forall s,
    Permutation (particles (draw_sort s)) (particles s) /\
    length (particles (draw_sort s)) = length (particles s) /\
    StronglySorted (not_before Square6.Particle.z) (particles (draw_sort s)) /\
    max_particles (draw_sort s) = max_particles s /\
    time_since_last_emission (draw_sort s) = time_since_last_emission s.
Proof.
intros s; unfold draw_sort; cbn [particles with_particles max_particles
                                 time_since_last_emission].
repeat split.
- apply Compositor.sort_reverse_perm.
- apply Permutation_length, Compositor.sort_reverse_perm.
- apply Compositor.sort_reverse_sorted.
Qed.

End ParticleLife.

(** ** Face colours *)

Module Lighting.

(** A channel scaled by a factor in [[0, 1]] and truncated. *)
Lemma scaled_channel (base : Z) (f : R) :
  (0 <= base <= 255)%Z -> 0 <= f <= 1 ->
  let c := Z.max 0 (Z.min 255 (Py.int (IZR base * f))) in
  (0 <= c <= base)%Z /\ c = Py.int (IZR base * f) /\ IZR base * f - 1 < IZR c.
Proof.
intros Hb Hf.
assert (Hb' : 0 <= IZR base) by (apply IZR_le; lia).
assert (Hp : 0 <= IZR base * f) by (apply Rmult_le_pos; lra).
assert (Hle : IZR base * f <= IZR base) by nra.
pose proof (PyFacts.int_nonneg _ Hp) as Hi.
pose proof (PyFacts.int_nonneg_pos _ Hp) as Hi0.
assert (Hib : (Py.int (IZR base * f) <= base)%Z) by (apply le_IZR; lra).
cbv zeta.
replace (Z.max 0 (Z.min 255 (Py.int (IZR base * f)))) with (Py.int (IZR base * f)) by lia.
repeat split; try lia; lra.
Qed.

Lemma light_intensity_range d : 0.2 <= Rmax 0.2 (Rmin 1.0 d) <= 1.
Proof.
unfold Rmax, Rmin; destruct (Rle_dec 1.0 d); destruct (Rle_dec _ _); lra.
Qed.

Lemma gradient_factor_range (face_idx n_faces : nat) :
  (face_idx < n_faces)%nat -> 0.8 < 1.0 - INR face_idx / INR n_faces * 0.2 <= 1.
Proof.
intros H.
assert (Hn : 0 < INR n_faces) by (apply lt_0_INR; lia).
assert (Hi : 0 <= INR face_idx) by apply pos_INR.
assert (Hlt : INR face_idx < INR n_faces) by (apply lt_INR; exact H).
assert (Hq : 0 <= INR face_idx / INR n_faces < 1).
{ split.
  - apply Rmult_le_pos; [exact Hi | left; apply Rinv_0_lt_compat; exact Hn].
  - apply (Rmult_lt_reg_r (INR n_faces)); [exact Hn|].
    unfold Rdiv; rewrite Rmult_assoc, Rinv_l by lra; lra. }
lra.
Qed.

(** X12.  [Base3DObject.get_face_color] only darkens: for a base colour
    with channels in [[0, 255]] and a face index below the number of faces,
    every channel of the result lies between 0 and the base channel, and is
    above 16 percent of it less one.  The result does not depend on the
    transformed vertices it is given. *)
Theorem base_face_color_darkens :
  forall base_r base_g base_b n_faces face_idx vertices vertices',
    (0 <= base_r <= 255)%Z -> (0 <= base_g <= 255)%Z -> (0 <= base_b <= 255)%Z ->
    (face_idx < n_faces)%nat ->
    let '(r, g, b) :=
      Mesh.base_face_color (base_r, base_g, base_b) n_faces face_idx vertices in
    (0 <= r <= base_r)%Z /\ (0 <= g <= base_g)%Z /\ (0 <= b <= base_b)%Z /\
    IZR base_r * 0.16 - 1 < IZR r /\
    IZR base_g * 0.16 - 1 < IZR g /\
    IZR base_b * 0.16 - 1 < IZR b /\
    Mesh.base_face_color (base_r, base_g, base_b) n_faces face_idx vertices'
      = (r, g, b).
Proof.
intros br bg bb n idx vs vs' Hr Hg Hb Hidx.
unfold Mesh.base_face_color.
set (nv := nth idx _ _); clearbody nv; destruct nv as [[n0 n1] n2].
destruct (Py.gtb (sqrt (1 ^ 2 + 1 ^ 2 + (-1) ^ 2)) 0); cbv beta iota;
  match goal with |- context [Rmax 0.2 (Rmin 1.0 ?d)] =>
    pose proof (light_intensity_range d) as Hli; set (li := Rmax 0.2 (Rmin 1.0 d)) in *
  end;
  pose proof (gradient_factor_range idx n Hidx) as Hgf;
  set (gf := 1.0 - INR idx / INR n * 0.2) in *.
all: assert (Hf : 0 <= li * gf <= 1) by nra;
  assert (Hf' : 0.16 <= li * gf) by nra;
  assert (Hr' : 0 <= IZR br) by (apply IZR_le; lia);
  assert (Hg' : 0 <= IZR bg) by (apply IZR_le; lia);
  assert (Hb' : 0 <= IZR bb) by (apply IZR_le; lia);
  pose proof (scaled_channel br (li * gf) Hr Hf) as (R1 & _ & R3);
  pose proof (scaled_channel bg (li * gf) Hg Hf) as (G1 & _ & G3);
  pose proof (scaled_channel bb (li * gf) Hb Hf) as (B1 & _ & B3);
  rewrite <- !Rmult_assoc in R1, R3, G1, G3, B1, B3;
  repeat split; try lia; try nra.
Qed.

Lemma base_face_color_darkens_witness :
  let '(r, g, b) := Mesh.base_face_color (255, 0, 0)%Z 6 3 [] in
  (0 <= r <= 255)%Z /\ (0 <= g <= 0)%Z /\ (0 <= b <= 0)%Z /\
  IZR 255 * 0.16 - 1 < IZR r /\
  IZR 0 * 0.16 - 1 < IZR g /\
  IZR 0 * 0.16 - 1 < IZR b /\
  Mesh.base_face_color (255, 0, 0)%Z 6 3 cube_world = (r, g, b).
Proof.
apply (base_face_color_darkens 255 0 0 6 3 [] cube_world); lia.
Defined.

(** X13.  [ShipModel.get_face_color] keeps every channel between 60
    percent of the part colour, less one, and the part colour itself, at
    every clock reading: its clamp to [[0.5, 1.0]] never changes the pulsing
    intensity. *)
Theorem ship_face_color_range :
  forall now face_idx vertices,
    let '(base_r, base_g, base_b) := Mesh.ship_base_color face_idx in
    let '(r, g, b) := Mesh.ship_face_color now face_idx vertices in
    let pulse := 0.8 + sin (now * 3 + INR face_idx * 0.5) * 0.2 in
    Rmax 0.5 (Rmin 1.0 pulse) = pulse /\
    (r, g, b) = (Py.int (IZR base_r * pulse), Py.int (IZR base_g * pulse),
                 Py.int (IZR base_b * pulse)) /\
    (0 <= r <= base_r)%Z /\ (0 <= g <= base_g)%Z /\ (0 <= b <= base_b)%Z /\
    IZR base_r * 0.6 - 1 < IZR r /\
    IZR base_g * 0.6 - 1 < IZR g /\
    IZR base_b * 0.6 - 1 < IZR b.
Proof.
intros now idx vs.
unfold Mesh.ship_face_color.
assert (Hbase : let '(br, bg, bb) := Mesh.ship_base_color idx in
                (0 <= br <= 255)%Z /\ (0 <= bg <= 255)%Z /\ (0 <= bb <= 255)%Z).
{ unfold Mesh.ship_base_color.
  repeat match goal with |- context [if ?c then _ else _] => destruct c end; lia. }
destruct (Mesh.ship_base_color idx) as [[br bg] bb].
destruct Hbase as (Hr & Hg & Hb).
set (pulse := 0.8 + sin (now * 3 + INR idx * 0.5) * 0.2).
pose proof (SIN_bound (now * 3 + INR idx * 0.5)) as [S1 S2].
assert (Hp : 0.6 <= pulse <= 1) by (subst pulse; lra).
assert (Hclamp : Rmax 0.5 (Rmin 1.0 pulse) = pulse).
{ unfold Rmax, Rmin; destruct (Rle_dec 1.0 pulse); destruct (Rle_dec _ _); lra. }
rewrite Hclamp.
assert (Hf : 0 <= pulse <= 1) by lra.
assert (Hr' : 0 <= IZR br) by (apply IZR_le; lia).
assert (Hg' : 0 <= IZR bg) by (apply IZR_le; lia).
assert (Hb' : 0 <= IZR bb) by (apply IZR_le; lia).
pose proof (scaled_channel br pulse Hr Hf) as (R1 & R2 & R3).
pose proof (scaled_channel bg pulse Hg Hf) as (G1 & G2 & G3).
pose proof (scaled_channel bb pulse Hb Hf) as (B1 & B2 & B3).
cbv zeta in R2, G2, B2.
split; [reflexivity|]. split; [rewrite R2, G2, B2; reflexivity|].
repeat split; try lia; nra.
Qed.

End Lighting.

(** ** The meshes the program builds *)

Module Meshes.

Lemma faces_below_mono n n' faces :
  (n <= n')%nat -> faces_below n faces -> faces_below n' faces.
Proof.
intros Hn; unfold faces_below; apply Forall_impl; intros face.
apply Forall_impl; intros i; lia.
Qed.

(** X14.  One block of the ship merge keeps what was merged before and
    appends the part with its indices shifted: the earlier vertices and
    faces are a prefix of the result, the new faces are the faces of the part
    with every index raised by the old vertex count, so they point into the
    new vertices only, and all faces stay valid when the part's faces were
    valid for the part's vertices. *)
Theorem add_part_keeps_boundaries :
  forall place verts part_faces all_vertices all_faces,
    faces_below (length verts) part_faces ->
    faces_below (length all_vertices) all_faces ->
    let (vs, fs) := Mesh.add_part place verts part_faces (all_vertices, all_faces) in
    length vs = (length all_vertices + length verts)%nat /\
    firstn (length all_vertices) vs = all_vertices /\
    skipn (length all_vertices) vs = map place verts /\
    firstn (length all_faces) fs = all_faces /\
    skipn (length all_faces) fs
      = map (map (fun v => (v + length all_vertices)%nat)) part_faces /\
    Forall (Forall (fun i => (length all_vertices <= i < length vs)%nat))
           (skipn (length all_faces) fs) /\
    faces_below (length vs) fs.
Proof.
intros place verts pf av af Hp Ha; cbn [Mesh.add_part].
assert (Hlen : length (av ++ map place verts) = (length av + length verts)%nat).
{ rewrite length_app, length_map; reflexivity. }
assert (Hnew : Forall (Forall (fun i => (length av <= i < length av + length verts)%nat))
                 (map (map (fun v => (v + length av)%nat)) pf)).
{ apply Forall_map. unfold faces_below in Hp.
  eapply Forall_impl; [|exact Hp]. intros face Hface.
  apply Forall_map. eapply Forall_impl; [|exact Hface]. intros i Hi; cbv beta in *; lia. }
repeat split.
- exact Hlen.
- rewrite firstn_app, Nat.sub_diag, firstn_all; cbn [firstn]; apply app_nil_r.
- rewrite skipn_app, Nat.sub_diag, skipn_all; reflexivity.
- rewrite firstn_app, Nat.sub_diag, firstn_all; cbn [firstn]; apply app_nil_r.
- rewrite skipn_app, Nat.sub_diag, skipn_all; reflexivity.
- rewrite skipn_app, Nat.sub_diag, skipn_all, Hlen; exact Hnew.
- unfold faces_below; rewrite Hlen; apply Forall_app; split.
  + apply (faces_below_mono (length av)); [lia | exact Ha].
  + eapply Forall_impl; [|exact Hnew]. intros face.
    apply Forall_impl; intros i; lia.
Qed.

(** The cockpit merged onto the three boxes of the ship. *)
Lemma add_part_keeps_boundaries_witness :
  let (vs, fs) :=
    Mesh.add_part (fun v => v) Mesh.cockpit_verts Mesh.cockpit_faces
      (Mesh.main_body_verts ++ Mesh.left_wing_verts ++ Mesh.right_wing_verts,
       Mesh.box_faces) in
  length vs = (length (Mesh.main_body_verts ++ Mesh.left_wing_verts
                         ++ Mesh.right_wing_verts)
               + length Mesh.cockpit_verts)%nat.
Proof.
apply (add_part_keeps_boundaries (fun v => v) Mesh.cockpit_verts Mesh.cockpit_faces
         (Mesh.main_body_verts ++ Mesh.left_wing_verts ++ Mesh.right_wing_verts)
         Mesh.box_faces).
- unfold faces_below, Mesh.cockpit_faces; cbn [length Mesh.cockpit_verts].
  repeat constructor.
- unfold faces_below, Mesh.box_faces; cbn.
  repeat constructor.
Defined.

Lemma faces_below_well_formed m :
  Forall (fun face => face <> []) (Mesh.faces m) ->
  faces_below (length (Mesh.vertices m)) (Mesh.faces m) ->
  well_formed m.
Proof.
unfold well_formed, faces_below; intros Hne Hb.
rewrite Forall_forall in *; intros face Hin; split; [apply Hne | apply Hb]; exact Hin.
Qed.

Lemma pyramid_well_formed position size color :
  well_formed (Mesh.Pyramid position size color).
Proof.
destruct position as [[px py] pz]; unfold well_formed, Mesh.Pyramid.
cbn [Mesh.faces Mesh.vertices length].
repeat constructor; try discriminate; lia.
Qed.

Lemma ship_faces :
  snd Mesh.ship_parts =
  [[0; 1; 2; 3]; [4; 5; 6; 7]; [0; 1; 5; 4]; [2; 3; 7; 6]; [1; 2; 6; 5]; [0; 3; 7; 4];
   [8; 9; 10; 11]; [12; 13; 14; 15]; [8; 9; 13; 12]; [10; 11; 15; 14];
   [9; 10; 14; 13]; [8; 11; 15; 12];
   [16; 17; 18; 19]; [20; 21; 22; 23]; [16; 17; 21; 20]; [18; 19; 23; 22];
   [17; 18; 22; 21]; [16; 19; 23; 20];
   [24; 25; 26]; [24; 26; 27]; [24; 27; 28]; [24; 28; 25]; [25; 26; 27; 28]]%nat.
Proof. reflexivity. Qed.

Lemma ship_vertex_count : length (fst Mesh.ship_parts) = 29%nat.
Proof. reflexivity. Qed.

Lemma ship_well_formed position scale color now :
  well_formed (Mesh.ShipModel position scale color now).
Proof.
destruct position as [[px py] pz]; unfold well_formed, Mesh.ShipModel.
cbn [Mesh.faces Mesh.vertices]; rewrite ship_faces, ship_vertex_count.
repeat constructor; try discriminate; lia.
Qed.

Lemma random_vertices_length n : forall acc g,
  length (fst (Square6.Asteroid.random_vertices n acc g)) = (length acc + n)%nat.
Proof.
induction n as [|n IH]; intros acc g; cbn [Square6.Asteroid.random_vertices].
- unfold Random.ret; cbn [fst]; lia.
- cbv beta iota zeta delta [Random.bind Random.uniform Random.random Random.ret].
  rewrite IH, length_app; cbn [length]; lia.
Qed.

Lemma fan_faces_valid n :
  Forall (fun face => face <> []) (Square6.Asteroid.fan_faces n) /\
  faces_below (S n) (Square6.Asteroid.fan_faces n) /\
  length (Square6.Asteroid.fan_faces n) = (if (3 <=? n)%nat then S n else n).
Proof.
unfold Square6.Asteroid.fan_faces, faces_below.
assert (Hfan : Forall (fun face => face <> [] /\ Forall (fun i => (i < S n)%nat) face)
                 (map (fun i => [i; (S i) mod n; n]%nat) (seq 0 n))).
{ apply Forall_map, Forall_forall; intros i Hi; apply in_seq in Hi.
  split; [discriminate|].
  assert ((S i) mod n < n)%nat by (apply Nat.mod_upper_bound; lia).
  repeat constructor; lia. }
destruct (Nat.leb_spec 3 n) as [H3|H3].
- repeat split.
  + apply Forall_app; split.
    * eapply Forall_impl; [|exact Hfan]; intros f [Hf _]; exact Hf.
    * constructor; [|constructor].
      destruct n; [lia|]; discriminate.
  + apply Forall_app; split.
    * eapply Forall_impl; [|exact Hfan]; intros f [_ Hf]; exact Hf.
    * constructor; [|constructor].
      apply Forall_forall; intros i Hi; apply in_seq in Hi; lia.
  + rewrite length_app, length_map, length_seq; cbn [length]; lia.
- repeat split.
  + eapply Forall_impl; [|exact Hfan]; intros f [Hf _]; exact Hf.
  + eapply Forall_impl; [|exact Hfan]; intros f [_ Hf]; exact Hf.
  + rewrite length_map, length_seq; reflexivity.
Qed.

Lemma asteroid_well_formed position size color n g :
  well_formed (Square6.Asteroid.mesh (fst (Square6.Asteroid.init position size color n g))).
Proof.
destruct position as [[px py] pz]; unfold Square6.Asteroid.init.
unfold Random.bind at 1.
pose proof (random_vertices_length n [] g) as Hlen.
destruct (Square6.Asteroid.random_vertices n [] g) as [vs g1]; cbn [fst length] in Hlen.
cbv beta iota zeta delta [Random.bind Random.uniform Random.random Random.ret].
cbn [fst Square6.Asteroid.mesh].
destruct (fan_faces_valid n) as (Hne & Hb & _).
apply faces_below_well_formed; cbn [Mesh.faces Mesh.vertices]; [exact Hne|].
rewrite length_app, Hlen; cbn [length]; rewrite Nat.add_1_r; exact Hb.
Qed.

(** X15.  Every mesh that the program builds has faces that are non-empty
    tuples of valid vertex indices: the cube, the pyramid, the ship with its
    29 vertices and 23 faces, and an asteroid with any number of outline
    vertices.  The update of each of them leaves the vertex and face lists
    alone, so this stays true for the whole run. *)
Theorem built_meshes_well_formed :
  (forall position size color,
     well_formed (Mesh.Cube position size color) /\
     well_formed (Mesh.Pyramid position size color)) /\
  (forall position scale color now,
     well_formed (Mesh.ShipModel position scale color now) /\
     length (Mesh.vertices (Mesh.ShipModel position scale color now)) = 29%nat /\
     length (Mesh.faces (Mesh.ShipModel position scale color now)) = 23%nat) /\
  (forall position size color num_verts g,
     let a := fst (Square6.Asteroid.init position size color num_verts g) in
     well_formed (Square6.Asteroid.mesh a) /\
     length (Mesh.vertices (Square6.Asteroid.mesh a)) = S num_verts /\
     length (Mesh.faces (Square6.Asteroid.mesh a))
       = (if (3 <=? num_verts)%nat then S num_verts else num_verts)) /\
  (forall dt m,
     well_formed m ->
     well_formed (Mesh.Cube_update dt m) /\ well_formed (Mesh.Pyramid_update dt m) /\
     well_formed (Mesh.ShipModel_update dt m)) /\
  (forall dt camera_delta_z a g,
     well_formed (Square6.Asteroid.mesh a) ->
     well_formed (Square6.Asteroid.mesh
                    (fst (Square6.Asteroid.update dt camera_delta_z a g)))).
Proof.
repeat split.
- apply Compositor.cube_well_formed.
- apply pyramid_well_formed.
- apply ship_well_formed.
- destruct position as [[px py] pz]; cbn [Mesh.ShipModel Mesh.vertices].
  apply ship_vertex_count.
- destruct position as [[px py] pz]; cbn [Mesh.ShipModel Mesh.faces].
  rewrite ship_faces; reflexivity.
- apply asteroid_well_formed.
- destruct position as [[px py] pz]; unfold Square6.Asteroid.init.
  unfold Random.bind at 1.
  pose proof (random_vertices_length num_verts [] g) as Hlen.
  destruct (Square6.Asteroid.random_vertices num_verts [] g) as [vs g1].
  cbn [fst length] in Hlen.
  cbv beta iota zeta delta [Random.bind Random.uniform Random.random Random.ret].
  cbn [fst Square6.Asteroid.mesh Mesh.vertices].
  rewrite length_app, Hlen; cbn [length]; lia.
- destruct position as [[px py] pz]; unfold Square6.Asteroid.init.
  unfold Random.bind at 1.
  destruct (Square6.Asteroid.random_vertices num_verts [] g) as [vs g1].
  cbv beta iota zeta delta [Random.bind Random.uniform Random.random Random.ret].
  cbn [fst Square6.Asteroid.mesh Mesh.faces].
  apply fan_faces_valid.
- assumption.
- assumption.
- assumption.
- intros dt cdz a g H; unfold Square6.Asteroid.update.
  cbv beta iota zeta delta [Random.bind Random.uniform Random.random Random.ret].
  repeat match goal with |- context [if ?c then _ else _] => destruct c end;
    exact H.
Qed.

Lemma built_meshes_well_formed_witness :
  well_formed (Mesh.Cube_update 0.02 Square6.red_cube).
Proof.
apply (proj1 (proj2 (proj2 (proj2 built_meshes_well_formed))) 0.02 Square6.red_cube).
apply Compositor.cube_well_formed.
Defined.

End Meshes.

(** ** Input and camera control *)

Module Control.

Import Square6.Controller.

Ltac unfold_constants :=
  unfold max_speed_normal, max_speed_warp, acceleration, deceleration,
    strafe_speed_base, vertical_speed_base, camera_lerp_factor,
    camera_shake_max_strength, camera_shake_decay_rate, Square6.WORLD_SIZE in *.

Lemma handle_event_kept st e : controlled st -> controlled (handle_event st e).
Proof.
intros (Hs & Hx & Hy & Hi); unfold controlled.
destruct e as [|k|k|]; try destruct k; cbn [handle_event];
  try (destruct (warp (pressed (with_keys st _))));
  cbn [stop with_keys with_shake current_speed camera_x camera_y camera_shake_intensity];
  repeat split; try apply Hs; try apply Hx; try apply Hy; try apply Hi; lra.
Qed.

Lemma handle_events_kept events : forall st,
  controlled st -> controlled (handle_events events st).
Proof.
unfold handle_events; induction events as [|e events IH]; intros st H; cbn [fold_left].
- exact H.
- apply IH, handle_event_kept, H.
Qed.

Lemma clamp_range lo hi x : lo <= hi -> lo <= Rmax lo (Rmin hi x) <= hi.
Proof.
intros H; unfold Rmax, Rmin; destruct (Rle_dec hi x); destruct (Rle_dec _ _); lra.
Qed.

(** The speed after one frame. *)
Lemma speed_step (fwd bwd wrp : bool) speed dt :
  0 <= dt -> -100 <= speed <= 1500 ->
  -100 <=
    (if fwd then Rmin (if wrp then 1500 else 200) (speed + 100 * dt)
     else if bwd then Rmax (- (200) / 2) (speed - 100 * dt)
     else if Py.gtb speed 0 then Rmax 0.0 (speed - 200 * dt)
     else if Py.ltb speed 0 then Rmin 0.0 (speed + 200 * dt)
     else speed) <= 1500.
Proof.
intros Hdt Hs.
destruct fwd; [|destruct bwd; [|destruct (Py.gtb speed 0) eqn:E1;
                                  [|destruct (Py.ltb speed 0) eqn:E2]]];
  try destruct wrp; unfold Rmin, Rmax;
  repeat match goal with |- context [Rle_dec ?a ?b] => destruct (Rle_dec a b) end;
  try (apply PyFacts.gtb_true in E1); try (apply PyFacts.ltb_true in E2); lra.
Qed.

Lemma update_state_kept dt st g :
  Random.unit_samples g -> 0 <= dt -> controlled st ->
  controlled (fst (fst (update_state dt st g))) /\
  Random.unit_samples (snd (update_state dt st g)).
Proof.
intros Hg Hdt (Hs & Hx & Hy & Hi); unfold controlled, update_state.
unfold_constants.
pose proof (speed_step (forward (pressed st)) (backward (pressed st)) (warp (pressed st))
              (current_speed st) dt Hdt) as Hspeed.
destruct (Py.gtb (camera_shake_duration st) 0).
- cbv beta iota zeta delta [Random.bind Random.ret Random.uniform Random.random].
  match goal with |- context [Py.ltb ?a 0.01] => destruct (Py.ltb a 0.01) eqn:E end;
    cbn [fst snd current_speed camera_x camera_y camera_shake_intensity];
    (split; [|exact Hg]); repeat split;
    try (apply Hspeed; lra); try (apply clamp_range; lra); try lra.
  + apply PyFacts.ltb_false in E; lra.
  + apply PyFacts.ltb_false in E.
    assert (camera_shake_intensity st * (1.0 - 0.9 * dt * 5)
            <= camera_shake_intensity st * 1) by (apply Rmult_le_compat_l; lra).
    lra.
- unfold Random.ret; cbn [fst snd current_speed camera_x camera_y camera_shake_intensity].
  (split; [|exact Hg]); repeat split;
    try (apply Hspeed; lra); try (apply clamp_range; lra); lra.
Qed.

Lemma frames_kept inputs : forall st g,
  Random.unit_samples g ->
  Forall (fun input => 0 <= snd input) inputs ->
  controlled st ->
  controlled (fst (frames inputs st g)).
Proof.
induction inputs as [|[events dt] inputs IH]; intros st g Hg Hdt Hst; cbn [frames].
- exact Hst.
- inversion Hdt as [|i rest Hd Hrest]; subst; cbn [snd] in Hd.
  destruct (running st); [|exact Hst].
  unfold Random.bind, frame.
  destruct (update_state_kept dt (handle_events events st) g Hg Hd
              (handle_events_kept events st Hst)) as [Hk Hg'].
  destruct (update_state dt (handle_events events st) g) as [[st' out] g'].
  cbn [fst snd] in *. apply IH; assumption.
Qed.

Lemma initial_controlled : controlled initial.
Proof. unfold controlled, initial; unfold_constants; simpl; lra. Qed.

(** X16.  Through any run of the frame loop with frame times [dt >= 0] and
    any input events, the forward speed stays in [[-100, 1500]], the camera
    stays inside the world bounds ([|x| <= WORLD_SIZE],
    [|y| <= WORLD_SIZE / 2]) and the shake intensity stays in [[0, 1]]. *)
Theorem camera_controlled :
  forall inputs g,
    Random.unit_samples g ->
    Forall (fun input => 0 <= snd input) inputs ->
    controlled (fst (frames inputs initial g)).
Proof.
intros inputs g Hg Hdt; apply frames_kept; [exact Hg | exact Hdt | exact initial_controlled].
Qed.

Lemma camera_controlled_witness :
  controlled (fst (frames [([KEYDOWN K_w; KEYDOWN K_e], 0.02); ([KEYUP K_w], 0.5);
                           ([KEYDOWN K_s; KEYDOWN K_a], 0.016)]
                     initial (Random.constant (3/4)))).
Proof.
apply camera_controlled.
- apply RandomFacts.constant_unit; lra.
- repeat constructor; simpl; lra.
Defined.

(** X17.  The camera shake of one frame: each offset is at most 20 times the
    shake intensity in size; with [dt >= 0] the intensity does not grow and
    is afterwards either zero, with the duration reset to zero, or at least
    0.01; and when the duration has run out the offsets are zero and the
    intensity is left as it is. *)
Theorem shake_decays :
  forall dt st g,
    Random.unit_samples g -> 0 <= dt ->
    0 <= camera_shake_intensity st ->
    let '(st', out) := fst (update_state dt st g) in
    Rabs (shake_offset_x out) <= 20 * camera_shake_intensity st /\
    Rabs (shake_offset_y out) <= 20 * camera_shake_intensity st /\
    0 <= camera_shake_intensity st' <= camera_shake_intensity st /\
    (camera_shake_duration st > 0 ->
     (camera_shake_intensity st' = 0 /\ camera_shake_duration st' = 0) \/
     (0.01 <= camera_shake_intensity st' /\
      camera_shake_duration st' = camera_shake_duration st - dt)) /\
    (camera_shake_duration st <= 0 ->
     shake_offset_x out = 0 /\ shake_offset_y out = 0 /\
     camera_shake_intensity st' = camera_shake_intensity st /\
     camera_shake_duration st' = camera_shake_duration st).
Proof.
intros dt st g Hg Hdt Hi; unfold update_state; unfold_constants.
destruct (Py.gtb (camera_shake_duration st) 0) eqn:Ed.
- apply PyFacts.gtb_true in Ed.
  cbv beta iota zeta delta [Random.bind Random.ret Random.uniform Random.random].
  pose proof (Hg (Random.cursor g)) as U0.
  pose proof (Hg (S (Random.cursor g))) as U1.
  assert (Hdecay : camera_shake_intensity st * (1.0 - 0.9 * dt * 5)
                   <= camera_shake_intensity st * 1) by (apply Rmult_le_compat_l; lra).
  match goal with |- context [Py.ltb ?a 0.01] => destruct (Py.ltb a 0.01) eqn:E end;
    cbn [fst snd shake_offset_x shake_offset_y camera_shake_intensity
         camera_shake_duration Random.samples Random.cursor].
  + repeat split; try lra; try (apply Rabs_le; split; nra).
  + apply PyFacts.ltb_false in E.
    repeat split; try lra; try (apply Rabs_le; split; nra).
- apply PyFacts.gtb_false in Ed.
  unfold Random.ret; cbn [fst snd shake_offset_x shake_offset_y camera_shake_intensity
                          camera_shake_duration].
  rewrite Rabs_R0; repeat split; try lra; try reflexivity.
Qed.

Lemma shake_decays_witness :
  let st := handle_event initial (KEYDOWN K_e) in
  let '(st', out) := fst (update_state 0.02 st (Random.constant (3/4))) in
  Rabs (shake_offset_x out) <= 20 * camera_shake_intensity st /\
  Rabs (shake_offset_y out) <= 20 * camera_shake_intensity st /\
  0 <= camera_shake_intensity st' <= camera_shake_intensity st /\
  (camera_shake_duration st > 0 ->
   (camera_shake_intensity st' = 0 /\ camera_shake_duration st' = 0) \/
   (0.01 <= camera_shake_intensity st' /\
    camera_shake_duration st' = camera_shake_duration st - 0.02)) /\
  (camera_shake_duration st <= 0 ->
   shake_offset_x out = 0 /\ shake_offset_y out = 0 /\
   camera_shake_intensity st' = camera_shake_intensity st /\
   camera_shake_duration st' = camera_shake_duration st).
Proof.
apply (shake_decays 0.02 (handle_event initial (KEYDOWN K_e)) (Random.constant (3/4))).
- apply RandomFacts.constant_unit; lra.
- lra.
- simpl; lra.
Defined.

Lemma handle_event_warp st e :
  warp (pressed (handle_event st e))
    = xorb (warp (pressed st))
           (match e with KEYDOWN K_e => true | _ => false end) /\
  running (handle_event st e)
    = running st && (match e with QUIT => false | _ => true end).
Proof.
destruct st as [r [f b l rt u d w] cx cy cz tx ty cs ts wf si sd].
destruct e as [|k|k|]; try destruct k; destruct w, r; split; reflexivity.
Qed.

(** X18.  Warp is a toggle and quitting is final within a frame: after the
    events of a frame the warp flag is the old flag flipped once for every
    time the warp key went down, whatever other keys were pressed or
    released, and [running] is true exactly when it was true before and no
    [QUIT] event was seen. *)
Theorem warp_is_a_toggle :
  forall events st,
    warp (pressed (handle_events events st))
      = xorb (warp (pressed st)) (Nat.odd (warp_presses events)) /\
    running (handle_events events st) = running st && no_quit events.
Proof.
unfold handle_events, warp_presses, no_quit.
induction events as [|e events IH]; intros st; cbn [fold_left filter forallb length].
- cbn; rewrite xorb_false_r, andb_true_r; split; reflexivity.
- destruct (IH (handle_event st e)) as [Hw Hr].
  destruct (handle_event_warp st e) as [Hw1 Hr1].
  rewrite Hw, Hr, Hw1, Hr1; split.
  + assert (Hodd : forall n, Nat.odd (S n) = negb (Nat.odd n))
      by (intros n; rewrite Nat.odd_succ, <- Nat.negb_odd; reflexivity).
    destruct e as [|k|k|]; try destruct k; cbn [length]; rewrite ?Hodd;
      destruct (warp (pressed st)), (Nat.odd (length _)); reflexivity.
  + destruct e, (running st); reflexivity.
Qed.

Lemma update_state_warp dt st g :
  0 <= 5 * dt <= 1 -> 0 <= warp_factor st <= 1 ->
  0 <= warp_factor (fst (fst (update_state dt st g))) <= 1.
Proof.
intros Hdt Hw; unfold update_state.
assert (H : 0 <= Square6.warp_tick (warp (pressed st)) dt (warp_factor st) <= 1).
{ unfold Square6.warp_tick, Square6.lerp.
  destruct (warp (pressed st)).
  - replace (warp_factor st + (1.0 - warp_factor st) * (5.0 * dt))
      with (1 - (1 - warp_factor st) * (1 - 5 * dt)) by lra.
    assert (0 <= (1 - warp_factor st) * (1 - 5 * dt) <= 1 * 1).
    { split; [apply Rmult_le_pos; lra|]. apply Rmult_le_compat; lra. }
    lra.
  - replace (warp_factor st + (0.0 - warp_factor st) * (5.0 * dt))
      with (warp_factor st * (1 - 5 * dt)) by lra.
    assert (0 <= warp_factor st * (1 - 5 * dt) <= 1 * 1).
    { split; [apply Rmult_le_pos; lra|]. apply Rmult_le_compat; lra. }
    lra. }
destruct (Py.gtb (camera_shake_duration st) 0).
- cbv beta iota zeta delta [Random.bind Random.ret Random.uniform Random.random].
  match goal with |- context [Py.ltb ?a 0.01] => destruct (Py.ltb a 0.01) end;
    cbn [fst warp_factor]; exact H.
- unfold Random.ret; cbn [fst warp_factor]; exact H.
Qed.

Lemma handle_events_warp_factor events : forall st,
  warp_factor (handle_events events st) = warp_factor st.
Proof.
unfold handle_events; induction events as [|e events IH]; intros st; cbn [fold_left].
- reflexivity.
- rewrite IH.
  destruct e as [|k|k|]; try destruct k; cbn [handle_event];
    try (destruct (warp (pressed (with_keys st _)))); reflexivity.
Qed.

(** X19.  When no frame is longer than 0.2 s ([0 <= 5 * dt <= 1]), the warp
    factor stays in [[0, 1]] through the whole run, however the warp key is
    toggled. *)
Theorem warp_factor_in_unit_interval :
  forall inputs st g,
    Forall (fun input => 0 <= 5 * snd input <= 1) inputs ->
    0 <= warp_factor st <= 1 ->
    0 <= warp_factor (fst (frames inputs st g)) <= 1.
Proof.
induction inputs as [|[events dt] inputs IH]; intros st g Hdt Hw; cbn [frames].
- exact Hw.
- inversion Hdt as [|i rest Hd Hrest]; subst; cbn [snd] in Hd.
  destruct (running st); [|exact Hw].
  unfold Random.bind, frame.
  pose proof (update_state_warp dt (handle_events events st) g Hd) as H.
  rewrite handle_events_warp_factor in H; specialize (H Hw).
  destruct (update_state dt (handle_events events st) g) as [[st' out] g'].
  cbn [fst] in *; apply IH; assumption.
Qed.

Lemma warp_factor_in_unit_interval_witness :
  0 <= warp_factor (fst (frames [([KEYDOWN K_e], 0.02); ([], 0.2); ([KEYDOWN K_e], 0.1)]
                           initial (Random.constant (3/4)))) <= 1.
Proof.
apply warp_factor_in_unit_interval.
- repeat constructor; simpl; lra.
- simpl; lra.
Defined.

(** X20.  Coasting: with neither the forward nor the backward key down, a
    frame with [dt >= 0] moves the speed toward zero by [200 * dt] without
    crossing zero, and stops it at exactly zero when it was within
    [200 * dt] of it. *)
Theorem coasting_stops_at_zero :
  forall dt st g,
    0 <= dt ->
    forward (pressed st) = false -> backward (pressed st) = false ->
    let speed := current_speed st in
    let speed' := current_speed (fst (fst (update_state dt st g))) in
    Rabs speed' = Rmax 0 (Rabs speed - 200 * dt) /\
    0 <= speed * speed' /\
    camera_delta_z (snd (fst (update_state dt st g))) = speed' * dt.
Proof.
intros dt st g Hdt Hf Hb; cbv zeta.
assert (E : current_speed (fst (fst (update_state dt st g)))
            = if Py.gtb (current_speed st) 0 then Rmax 0.0 (current_speed st - 200 * dt)
              else if Py.ltb (current_speed st) 0 then Rmin 0.0 (current_speed st + 200 * dt)
              else current_speed st).
{ unfold update_state; rewrite Hf, Hb; unfold_constants.
  destruct (Py.gtb (camera_shake_duration st) 0).
  - cbv beta iota zeta delta [Random.bind Random.ret Random.uniform Random.random].
    match goal with |- context [Py.ltb ?a 0.01] => destruct (Py.ltb a 0.01) end;
      reflexivity.
  - reflexivity. }
assert (D : camera_delta_z (snd (fst (update_state dt st g)))
            = current_speed (fst (fst (update_state dt st g))) * dt).
{ unfold update_state.
  destruct (Py.gtb (camera_shake_duration st) 0).
  - cbv beta iota zeta delta [Random.bind Random.ret Random.uniform Random.random].
    match goal with |- context [Py.ltb ?a 0.01] => destruct (Py.ltb a 0.01) end;
      reflexivity.
  - reflexivity. }
split; [|split; [|exact D]]; rewrite E.
- destruct (Py.gtb (current_speed st) 0) eqn:E1;
    [apply PyFacts.gtb_true in E1
    |apply PyFacts.gtb_false in E1; destruct (Py.ltb (current_speed st) 0) eqn:E2;
       [apply PyFacts.ltb_true in E2 | apply PyFacts.ltb_false in E2]];
    unfold Rabs, Rmax, Rmin;
    repeat match goal with
           | |- context [Rcase_abs (current_speed st)] =>
               destruct (Rcase_abs (current_speed st))
           | |- context [Rle_dec ?a ?b] => destruct (Rle_dec a b)
           | |- context [Rcase_abs ?a] => destruct (Rcase_abs a)
           end; lra.
- destruct (Py.gtb (current_speed st) 0) eqn:E1;
    [apply PyFacts.gtb_true in E1
    |apply PyFacts.gtb_false in E1; destruct (Py.ltb (current_speed st) 0) eqn:E2;
       [apply PyFacts.ltb_true in E2 | apply PyFacts.ltb_false in E2]];
    unfold Rmax, Rmin;
    repeat match goal with |- context [Rle_dec ?a ?b] => destruct (Rle_dec a b) end;
    nra.
Qed.

Lemma coasting_stops_at_zero_witness :
  let st := mk true (mk_keys false false true false false false false)
               0 0 500 0 0 3 200 0 0 0 in
  Rabs (current_speed (fst (fst (update_state 0.02 st (Random.constant (3/4))))))
    = Rmax 0 (Rabs (current_speed st) - 200 * 0.02).
Proof.
apply (coasting_stops_at_zero 0.02
         (mk true (mk_keys false false true false false false false)
             0 0 500 0 0 3 200 0 0 0) (Random.constant (3/4))).
- lra.
- reflexivity.
- reflexivity.
Defined.

End Control.

(** ** Stars, cubes and the ground grid of the scenes *)

Module Scene.

Lemma int_below x (k : Z) : 0 < x < IZR k -> (0 <= Py.int x < k)%Z.
Proof.
intros [H0 Hk]; split; [apply PyFacts.int_nonneg_pos; lra|].
destruct (PyFacts.int_nonneg x) as [Hle _]; [lra|].
apply lt_IZR; lra.
Qed.

(** X21.  A star that [project] of square4.py draws has its centre inside
    the window and an alpha in [[0, 255]]; and a star with a positive size
    is drawn only while it is nearer than 300.001, with a radius that is
    not negative. *)
Theorem star_project_on_screen :
  forall s c,
    Square4.Star.project s = Some (Some c) ->
    (0 <= Square4.Star.cx c < Square4.WIDTH)%Z /\
    (0 <= Square4.Star.cy c < Square4.HEIGHT)%Z /\
    (0 <= Square4.Star.alpha c <= 255)%Z /\
    (0 < Square4.Star.initial_size s ->
     Square4.Star.z s < 300.001 /\ (0 <= Square4.Star.radius c)%Z).
Proof.
intros s c; unfold Square4.Star.project.
destruct (Req_dec_T (300 - Square4.Star.z s + 0.001) 0) as [E|E]; [discriminate|].
set (factor := 300 / (300 - Square4.Star.z s + 0.001)).
destruct (Py.ltb 0 _ && Py.ltb _ _ && (Py.ltb 0 _ && Py.ltb _ _) && Py.gtb _ 0.5) eqn:C;
  [|discriminate].
match goal with
| |- Some (Some (Square4.Star.mk_circle ?a ?b ?r ?al)) = _ -> _ =>
    remember a as cx eqn:Hcx; remember b as cy eqn:Hcy;
    remember r as radius eqn:Hr; remember al as alpha eqn:Hal
end.
intros [= <-];
  unfold Square4.Star.cx, Square4.Star.cy, Square4.Star.alpha, Square4.Star.radius;
  subst cx cy radius alpha.
apply andb_true_iff in C as [C Cs]; apply andb_true_iff in C as [Cx Cy].
apply andb_true_iff in Cx as [Cx0 Cx1]; apply andb_true_iff in Cy as [Cy0 Cy1].
apply PyFacts.ltb_true in Cx0, Cx1, Cy0, Cy1; apply PyFacts.gtb_true in Cs.
split; [apply int_below; split; assumption|].
split; [apply int_below; split; assumption|].
split; [lia|].
intros Hsize.
assert (Hf : 0 < factor).
{ destruct (Rlt_or_le 0 factor) as [Hf|Hf]; [exact Hf|].
  assert (Square4.Star.initial_size s * factor <= 0) by nra. lra. }
split.
- destruct (Rlt_or_le (Square4.Star.z s) 300.001) as [Hz|Hz]; [exact Hz|].
  exfalso. assert (Hd : 300 - Square4.Star.z s + 0.001 < 0) by lra.
  assert (Hinv : / (300 - Square4.Star.z s + 0.001) < 0) by (apply Rinv_lt_0_compat, Hd).
  unfold factor, Rdiv in Hf. nra.
- apply PyFacts.int_nonneg_pos. lra.
Qed.

Lemma star_project_on_screen_witness :
  let s := Square4.Star.mk 0 0 (0.001) 2 (255, 255, 255)%Z in
  match Square4.Star.project s with
  | Some (Some c) =>
      (0 <= Square4.Star.cx c < Square4.WIDTH)%Z /\
      (0 <= Square4.Star.cy c < Square4.HEIGHT)%Z /\
      (0 <= Square4.Star.alpha c <= 255)%Z /\
      (0 < Square4.Star.initial_size s ->
       Square4.Star.z s < 300.001 /\ (0 <= Square4.Star.radius c)%Z)
  | _ => False
  end.
Proof.
intros s.
assert (H : exists c, Square4.Star.project s = Some (Some c)).
{ unfold Square4.Star.project, s; cbn [Square4.Star.x Square4.Star.y Square4.Star.z
                                        Square4.Star.initial_size].
  destruct (Req_dec_T (300 - 0.001 + 0.001) 0) as [E|E]; [exfalso; lra|].
  replace (300 / (300 - 0.001 + 0.001)) with 1 by lra.
  unfold Square4.WIDTH, Square4.HEIGHT.
  change (800 / 2)%Z with 400%Z; change (600 / 2)%Z with 300%Z.
  rewrite (proj2 (PyFacts.ltb_true 0 (0 * 1 + 400))) by lra.
  rewrite (proj2 (PyFacts.ltb_true (0 * 1 + 400) 800)) by lra.
  rewrite (proj2 (PyFacts.ltb_true 0 (0 * 1 + 300))) by lra.
  rewrite (proj2 (PyFacts.ltb_true (0 * 1 + 300) 600)) by lra.
  rewrite (proj2 (PyFacts.gtb_true (2 * 1) 0.5)) by lra.
  cbn [andb]; eexists; reflexivity. }
destruct H as [c Hc]; rewrite Hc.
exact (star_project_on_screen s c Hc).
Defined.

(** X22.  The recycling of square4.py keeps a star between the reset depth
    and the far end: from a depth of at most 1500 and with a speed
    multiplier that is not negative, [update] leaves the depth in
    [[1, 1500]], and a star that was reset is inside the spawn box with a
    size in [[1, 3]]. *)
Theorem star_update_recycles :
  forall m s g,
    Random.unit_samples g -> 0 <= m -> Square4.Star.z s <= 1500 ->
    let s' := fst (Square4.Star.update m s g) in
    1 <= Square4.Star.z s' <= 1500 /\
    (Square4.Star.z s - 5 * m < 1 ->
     Square4.Star.z s' = 1500 /\
     - IZR Square4.WIDTH <= Square4.Star.x s' <= IZR Square4.WIDTH /\
     - IZR Square4.HEIGHT <= Square4.Star.y s' <= IZR Square4.HEIGHT /\
     1 <= Square4.Star.initial_size s' <= 3) /\
    (1 <= Square4.Star.z s - 5 * m ->
     Square4.Star.z s' = Square4.Star.z s - 5 * m /\ Square4.Star.x s' = Square4.Star.x s /\
     Square4.Star.y s' = Square4.Star.y s /\
     Square4.Star.initial_size s' = Square4.Star.initial_size s).
Proof.
intros m s g Hg Hm Hz; unfold Square4.Star.update; cbn [Square4.Star.z].
destruct (Py.ltb (Square4.Star.z s - 5 * m) 1) eqn:E.
- apply PyFacts.ltb_true in E.
  cbv beta iota zeta delta [Random.bind Random.ret Random.uniform Random.random].
  cbn [fst Random.samples Random.cursor Square4.Star.x Square4.Star.y Square4.Star.z
       Square4.Star.initial_size].
  pose proof (Hg (Random.cursor g)) as U0.
  pose proof (Hg (S (Random.cursor g))) as U1.
  pose proof (Hg (S (S (Random.cursor g)))) as U2.
  unfold Square4.WIDTH, Square4.HEIGHT.
  repeat split; try lra; try nra.
- apply PyFacts.ltb_false in E.
  unfold Random.ret; cbn [fst Square4.Star.x Square4.Star.y Square4.Star.z
                          Square4.Star.initial_size].
  repeat split; try lra; try reflexivity.
Qed.

Lemma star_update_recycles_witness :
  let s' := fst (Square4.Star.update 1 (Square4.Star.mk 10 20 3 2 (255, 255, 255)%Z)
                   (Random.constant (3/4))) in
  1 <= Square4.Star.z s' <= 1500.
Proof.
apply (star_update_recycles 1 (Square4.Star.mk 10 20 3 2 (255, 255, 255)%Z)
         (Random.constant (3/4))).
- apply RandomFacts.constant_unit; lra.
- lra.
- simpl; lra.
Defined.

Lemma all_not_none_defined {A B} (f : A -> option B) (xs : list A) :
  (forall x, In x xs -> f x <> None) ->
  exists ys, Mesh.all_not_none (map f xs) = Some ys /\ length ys = length xs.
Proof.
induction xs as [|x xs IH]; intros H; cbn [map Mesh.all_not_none].
- exists []; split; reflexivity.
- destruct (f x) as [b|] eqn:E; [|exfalso; apply (H x); [left; reflexivity | exact E]].
  destruct IH as (ys & -> & Hlen); [intros y Hy; apply H; right; exact Hy|].
  exists (b :: ys); split; [reflexivity | cbn [length]; congruence].
Qed.

(** The averages that the faces of the cube are sorted by. *)
Lemma cube_face_z_values scale ox oy oz :
  Square4Scene.face_z_values (Square4Scene.cube_vertices scale ox oy oz) =
  Some [(oz - 100 * scale, 0%nat); (oz + 100 * scale, 1%nat); (oz, 2%nat); (oz, 3%nat);
        (oz, 4%nat); (oz, 5%nat)].
Proof.
unfold Square4Scene.face_z_values, Square4Scene.cube_vertices, Square4Scene.cube_faces,
  Mesh.enumerate.
cbn [map Mesh.enumerate_from Mesh.for_each Mesh.index_all nth_error length Nat.eqb app snd].
unfold Py.sum, Py.len; cbn [fold_left length].
replace (INR 4) with 4 by (simpl; lra).
f_equal; repeat (f_equal; [f_equal; field|]).
f_equal; f_equal; field.
Qed.

(** The order after [sort(key=..., reverse=True)]. *)
Lemma cube_face_order scale oz :
  0 < scale ->
  Py.sort_reverse (fun x : R * nat => fst x)
    [(oz - 100 * scale, 0%nat); (oz + 100 * scale, 1%nat); (oz, 2%nat); (oz, 3%nat);
     (oz, 4%nat); (oz, 5%nat)] =
  [(oz + 100 * scale, 1%nat); (oz, 2%nat); (oz, 3%nat); (oz, 4%nat); (oz, 5%nat);
   (oz - 100 * scale, 0%nat)].
Proof.
intros Hs; cbn [Py.sort_reverse Py.insert_desc fst].
repeat (match goal with
        | |- context [Py.ltb ?a ?b] =>
            let E := fresh "E" in
            destruct (Py.ltb a b) eqn:E;
            [apply PyFacts.ltb_true in E | apply PyFacts.ltb_false in E];
            try (exfalso; lra)
        end; cbn [Py.insert_desc fst]).
reflexivity.
Qed.

(** A point inside the window. *)
Lemma on_screen_true (p : point2) :
  0 <= fst p < IZR Square4.WIDTH -> 0 <= snd p < IZR Square4.HEIGHT ->
  Square4Scene.on_screen p = true.
Proof.
intros [Hx0 Hx1] [Hy0 Hy1]; unfold Square4Scene.on_screen.
rewrite (proj2 (PyFacts.ltb_false (fst p) 0)) by lra.
rewrite (proj2 (PyFacts.ltb_true (fst p) (IZR Square4.WIDTH))) by lra.
rewrite (proj2 (PyFacts.ltb_false (snd p) 0)) by lra.
rewrite (proj2 (PyFacts.ltb_true (snd p) (IZR Square4.HEIGHT))) by lra.
reflexivity.
Qed.

(** X23.  The cube of square4.py is painted in one fixed order.  For a
    positive scale and whenever no vertex is projected with a zero divisor,
    [draw_3d_cube] returns, and what it draws is, in the order back, bottom,
    top, right, left, front (1, 2, 3, 4, 5, 0), every face whose four
    projected points are on screen, with its lit colour and these points,
    and no other face, whatever the rotation angles are: the depth key is
    taken from the vertices before they are rotated. *)
Theorem cube_painted_in_fixed_order :
  forall angle_x angle_y angle_z scale offset_x offset_y offset_z camera_z,
    0 < scale ->
    (forall v, In v (Square4Scene.cube_vertices scale offset_x offset_y offset_z) ->
       Square4.project_point (Square4.rotate_point_3d v angle_x angle_y angle_z)
         (IZR (Square4.WIDTH / 2 + 200)) (IZR (Square4.HEIGHT / 2)) camera_z <> None) ->
    exists projected polygons,
      Mesh.all_not_none
        (map (fun v =>
                Square4.project_point (Square4.rotate_point_3d v angle_x angle_y angle_z)
                  (IZR (Square4.WIDTH / 2 + 200)) (IZR (Square4.HEIGHT / 2)) camera_z)
             (Square4Scene.cube_vertices scale offset_x offset_y offset_z))
        = Some projected /\
      Square4Scene.draw_3d_cube angle_x angle_y angle_z scale offset_x offset_y offset_z
        camera_z = Some polygons /\
      polygons = flat_map (cube_face_drawn projected) [1; 2; 3; 4; 5; 0]%nat /\
      subsequence (map (fun p => fst (fst p)) polygons) [1; 2; 3; 4; 5; 0]%nat = true.
Proof.
intros ax ay az scale ox oy oz cz Hs Hv; unfold Square4Scene.draw_3d_cube.
destruct (all_not_none_defined _ _ Hv) as (projected & -> & Hlen).
rewrite cube_face_z_values, cube_face_order by exact Hs.
unfold Square4Scene.cube_vertices in Hlen; cbn [map length] in Hlen.
destruct projected as [|q0 [|q1 [|q2 [|q3 [|q4 [|q5 [|q6 [|q7 [|q8 rest]]]]]]]]];
  try discriminate Hlen.
exists [q0; q1; q2; q3; q4; q5; q6; q7].
unfold cube_face_drawn, Square4Scene.cube_faces.
cbn [Mesh.for_each flat_map nth_error Mesh.index_all].
repeat match goal with
       | |- context [forallb Square4Scene.on_screen ?l] =>
           destruct (forallb Square4Scene.on_screen l)
       end;
  cbn [app]; eexists; (split; [reflexivity|]); (split; [reflexivity|]);
  split; reflexivity.
Qed.

(** The cube at the origin, unrotated and at scale 1, seen by the camera
    at 200: all six faces are on screen and are drawn, the front face
    last. *)
Lemma cube_painted_in_fixed_order_witness :
  exists polygons,
    Square4Scene.draw_3d_cube 0 0 0 1 0 0 0 200 = Some polygons /\
    map (fun p => fst (fst p)) polygons = [1; 2; 3; 4; 5; 0]%nat.
Proof.
destruct (cube_painted_in_fixed_order 0 0 0 1 0 0 0 200) as (projected & polygons & P & D & E & _).
- lra.
- intros v Hin; unfold Square4Scene.cube_vertices in Hin; cbn [map In] in Hin.
  unfold Square4.project_point, Square4.rotate_point_3d.
  repeat (destruct Hin as [<-|Hin];
    [rewrite cos_0, sin_0;
     match goal with |- context [Req_dec_T ?a 0] => destruct (Req_dec_T a 0) as [E|E] end;
     [exfalso; lra | discriminate]|]).
  contradiction.
- exists polygons; split; [exact D|].
  unfold Square4Scene.cube_vertices, Square4.project_point, Square4.rotate_point_3d in P.
  cbn [map] in P; rewrite cos_0, sin_0 in P.
  change (Square4.WIDTH / 2 + 200)%Z with 600%Z in P.
  change (Square4.HEIGHT / 2)%Z with 300%Z in P.
  repeat match type of P with
         | context [Req_dec_T ?a 0] =>
             destruct (Req_dec_T a 0) as [Hz|_]; [exfalso; clear - Hz; lra|]
         end.
  repeat match type of P with
         | context [200 / ?d] =>
             lazymatch d with
             | 100.001 => fail
             | 300.001 => fail
             | _ => idtac
             end;
             first [replace d with 100.001 in P by lra
                   |replace d with 300.001 in P by lra]
         end.
  cbn [Mesh.all_not_none] in P; injection P as <-.
  subst polygons; unfold cube_face_drawn, Square4Scene.cube_faces.
  cbn [flat_map nth_error Mesh.index_all forallb].
  rewrite !on_screen_true
    by (unfold Square4.WIDTH, Square4.HEIGHT; cbn [fst snd]; lra).
  reflexivity.
Defined.

(** X24.  Of the 41 horizontal lines of the ground grid of square6.py only
    those in front of the camera are drawn: the line with index [i] lies at
    the view depth [80 * i], whatever the camera position is, so it is
    drawn exactly when [1 <= i <= 75], and the 21 lines with an index from
    -20 to 0 never are. *)
Theorem ground_lines_in_front :
  forall camera_pos i,
    Square6.GroundPlane.horizontal_line_drawn camera_pos i = ((1 <=? i) && (i <=? 75))%Z /\
    map (Square6.GroundPlane.horizontal_line_drawn camera_pos)
        Square6.GroundPlane.line_indices
      = repeat false 21 ++ repeat true 20.
Proof.
assert (H : forall camera_pos i,
  Square6.GroundPlane.horizontal_line_drawn camera_pos i = ((1 <=? i) && (i <=? 75))%Z).
{ intros [[cx cy] cz] i.
  unfold Square6.GroundPlane.horizontal_line_drawn, Square6.GroundPlane.horizontal_line,
    Square6.project_point, Square6.GroundPlane.spacing, Square6.CAMERA_NEAR_CLIP,
    Square6.CAMERA_FAR_CLIP.
  replace (cz + IZR i * 80 - cz) with (IZR i * 80) by ring.
  destruct ((1 <=? i) && (i <=? 75))%Z eqn:B.
  - apply andb_true_iff in B as [B1 B2]; apply Z.leb_le in B1, B2.
    apply IZR_le in B1, B2.
    rewrite (proj2 (PyFacts.clip_false (IZR i * 80) 1.0 6000.0)) by lra.
    reflexivity.
  - rewrite (proj2 (PyFacts.clip_true (IZR i * 80) 1.0 6000.0)); [reflexivity|].
    apply andb_false_iff in B as [B|B]; apply Z.leb_gt in B.
    + left. assert (i <= 0)%Z as B' by lia. apply IZR_le in B'. lra.
    + right. assert (76 <= i)%Z as B' by lia. apply IZR_le in B'. lra. }
intros camera_pos i; split; [apply H|].
unfold Square6.GroundPlane.line_indices.
rewrite map_map.
erewrite map_ext; [|intros n; apply H].
reflexivity.
Qed.


(** The depth after the rotations about the x and the y axis is no longer
    than the vector that is rotated. *)
Lemma rotated_depth_bound x y z cx sx cy sy :
  cx * cx + sx * sx = 1 -> cy * cy + sy * sy = 1 ->
  (x * sy + (y * sx + z * cx) * cy) * (x * sy + (y * sx + z * cx) * cy)
    <= x * x + y * y + z * z.
Proof.
intros Hx Hy.
set (z1 := y * sx + z * cx).
assert (H1 : z1 * z1 <= y * y + z * z).
{ assert (E : z1 * z1 + (y * cx - z * sx) * (y * cx - z * sx) = y * y + z * z).
  { unfold z1.
    replace ((y * sx + z * cx) * (y * sx + z * cx) + (y * cx - z * sx) * (y * cx - z * sx))
      with ((y * y + z * z) * (cx * cx + sx * sx)) by ring.
    rewrite Hx; ring. }
  pose proof (Rle_0_sqr (y * cx - z * sx)) as P; unfold Rsqr in P; lra. }
assert (E : (x * sy + z1 * cy) * (x * sy + z1 * cy)
            + (x * cy - z1 * sy) * (x * cy - z1 * sy) = x * x + z1 * z1).
{ replace ((x * sy + z1 * cy) * (x * sy + z1 * cy) + (x * cy - z1 * sy) * (x * cy - z1 * sy))
    with ((x * x + z1 * z1) * (cy * cy + sy * sy)) by ring.
  rewrite Hy; ring. }
pose proof (Rle_0_sqr (x * cy - z1 * sy)) as P; unfold Rsqr in P; lra.
Qed.

Lemma below_projection_plane d : d * d < 200.001 * 200.001 -> 200 - d + 0.001 <> 0.
Proof. intros H E; assert (d = 200.001) by lra; subst d; lra. Qed.

Lemma square_vertex_defined angle_x angle_y angle_z x y z :
  x * x + y * y + z * z < 200.001 * 200.001 ->
  SquareScene.project_vertex angle_x angle_y angle_z (x, y, z) <> None.
Proof.
intros H; unfold SquareScene.project_vertex.
pose proof (rotated_depth_bound x y z _ _ _ _ (Geometry.cos_sin_unit angle_x) (Geometry.cos_sin_unit angle_y)) as B.
destruct (Req_dec_T _ _) as [E|E]; [|discriminate].
exfalso; revert E; apply below_projection_plane; lra.
Qed.

Lemma square3_vertex_defined angle_x angle_y angle_z x y z :
  x * x + y * y + z * z < 200.001 * 200.001 ->
  Square3.project_vertex angle_x angle_y angle_z (x, y, z) <> None.
Proof.
intros H; unfold Square3.project_vertex.
pose proof (rotated_depth_bound x y z _ _ _ _ (Geometry.cos_sin_unit angle_x) (Geometry.cos_sin_unit angle_y)) as B.
destruct (Req_dec_T _ _) as [E|E]; [|discriminate].
exfalso; revert E; apply below_projection_plane; lra.
Qed.

(** X25.  [draw_rotating_cube] of square.py never divides by zero: for
    every triple of angles all eight vertices are projected and all twelve
    edges are drawn, since a rotated vertex is never deeper than
    [100 * sqrt 3 < 200.001]. *)
Theorem wireframe_cube_always_drawn :
  forall angle_x angle_y angle_z,
    exists lines,
      SquareScene.draw_rotating_cube angle_x angle_y angle_z = Some lines /\
      length lines = 12%nat.
Proof.
intros ax ay az; unfold SquareScene.draw_rotating_cube.
destruct (all_not_none_defined (SquareScene.project_vertex ax ay az)
            SquareScene.cube_vertices) as (projected & -> & Hlen).
{ intros v Hv; unfold SquareScene.cube_vertices in Hv; cbn [In] in Hv.
  repeat (destruct Hv as [<-|Hv]; [apply square_vertex_defined; lra|]).
  contradiction. }
unfold SquareScene.cube_vertices in Hlen; cbn [length] in Hlen.
do 8 (destruct projected as [|? projected]; [discriminate Hlen|]).
destruct projected; [|discriminate Hlen].
eexists; split; reflexivity.
Qed.

(** X26.  [draw_3d_cube] of square3.py draws its six faces, each with four
    points and in the order of the list [faces], for every triple of angles
    as long as the scale is at most 1.15 in size; up to that scale no
    rotated vertex reaches the depth 200.001 at which the projection
    divides by zero. *)
Theorem filled_cube_drawn_up_to_scale :
  forall angle_x angle_y angle_z scale,
    -1.15 <= scale <= 1.15 ->
    exists polygons,
      Square3.draw_3d_cube angle_x angle_y angle_z scale = Some polygons /\
      length polygons = 6%nat /\
      Forall (fun points => length points = 4%nat) polygons.
Proof.
intros ax ay az scale Hs; unfold Square3.draw_3d_cube.
assert (Hsq : 100 * scale * (100 * scale) <= 13225) by nra.
destruct (all_not_none_defined (Square3.project_vertex ax ay az)
            (Square3.cube_vertices scale)) as (projected & -> & Hlen).
{ intros v Hv; unfold Square3.cube_vertices in Hv; cbn [In] in Hv.
  repeat (destruct Hv as [<-|Hv]; [apply square3_vertex_defined; lra|]).
  contradiction. }
unfold Square3.cube_vertices in Hlen; cbn [length] in Hlen.
do 8 (destruct projected as [|? projected]; [discriminate Hlen|]).
destruct projected; [|discriminate Hlen].
eexists; split; [reflexivity|]; split; [reflexivity|].
repeat constructor.
Qed.

Lemma filled_cube_drawn_up_to_scale_witness :
  exists polygons,
    Square3.draw_3d_cube 0.3 0.4 0.2 1.0 = Some polygons /\
    length polygons = 6%nat /\
    Forall (fun points => length points = 4%nat) polygons.
Proof.
apply filled_cube_drawn_up_to_scale; lra.
Defined.


End Scene.

(** ** The frame loop as a whole *)

Module MainLoop.

Import Square6.

(** A loop over a list of entities keeps what its body keeps. *)
Lemma for_all_kept {A B} (P : A -> Prop) (Q : B -> Prop) (body : A -> Random.M B) :
  (forall a g, Random.unit_samples g -> P a ->
     Q (fst (body a g)) /\ Random.unit_samples (snd (body a g))) ->
  forall xs g,
    Random.unit_samples g -> Forall P xs ->
    Forall Q (fst (World.for_all body xs g)) /\
    length (fst (World.for_all body xs g)) = length xs /\
    Random.unit_samples (snd (World.for_all body xs g)).
Proof.
intros Hbody; induction xs as [|a xs IH]; intros g Hg HP; cbn [World.for_all].
- unfold Random.ret; cbn [fst snd]; split; [constructor | split; [reflexivity | exact Hg]].
- inversion HP as [|a' xs' Pa Pxs]; subst.
  unfold Random.bind, Random.ret.
  destruct (Hbody a g Hg Pa) as [Qa Hg1].
  destruct (body a g) as [b g1]; cbn [fst snd] in Qa, Hg1.
  destruct (IH g1 Hg1 Pxs) as (Qxs & Hlen & Hg2).
  destruct (World.for_all body xs g1) as [bs g2]; cbn [fst snd] in *.
  split; [constructor; assumption | split; [cbn [length]; congruence | exact Hg2]].
Qed.

Lemma enumerate_from_kept {A} (P : A -> Prop) (xs : list A) : forall i,
  Forall P xs ->
  Forall (fun entry => P (snd entry)) (Mesh.enumerate_from i xs) /\
  length (Mesh.enumerate_from i xs) = length xs.
Proof.
induction xs as [|a xs IH]; intros i H; cbn [Mesh.enumerate_from length].
- split; [constructor | reflexivity].
- inversion H as [|a' xs' Pa Pxs]; subst.
  destruct (IH (S i) Pxs) as [F L]; split; [constructor; [exact Pa | exact F] | congruence].
Qed.

(** The controller part of a frame. *)
Lemma control_frame_kept events dt st g :
  Random.unit_samples g -> 0 <= 5 * dt <= 1 ->
  controlled st -> 0 <= Controller.warp_factor st <= 1 ->
  controlled (fst (fst (Controller.frame events dt st g))) /\
  0 <= Controller.warp_factor (fst (fst (Controller.frame events dt st g))) <= 1 /\
  Random.unit_samples (snd (Controller.frame events dt st g)).
Proof.
intros Hg Hdt Hc Hw; unfold Controller.frame.
destruct (Control.update_state_kept dt (Controller.handle_events events st) g Hg)
  as [Hc' Hg']; [lra | apply Control.handle_events_kept, Hc |].
split; [exact Hc'|]; split; [|exact Hg'].
apply Control.update_state_warp; [exact Hdt|].
rewrite Control.handle_events_warp_factor; exact Hw.
Qed.

(** One update of a particle system in the loop. *)
Lemma engine_update_kept dt pp pr cdz s g :
  Random.unit_samples g -> 0 <= dt -> engine_kept s ->
  exists s',
    fst (ParticleSystem.update dt pp pr cdz s g) = Some s' /\ engine_kept s' /\
    Random.unit_samples (snd (ParticleSystem.update dt pp pr cdz s g)).
Proof.
intros Hg Hdt (Hrate & Hlen & Hord & Hown).
destruct (ParticleLife.particle_update_kept dt pp pr cdz s g Hg Hord Hdt Hown) as [Hk Hg'].
pose proof (Particles.update_spec dt pp pr cdz s g) as Hspec; cbv zeta in Hspec.
destruct (fst (ParticleSystem.update dt pp pr cdz s g)) as [s'|]; [|contradiction].
destruct Hk as [Hsame Hall].
destruct Hspec as (_ & Hmax & Hrate' & _ & Hle).
exists s'; split; [reflexivity|]; split; [|exact Hg'].
split; [rewrite Hrate'; exact Hrate|].
split; [|split].
- rewrite Hmax.
  eapply Nat.le_trans; [exact Hle|].
  apply (Particles.emit_loop_bounded _ pp pr (timed dt s) g); exact Hlen.
- eapply ParticleLife.ranges_ordered_same; [exact Hsame | exact Hord].
- eapply Forall_impl; [|exact Hall].
  intros p [_ Hp]; cbv beta.
  eapply ParticleLife.particle_of_ranges; [exact Hsame|].
  eapply ParticleLife.particle_of_younger; [exact Hdt | exact Hp].
Qed.

(** The sort in [ParticleSystem.draw] keeps what the loop needs. *)
Lemma draw_sort_kept s : engine_kept s -> engine_kept (ParticleSystem.draw_sort s).
Proof.
intros (Hrate & Hlen & Hord & Hown).
assert (Hperm : Permutation (ParticleSystem.particles (ParticleSystem.draw_sort s))
                            (ParticleSystem.particles s))
  by apply Compositor.sort_reverse_perm.
assert (Hsame : same_ranges s (ParticleSystem.draw_sort s))
  by (repeat split; reflexivity).
split; [exact Hrate|]; split; [|split].
- rewrite (Permutation_length Hperm); exact Hlen.
- eapply ParticleLife.ranges_ordered_same; [exact Hsame | exact Hord].
- eapply Permutation_Forall; [symmetry; exact Hperm|].
  eapply Forall_impl; [|exact Hown].
  intros p Hp; eapply ParticleLife.particle_of_ranges; [exact Hsame | exact Hp].
Qed.

Lemma object_update_kind dt (objects : list (World.kind * Mesh.t)) :
  map fst (map (World.object_update dt) objects) = map fst objects.
Proof.
rewrite map_map; apply map_ext; intros [[] m]; reflexivity.
Qed.

(** One frame keeps the state of the world, leaves every entity in range
    and does not raise. *)
Lemma frame_kept events dt clock w g :
  Random.unit_samples g -> 0 <= 5 * dt <= 1 -> world_kept w ->
  exists w',
    fst (World.update_phase events dt clock w g) = Some w' /\
    world_kept w' /\ world_in_range w' /\ same_population w w' /\
    Random.unit_samples (snd (World.update_phase events dt clock w g)).
Proof.
intros Hg Hdt (Hc & Hw & Hstars & Hneb & Hleft & Hright).
unfold World.update_phase, Random.bind.
destruct (control_frame_kept events dt (World.control w) g Hg Hdt Hc Hw)
  as (Hc1 & Hw1 & Hg1).
destruct (Controller.frame events dt (World.control w) g) as [[st out] g1].
cbn [fst snd] in Hc1, Hw1, Hg1 |- *.
(* stars *)
destruct (for_all_kept star_kept
            (fun s => star_kept s /\ CAMERA_NEAR_CLIP <= Star.z s <= CAMERA_FAR_CLIP)
            (Star.update (Controller.camera_delta_z out) (Controller.warp_factor st)))
  with (xs := World.stars w) (g := g1) as (Hs2 & Ls2 & Hg2); [|exact Hg1|exact Hstars|].
{ intros s g0 Hg0 Hs.
  destruct (StarLooks.star_update_kept (Controller.camera_delta_z out)
              (Controller.warp_factor st) s g0 Hg0) as (K & _ & U); [lra|exact Hs|].
  destruct (Stars.update6_in_range (Controller.camera_delta_z out)
              (Controller.warp_factor st) s g0 Hg0) as [_ R].
  split; [split; [exact K | exact R] | exact U]. }
destruct (World.for_all _ (World.stars w) g1) as [stars' g2]; cbn [fst snd] in Hs2, Ls2, Hg2.
(* asteroids *)
destruct (for_all_kept (fun _ : Asteroid.t => True)
            (fun a => CAMERA_NEAR_CLIP <= Mesh.z (Asteroid.mesh a)
                        <= CAMERA_FAR_CLIP + WORLD_SIZE)
            (Asteroid.update dt (Controller.camera_delta_z out)))
  with (xs := World.asteroids w) (g := g2) as (Ha3 & La3 & Hg3);
  [|exact Hg2|apply Forall_forall; trivial|].
{ intros a g0 Hg0 _.
  pose proof (Entities.asteroid_update_spec dt (Controller.camera_delta_z out) a g0 Hg0)
    as S; cbv zeta in S.
  destruct S as (U & _ & _ & R & _); split; [exact R | exact U]. }
destruct (World.for_all _ (World.asteroids w) g2) as [asteroids' g3];
  cbn [fst snd] in Ha3, La3, Hg3.
(* nebulae *)
destruct (enumerate_from_kept
            (fun n => (0 <= NebulaBlob.initial_alpha n <= 255)%Z) (World.nebulae w) 0 Hneb)
  as [Hen Len].
destruct (for_all_kept
            (fun entry : nat * NebulaBlob.t =>
               (0 <= NebulaBlob.initial_alpha (snd entry) <= 255)%Z)
            (fun n => (0 <= NebulaBlob.initial_alpha n <= 255)%Z /\
                      (CAMERA_NEAR_CLIP <= NebulaBlob.z n <= CAMERA_FAR_CLIP * 2 /\
                       0 <= NebulaBlob.current_alpha n <= 255))
            (fun '(k, nebula) =>
               NebulaBlob.update (clock k) (Controller.camera_delta_z out)
                 (Controller.warp_factor st) nebula))
  with (xs := Mesh.enumerate (World.nebulae w)) (g := g3) as (Hn4 & Ln4 & Hg4);
  [|exact Hg3|exact Hen|].
{ intros [k n] g0 Hg0 Hn; cbn [snd] in Hn.
  pose proof (Entities.nebula_update_spec (clock k) (Controller.camera_delta_z out)
                (Controller.warp_factor st) n g0 Hg0 Hn) as S; cbv zeta in S.
  destruct S as (U & I & A & R).
  split; [|exact U]. split; [rewrite I; exact Hn|]. split; [exact R | exact A]. }
destruct (World.for_all _ (Mesh.enumerate (World.nebulae w)) g3) as [nebulae' g4];
  cbn [fst snd] in Hn4, Ln4, Hg4.
assert (Hperm : Permutation (Py.sort_reverse NebulaBlob.z nebulae') nebulae')
  by apply Compositor.sort_reverse_perm.
assert (Hn5 : Forall (fun n => (0 <= NebulaBlob.initial_alpha n <= 255)%Z /\
                        (CAMERA_NEAR_CLIP <= NebulaBlob.z n <= CAMERA_FAR_CLIP * 2 /\
                         0 <= NebulaBlob.current_alpha n <= 255))
                     (Py.sort_reverse NebulaBlob.z nebulae'))
  by (eapply Permutation_Forall; [symmetry; exact Hperm | exact Hn4]).
assert (Ln5 : length (Py.sort_reverse NebulaBlob.z nebulae') = length (World.nebulae w)).
{ rewrite (Permutation_length Hperm), Ln4. exact Len. }
assert (Hpop : forall c l r,
  same_population w
    (World.mk c stars' asteroids' (Py.sort_reverse NebulaBlob.z nebulae')
       (map (World.object_update dt) (World.objects w)) l r)).
{ intros c l r; unfold same_population; cbn [World.stars World.asteroids World.nebulae
                                              World.objects].
  repeat split; try assumption. apply object_update_kind. }
assert (Hrange : forall c l r,
  world_in_range
    (World.mk c stars' asteroids' (Py.sort_reverse NebulaBlob.z nebulae')
       (map (World.object_update dt) (World.objects w)) l r)).
{ intros c l r; unfold world_in_range; cbn [World.stars World.asteroids World.nebulae].
  split; [|split].
  - eapply Forall_impl; [|exact Hs2]. intros s [_ R]; exact R.
  - exact Ha3.
  - eapply Forall_impl; [|exact Hn5]. intros n [_ R]; exact R. }
assert (Hkept : forall l r, engine_kept l -> engine_kept r ->
  world_kept
    (World.mk st stars' asteroids' (Py.sort_reverse NebulaBlob.z nebulae')
       (map (World.object_update dt) (World.objects w)) l r)).
{ intros l r Hl Hr; unfold world_kept;
    cbn [World.control World.stars World.nebulae World.engine_left_ps
         World.engine_right_ps].
  split; [exact Hc1|]; split; [exact Hw1|]; split; [|split; [|split; assumption]].
  - eapply Forall_impl; [|exact Hs2]. intros s [K _]; exact K.
  - eapply Forall_impl; [|exact Hn5]. intros n [I _]; exact I. }
destruct (World.find_ship (map (World.object_update dt) (World.objects w))) as [ship|].
- destruct (engine_update_kept dt (Mesh.x ship, Mesh.y ship, Mesh.z ship)
              (Mesh.angle_x ship, Mesh.angle_y ship, Mesh.angle_z ship)
              (Controller.camera_delta_z out) (World.engine_left_ps w) g4 Hg4)
    as (l' & El & Hl' & Hg5); [lra | exact Hleft |].
  destruct (ParticleSystem.update dt _ _ _ (World.engine_left_ps w) g4) as [ol g5].
  cbn [fst snd] in El, Hg5; subst ol.
  destruct (engine_update_kept dt (Mesh.x ship, Mesh.y ship, Mesh.z ship)
              (Mesh.angle_x ship, Mesh.angle_y ship, Mesh.angle_z ship)
              (Controller.camera_delta_z out) (World.engine_right_ps w) g5 Hg5)
    as (r' & Er & Hr' & Hg6); [lra | exact Hright |].
  destruct (ParticleSystem.update dt _ _ _ (World.engine_right_ps w) g5) as [or g6].
  cbn [fst snd] in Er, Hg6; subst or.
  unfold Random.ret; cbn [fst snd].
  eexists; split; [reflexivity|].
  split; [apply Hkept; apply draw_sort_kept; assumption|].
  split; [apply Hrange|]. split; [apply Hpop | exact Hg6].
- unfold Random.ret; cbn [fst snd].
  eexists; split; [reflexivity|].
  split; [apply Hkept; apply draw_sort_kept; assumption|].
  split; [apply Hrange|]. split; [apply Hpop | exact Hg4].
Qed.

Lemma same_population_refl w : same_population w w.
Proof. repeat split; reflexivity. Qed.

Lemma same_population_trans w1 w2 w3 :
  same_population w1 w2 -> same_population w2 w3 -> same_population w1 w3.
Proof. intros (A & B & C & D) (A' & B' & C' & D'); repeat split; congruence. Qed.

Lemma run_kept inputs : forall w g,
  Random.unit_samples g ->
  Forall (fun input => 0 <= 5 * snd (fst input) <= 1) inputs ->
  world_kept w ->
  exists w',
    fst (World.update_phases inputs w g) = Some w' /\ world_kept w' /\ same_population w w' /\
    (world_in_range w \/ (inputs <> [] /\ Controller.running (World.control w) = true) ->
     world_in_range w').
Proof.
induction inputs as [|[[events dt] clock] inputs IH]; intros w g Hg Hdt Hw;
  cbn [World.update_phases].
- exists w; unfold Random.ret; cbn [fst].
  split; [reflexivity|]; split; [exact Hw|]; split; [apply same_population_refl|].
  intros [R|[N _]]; [exact R | contradiction].
- inversion Hdt as [|i rest Hd Hrest]; subst; cbn [fst snd] in Hd.
  destruct (Controller.running (World.control w)) eqn:Erun.
  + unfold Random.bind.
    destruct (frame_kept events dt clock w g Hg Hd Hw) as (w1 & E1 & K1 & R1 & P1 & Hg1).
    destruct (World.update_phase events dt clock w g) as [o g1]; cbn [fst snd] in E1, Hg1; subst o.
    destruct (IH w1 g1 Hg1 Hrest K1) as (w' & E' & K' & P' & R').
    exists w'; split; [exact E'|]; split; [exact K'|].
    split; [eapply same_population_trans; eassumption|].
    intros _; apply R'; left; exact R1.
  + exists w; unfold Random.ret; cbn [fst].
    split; [reflexivity|]; split; [exact Hw|]; split; [apply same_population_refl|].
    intros [R|[_ F]]; [exact R | discriminate].
Qed.

Lemma engines_kept :
  engine_kept Square6.engine_left_ps /\ engine_kept Square6.engine_right_ps.
Proof.
split; (split; [unfold engine_left_ps, engine_right_ps, ParticleSystem.init;
                cbn [ParticleSystem.emission_rate]; lra|];
        split; [cbn; lia|]; split; [unfold ranges_ordered; simpl; lra | constructor]).
Qed.

Lemma scene_kept stars asteroids nebulae now :
  Forall star_kept stars ->
  Forall (fun n => (0 <= NebulaBlob.initial_alpha n <= 255)%Z) nebulae ->
  world_kept (World.scene stars asteroids nebulae now).
Proof.
intros Hs Hn; unfold world_kept, World.scene;
  cbn [World.control World.stars World.nebulae World.engine_left_ps World.engine_right_ps].
split; [apply Control.initial_controlled|].
split; [unfold Controller.initial; cbn [Controller.warp_factor]; lra|].
split; [exact Hs|]; split; [exact Hn|]; apply engines_kept.
Qed.

(** Drawing from the source moves its cursor and leaves the samples. *)
Lemma bind_unit {A B} (P : A -> Prop) (Q : B -> Prop) (m : Random.M A)
    (k : A -> Random.M B) g :
  P (fst (m g)) /\ Random.unit_samples (snd (m g)) ->
  (forall a g', P a -> Random.unit_samples g' ->
     Q (fst (k a g')) /\ Random.unit_samples (snd (k a g'))) ->
  Q (fst ((a <- m ;; k a) g)) /\ Random.unit_samples (snd ((a <- m ;; k a) g)).
Proof.
intros [Hp Hg] Hk; unfold Random.bind.
destruct (m g) as [a g']; cbn [fst snd] in Hp, Hg; apply Hk; assumption.
Qed.

Lemma random_unit g :
  Random.unit_samples g ->
  0 <= fst (Random.random g) < 1 /\ Random.unit_samples (snd (Random.random g)).
Proof. intros Hg; split; [apply Hg | exact Hg]. Qed.

Lemma uniform_unit a b g :
  Random.unit_samples g -> a <= b ->
  a <= fst (Random.uniform a b g) <= b /\
  Random.unit_samples (snd (Random.uniform a b g)).
Proof. intros Hg Hab; apply RandomFacts.uniform_range; assumption. Qed.

Lemma randint_unit a b g :
  Random.unit_samples g -> (a <= b)%Z ->
  (a <= fst (Random.randint a b g) <= b)%Z /\
  Random.unit_samples (snd (Random.randint a b g)).
Proof.
intros Hg Hab; unfold Random.randint.
apply (bind_unit (fun u => 0 <= u < 1) (fun n => (a <= n <= b)%Z)); [apply random_unit, Hg|].
intros u g' Hu Hg'; unfold Random.ret; cbn [fst snd]; split; [|exact Hg'].
assert (Hn : 0 < IZR (b - a + 1)) by (apply IZR_lt; lia).
assert (H0 : 0 <= u * IZR (b - a + 1)) by (apply Rmult_le_pos; lra).
pose proof (PyFacts.int_nonneg_pos _ H0) as I0.
pose proof (PyFacts.int_nonneg _ H0) as [I1 _].
assert (Hu1 : u * IZR (b - a + 1) < 1 * IZR (b - a + 1))
  by (apply Rmult_lt_compat_r; lra).
assert (I2 : IZR (Py.int (u * IZR (b - a + 1))) < IZR (b - a + 1)) by lra.
apply lt_IZR in I2; lia.
Qed.

(** [Star()] builds a star in its resting state. *)
Lemma star_init_kept g :
  Random.unit_samples g ->
  star_kept (fst (Star.init g)) /\ Random.unit_samples (snd (Star.init g)).
Proof.
intros Hg; unfold Star.init.
apply (bind_unit (fun s => MIN_STAR_SIZE <= s <= MAX_STAR_SIZE) star_kept);
  [apply uniform_unit; [exact Hg | unfold MIN_STAR_SIZE, MAX_STAR_SIZE; lra]|].
intros initial_size g1 Hsize Hg1.
apply (bind_unit (fun _ : colour => True) star_kept); [split; [exact I | exact Hg1]|].
intros base_color g2 _ Hg2; unfold Star.reset; cbn [Star.initial_size Star.base_color].
apply (bind_unit (fun x => - WORLD_SIZE <= x <= WORLD_SIZE) star_kept);
  [apply uniform_unit; [exact Hg2 | unfold WORLD_SIZE; lra]|].
intros x g3 Hx Hg3.
apply (bind_unit (fun y => - WORLD_SIZE <= y <= WORLD_SIZE) star_kept);
  [apply uniform_unit; [exact Hg3 | unfold WORLD_SIZE; lra]|].
intros y g4 Hy Hg4.
apply (bind_unit (fun _ : R => True) star_kept);
  [split; [exact I | apply uniform_unit;
     [exact Hg4 | unfold CAMERA_DEFAULT_Z, CAMERA_FAR_CLIP; lra]]|].
intros z g5 _ Hg5; unfold Random.ret; cbn [fst snd]; split; [|exact Hg5].
unfold star_kept;
  cbn [Star.x Star.y Star.trail_alpha Star.trail_length Star.initial_size Star.size].
unfold MIN_STAR_SIZE, MAX_STAR_SIZE in *; repeat split; lra.
Qed.

(** [NebulaBlob()] draws an initial alpha between 30 and 80. *)
Lemma nebula_init_kept g :
  Random.unit_samples g ->
  (0 <= NebulaBlob.initial_alpha (fst (NebulaBlob.init g)) <= 255)%Z /\
  Random.unit_samples (snd (NebulaBlob.init g)).
Proof.
intros Hg; unfold NebulaBlob.init, NebulaBlob.reset.
apply (bind_unit (fun _ : NebulaBlob.t => True)
         (fun n => (0 <= NebulaBlob.initial_alpha n <= 255)%Z)).
{ apply (bind_unit (fun _ : R => True) (fun _ : NebulaBlob.t => True));
    [split; [exact I | apply uniform_unit; [exact Hg | unfold WORLD_SIZE; lra]]|].
  intros x g1 _ Hg1.
  apply (bind_unit (fun _ : R => True) (fun _ : NebulaBlob.t => True));
    [split; [exact I | apply uniform_unit; [exact Hg1 | unfold WORLD_SIZE; lra]]|].
  intros y g2 _ Hg2.
  apply (bind_unit (fun _ : R => True) (fun _ : NebulaBlob.t => True));
    [split; [exact I | apply uniform_unit; [exact Hg2 | unfold CAMERA_FAR_CLIP; lra]]|].
  intros z g3 _ Hg3; split; [exact I | exact Hg3]. }
intros self g1 _ Hg1.
apply (bind_unit (fun _ : colour => True)
         (fun n => (0 <= NebulaBlob.initial_alpha n <= 255)%Z));
  [split; [exact I | exact Hg1]|].
intros color g2 _ Hg2.
apply (bind_unit (fun a => (30 <= a <= 80)%Z)
         (fun n => (0 <= NebulaBlob.initial_alpha n <= 255)%Z));
  [apply randint_unit; [exact Hg2 | lia]|].
intros alpha g3 Ha Hg3.
apply (bind_unit (fun _ : R => True)
         (fun n => (0 <= NebulaBlob.initial_alpha n <= 255)%Z));
  [split; [exact I | apply uniform_unit; [exact Hg3 | lra]]|].
intros fade g4 _ Hg4.
apply (bind_unit (fun _ : R => True)
         (fun n => (0 <= NebulaBlob.initial_alpha n <= 255)%Z));
  [split; [exact I | apply uniform_unit; [exact Hg4 | lra]]|].
intros size g5 _ Hg5; unfold Random.ret; cbn [fst snd NebulaBlob.initial_alpha].
split; [lia | exact Hg5].
Qed.

Lemma random_vertices_unit n : forall vertices g,
  Random.unit_samples g ->
  Random.unit_samples (snd (Asteroid.random_vertices n vertices g)).
Proof.
induction n as [|n IH]; intros vertices g Hg; cbn [Asteroid.random_vertices].
- exact Hg.
- apply (bind_unit (fun _ : R => True) (fun _ : list point3 => True));
    [split; [exact I | apply uniform_unit; [exact Hg | lra]]|].
  intros v0 g1 _ Hg1.
  apply (bind_unit (fun _ : R => True) (fun _ : list point3 => True));
    [split; [exact I | apply uniform_unit; [exact Hg1 | lra]]|].
  intros v1 g2 _ Hg2.
  apply (bind_unit (fun _ : R => True) (fun _ : list point3 => True));
    [split; [exact I | apply uniform_unit; [exact Hg2 | lra]]|].
  intros v2 g3 _ Hg3; split; [exact I | apply IH, Hg3].
Qed.

Lemma build_asteroid_unit g :
  Random.unit_samples g -> Random.unit_samples (snd (World.build_asteroid g)).
Proof.
intros Hg; unfold World.build_asteroid.
apply (bind_unit (fun _ : R => True) (fun _ : Asteroid.t => True));
  [split; [exact I | apply uniform_unit; [exact Hg | unfold WORLD_SIZE; lra]]|].
intros px g1 _ Hg1.
apply (bind_unit (fun _ : R => True) (fun _ : Asteroid.t => True));
  [split; [exact I | apply uniform_unit; [exact Hg1 | unfold WORLD_SIZE; lra]]|].
intros py g2 _ Hg2.
apply (bind_unit (fun _ : R => True) (fun _ : Asteroid.t => True));
  [split; [exact I | apply uniform_unit;
     [exact Hg2 | unfold CAMERA_DEFAULT_Z, CAMERA_FAR_CLIP; lra]]|].
intros pz g3 _ Hg3.
apply (bind_unit (fun _ : R => True) (fun _ : Asteroid.t => True));
  [split; [exact I | apply uniform_unit; [exact Hg3 | lra]]|].
intros size g4 _ Hg4; unfold Asteroid.new.
apply (bind_unit (fun _ : Z => True) (fun _ : Asteroid.t => True));
  [split; [exact I | apply randint_unit; [exact Hg4 | lia]]|].
intros num_verts g5 _ Hg5; unfold Asteroid.init.
apply (bind_unit (fun _ : list point3 => True) (fun _ : Asteroid.t => True));
  [split; [exact I | apply random_vertices_unit, Hg5]|].
intros vertices g6 _ Hg6.
apply (bind_unit (fun _ : R => True) (fun _ : Asteroid.t => True));
  [split; [exact I | apply uniform_unit; [exact Hg6 | lra]]|].
intros rx g7 _ Hg7.
apply (bind_unit (fun _ : R => True) (fun _ : Asteroid.t => True));
  [split; [exact I | apply uniform_unit; [exact Hg7 | lra]]|].
intros ry g8 _ Hg8.
apply (bind_unit (fun _ : R => True) (fun _ : Asteroid.t => True));
  [split; [exact I | apply uniform_unit; [exact Hg8 | lra]]|].
intros rz g9 _ Hg9; split; [exact I | exact Hg9].
Qed.

Lemma repeat_call_kept {A} (Q : A -> Prop) (f : Random.M A) n g :
  (forall g', Random.unit_samples g' ->
     Q (fst (f g')) /\ Random.unit_samples (snd (f g'))) ->
  Random.unit_samples g ->
  Forall Q (fst (World.repeat_call n f g)) /\
  length (fst (World.repeat_call n f g)) = n /\
  Random.unit_samples (snd (World.repeat_call n f g)).
Proof.
intros Hf Hg; unfold World.repeat_call.
destruct (for_all_kept (fun _ : nat => True) Q (fun _ => f)) with (xs := seq 0 n) (g := g)
  as (F & L & U); [intros _ g' Hg' _; apply Hf, Hg' | exact Hg | apply Forall_forall; trivial|].
rewrite length_seq in L; split; [exact F|]; split; [exact L | exact U].
Qed.

(** The state with which [main] enters the loop is one that the loop
    keeps. *)
Lemma build_kept now g :
  Random.unit_samples g ->
  world_kept (fst (World.build now g)) /\
  length (World.stars (fst (World.build now g))) = NUM_STARS /\
  length (World.asteroids (fst (World.build now g))) = NUM_ASTEROIDS /\
  length (World.nebulae (fst (World.build now g))) = NUM_NEBULA_BLOBS /\
  map fst (World.objects (fst (World.build now g)))
    = [World.CubeObject; World.PyramidObject; World.ShipObject] /\
  Controller.running (World.control (fst (World.build now g))) = true /\
  Random.unit_samples (snd (World.build now g)).
Proof.
intros Hg; unfold World.build, Random.bind.
destruct (repeat_call_kept star_kept Star.init NUM_STARS g star_init_kept Hg)
  as (Fs & Ls & Hg1).
destruct (World.repeat_call NUM_STARS Star.init g) as [stars g1]; cbn [fst snd] in *.
destruct (repeat_call_kept (fun _ : Asteroid.t => True) World.build_asteroid
            NUM_ASTEROIDS g1) as (_ & La & Hg2);
  [intros g' Hg'; split; [exact I | apply build_asteroid_unit, Hg'] | exact Hg1|].
destruct (World.repeat_call NUM_ASTEROIDS World.build_asteroid g1) as [asteroids g2];
  cbn [fst snd] in *.
destruct (repeat_call_kept (fun n => (0 <= NebulaBlob.initial_alpha n <= 255)%Z)
            NebulaBlob.init NUM_NEBULA_BLOBS g2 nebula_init_kept Hg2) as (Fn & Ln & Hg3).
destruct (World.repeat_call NUM_NEBULA_BLOBS NebulaBlob.init g2) as [nebulae g3];
  cbn [fst snd] in *.
unfold Random.ret; cbn [fst snd].
split; [apply scene_kept; assumption|].
split; [exact Ls|]; split; [exact La|]; split; [exact Ln|].
split; [reflexivity|]; split; [reflexivity | exact Hg3].
Qed.

(** X27.  The state that the frame loop of square6.py carries from frame
    to frame.  From the scene as [main] constructs it, with the stars,
    asteroids and nebulae that their constructors build, and for any inputs
    whose frames are at most 0.2 s long, none of the updates in the loop
    body raises, and after every frame the controller is inside its bounds,
    the warp factor is in [[0, 1]], every star has its trail, alpha and
    size in range, both engine trails are within their particle limit and
    hold particles of their own ranges, and there are still 700 stars, 10
    asteroids, 5 nebulae and the three objects; once a frame has run,
    every star, asteroid and nebula is at a depth inside its range.  The
    drawing code enters only through the two sorts that reorder the lists
    in place. *)
Theorem main_loop_kept :
  forall inputs now g,
    Random.unit_samples g ->
    Forall (fun input => 0 <= 5 * snd (fst input) <= 1) inputs ->
    exists w',
      fst (World.update_phases inputs (fst (World.build now g)) (snd (World.build now g)))
        = Some w' /\
      world_kept w' /\
      length (World.stars w') = NUM_STARS /\
      length (World.asteroids w') = NUM_ASTEROIDS /\
      length (World.nebulae w') = NUM_NEBULA_BLOBS /\
      map fst (World.objects w')
        = [World.CubeObject; World.PyramidObject; World.ShipObject] /\
      (inputs <> [] -> world_in_range w').
Proof.
intros inputs now g Hg Hdt.
destruct (build_kept now g Hg) as (K & Ls & La & Ln & Lo & Hrun & Hg').
destruct (run_kept inputs (fst (World.build now g)) (snd (World.build now g)) Hg' Hdt K)
  as (w' & E & K' & (Ps & Pa & Pn & Po) & R).
exists w'; split; [exact E|]; split; [exact K'|].
split; [congruence|]; split; [congruence|]; split; [congruence|]; split; [congruence|].
intros Hne; apply R; right; split; [exact Hne | exact Hrun].
Qed.

Lemma main_loop_kept_witness :
  exists w',
    fst (World.update_phases
           [([Controller.KEYDOWN Controller.K_e], 0.02, fun _ => 0);
            ([Controller.KEYDOWN Controller.K_w], 0.1, fun _ => 1)]
           (fst (World.build (fun _ => 0) (Random.constant (3/4))))
           (snd (World.build (fun _ => 0) (Random.constant (3/4))))) = Some w' /\
    world_kept w' /\
    length (World.stars w') = NUM_STARS /\
    length (World.asteroids w') = NUM_ASTEROIDS /\
    length (World.nebulae w') = NUM_NEBULA_BLOBS /\
    map fst (World.objects w')
      = [World.CubeObject; World.PyramidObject; World.ShipObject] /\
    ([([Controller.KEYDOWN Controller.K_e], 0.02, fun _ : nat => 0);
      ([Controller.KEYDOWN Controller.K_w], 0.1, fun _ : nat => 1)] <> [] ->
     world_in_range w').
Proof.
apply (main_loop_kept
         [([Controller.KEYDOWN Controller.K_e], 0.02, fun _ => 0);
          ([Controller.KEYDOWN Controller.K_w], 0.1, fun _ => 1)]
         (fun _ => 0) (Random.constant (3/4))).
- apply RandomFacts.constant_unit; lra.
- repeat constructor; simpl; lra.
Defined.

(** X28.  The ring around the crosshair always fits its surface: in every
    state that the controller reaches from its initial state with frame
    times [dt >= 0], the ring is drawn exactly when the speed is positive,
    and then with a radius in [[10, 30]] and an alpha in [[0, 200]] that the
    clamp to [[0, 255]] leaves alone. *)
Theorem crosshair_ring_in_range :
  forall inputs g,
    Random.unit_samples g ->
    Forall (fun input => 0 <= snd input) inputs ->
    let speed := Controller.current_speed (fst (Controller.frames inputs Controller.initial g)) in
    match World.crosshair_ring speed with
    | Some (ring_radius, alpha) =>
        0 < speed /\ (10 <= ring_radius <= 30)%Z /\ (0 <= alpha <= 200)%Z /\
        alpha = Py.int (lerp 0 200 (speed / Controller.max_speed_warp))
    | None => speed <= 0
    end.
Proof.
intros inputs g Hg Hdt speed.
assert (Hs : speed <= 1500).
{ destruct (Control.frames_kept inputs Controller.initial g Hg Hdt
              Control.initial_controlled) as ((_ & H) & _).
  unfold Controller.max_speed_warp in H; exact H. }
clearbody speed; unfold World.crosshair_ring, lerp, Controller.max_speed_warp.
destruct (Py.gtb speed 0) eqn:E.
- apply PyFacts.gtb_true in E.
  assert (Hr : 10 <= 10 + (30 - 10) * (speed / 1500) <= 30) by lra.
  assert (Ha : 0 <= 0 + (200 - 0) * (speed / 1500) <= 200) by lra.
  pose proof (PyFacts.int_nonneg _ (proj1 Ha)) as Ia.
  pose proof (PyFacts.int_nonneg (10 + (30 - 10) * (speed / 1500))) as Ir.
  assert (Ir' := Ir ltac:(lra)).
  assert (R1 : (10 <= Py.int (10 + (30 - 10) * (speed / 1500)))%Z)
    by (apply Z.lt_succ_r, lt_IZR; rewrite succ_IZR; lra).
  assert (R2 : (Py.int (10 + (30 - 10) * (speed / 1500)) <= 30)%Z) by (apply le_IZR; lra).
  assert (A1 : (0 <= Py.int (0 + (200 - 0) * (speed / 1500)))%Z)
    by (apply PyFacts.int_nonneg_pos; lra).
  assert (A2 : (Py.int (0 + (200 - 0) * (speed / 1500)) <= 200)%Z) by (apply le_IZR; lra).
  repeat split; try lra; try lia.
- apply PyFacts.gtb_false in E; exact E.
Qed.

Lemma crosshair_ring_in_range_witness :
  let speed := Controller.current_speed
                 (fst (Controller.frames [([Controller.KEYDOWN Controller.K_w], 0.5)]
                         Controller.initial (Random.constant (3/4)))) in
  match World.crosshair_ring speed with
  | Some (ring_radius, alpha) =>
      0 < speed /\ (10 <= ring_radius <= 30)%Z /\ (0 <= alpha <= 200)%Z /\
      alpha = Py.int (lerp 0 200 (speed / Controller.max_speed_warp))
  | None => speed <= 0
  end.
Proof.
apply (crosshair_ring_in_range [([Controller.KEYDOWN Controller.K_w], 0.5)]
         (Random.constant (3/4))).
- apply RandomFacts.constant_unit; lra.
- repeat constructor; simpl; lra.
Defined.

End MainLoop.

(** ** The ground grid of square4.py *)

Module Grid.

Import Square4Scene.

Lemma in_range a b j : In j (range a b) -> (a <= j < b)%Z.
Proof.
unfold range; intros H; apply in_map_iff in H as (n & <- & Hn).
apply in_seq in Hn; lia.
Qed.

(** A loop whose body never raises returns, and its result has what every
    part has. *)
Lemma for_each_defined {A B} (Q : B -> Prop) (body : A -> option (list B)) (xs : list A) :
  (forall a, In a xs -> exists bs, body a = Some bs /\ Forall Q bs) ->
  exists r, Mesh.for_each body xs = Some r /\ Forall Q r.
Proof.
induction xs as [|a xs IH]; intros H; cbn [Mesh.for_each].
- exists []; split; [reflexivity | constructor].
- destruct (H a (or_introl eq_refl)) as (bs & -> & Qbs).
  destruct IH as (r & -> & Qr); [intros a' Ha'; apply H; right; exact Ha'|].
  exists (bs ++ r); split; [reflexivity | apply Forall_app; split; assumption].
Qed.

(** When every pass adds [n] elements, the result has [n] per pass. *)
Lemma for_each_exact {A B} (n : nat) (body : A -> option (list B)) (xs : list A) :
  (forall a, In a xs -> exists bs, body a = Some bs /\ length bs = n) ->
  exists r, Mesh.for_each body xs = Some r /\ length r = (n * length xs)%nat.
Proof.
induction xs as [|a xs IH]; intros H; cbn [Mesh.for_each].
- exists []; split; [reflexivity | cbn; lia].
- destruct (H a (or_introl eq_refl)) as (bs & -> & Lbs).
  destruct IH as (r & -> & Lr); [intros a' Ha'; apply H; right; exact Ha'|].
  exists (bs ++ r); split; [reflexivity | rewrite length_app; cbn [length]; lia].
Qed.

(** The height of a horizontal line: never a division by zero, and always
    in the 50 pixels below the horizon. *)
Lemma y_proj_range horizon_y j :
  (0 <= j)%Z ->
  exists y, y_proj horizon_y j = Some y /\ IZR horizon_y <= y < IZR horizon_y + 50.
Proof.
intros Hj; unfold y_proj, perspective_offset, spacing.
apply IZR_le in Hj.
rewrite plus_IZR, !mult_IZR.
set (J := IZR j) in *.
assert (Hd : 0 < 200 + J * 40 * 2 + 0.001) by lra.
destruct (Req_dec_T _ _) as [E|_]; [exfalso; lra|].
eexists; split; [reflexivity|].
set (d := 200 + J * 40 * 2 + 0.001) in *.
assert (Ht : 0 < / d) by (apply Rinv_0_lt_compat, Hd).
assert (Hdt : d * / d = 1) by (apply Rinv_r; lra).
unfold Rdiv; set (t := / d) in *.
assert (E : 200.001 * t + 80 * (J * t) = 1) by (unfold d in Hdt; lra).
assert (HJt : 0 <= J * t) by (apply Rmult_le_pos; lra).
assert (X : J * 40 * 0.5 * (200 * t) = 4000 * (J * t)) by nra.
rewrite X; lra.
Qed.

Lemma horizontal_line_spec horizon_y j :
  (0 <= j)%Z ->
  exists ls,
    horizontal_line horizon_y j = Some ls /\
    Forall (fun l => valid_colour (line_color l)) ls /\
    (IZR horizon_y + 50 <= IZR Square4.HEIGHT -> length ls = 1%nat) /\
    (IZR Square4.HEIGHT <= IZR horizon_y -> length ls = 0%nat).
Proof.
intros Hj; unfold horizontal_line.
destruct (y_proj_range horizon_y j Hj) as (y & -> & Hy).
destruct (Py.ltb y (IZR Square4.HEIGHT)) eqn:E.
- apply PyFacts.ltb_true in E.
  eexists; split; [reflexivity|]; split; [|split].
  + constructor; [|constructor]. unfold valid_colour; cbn [line_color]. lia.
  + reflexivity.
  + intros H; exfalso; lra.
- apply PyFacts.ltb_false in E.
  eexists; split; [reflexivity|]; split; [constructor|]; split.
  + intros H; exfalso; lra.
  + reflexivity.
Qed.

Lemma int_three_halves (k : Z) : (0 <= k)%Z -> (0 <= Py.int (IZR k * 1.5))%Z.
Proof. intros H; apply IZR_le in H; apply PyFacts.int_nonneg_pos; lra. Qed.

Lemma grid_column_spec horizon_y i :
  exists ls,
    grid_column horizon_y i = Some ls /\
    Forall (fun l => valid_colour (line_color l)) ls /\
    (IZR horizon_y + 50 <= IZR Square4.HEIGHT -> length ls = 32%nat) /\
    (IZR Square4.HEIGHT <= IZR horizon_y -> length ls = 1%nat).
Proof.
unfold grid_column.
destruct (for_each_defined (fun l => valid_colour (line_color l))
            (horizontal_line horizon_y) (range 0 (num_lines + 1))) as (hs & E & Qhs).
{ intros j Hj; apply in_range in Hj.
  destruct (horizontal_line_spec horizon_y j) as (ls & Els & Q & _); [lia|].
  exists ls; split; assumption. }
rewrite E.
eexists; split; [reflexivity|]; split; [|split].
- apply Forall_app; split; [exact Qhs|].
  constructor; [|constructor]. unfold valid_colour; cbn [line_color].
  pose proof (int_three_halves (Z.abs i) (Z.abs_nonneg i)). lia.
- intros H.
  destruct (for_each_exact 1 (horizontal_line horizon_y) (range 0 (num_lines + 1)))
    as (hs' & E' & L).
  { intros j Hj; apply in_range in Hj.
    destruct (horizontal_line_spec horizon_y j) as (ls & Els & _ & C & _); [lia|].
    exists ls; split; [exact Els | exact (C H)]. }
  rewrite E in E'; injection E' as <-.
  rewrite length_app, L; reflexivity.
- intros H.
  destruct (for_each_exact 0 (horizontal_line horizon_y) (range 0 (num_lines + 1)))
    as (hs' & E' & L).
  { intros j Hj; apply in_range in Hj.
    destruct (horizontal_line_spec horizon_y j) as (ls & Els & _ & _ & C); [lia|].
    exists ls; split; [exact Els | exact (C H)]. }
  rewrite E in E'; injection E' as <-.
  rewrite length_app, L; reflexivity.
Qed.

(** X29.  [draw_ground_plane] of square4.py never divides by zero and hands
    [pygame] only colours with channels in [[0, 255]].  Every horizontal
    line lies in the 50 pixels below the horizon, so with a camera offset
    of at most 250 each of the 61 passes of the outer loop draws all 31
    horizontal lines again and then its vertical line, 1952 lines in all,
    and with an offset of 300 or more only the 61 vertical lines are
    drawn. *)
Theorem ground_grid_drawn :
  forall camera_y_offset,
    exists lines,
      draw_ground_plane camera_y_offset = Some lines /\
      Forall (fun l => valid_colour (line_color l)) lines /\
      (forall j, (0 <= j)%Z ->
         exists y, y_proj (Square4.HEIGHT / 2 + camera_y_offset) j = Some y /\
                   IZR (Square4.HEIGHT / 2 + camera_y_offset) <= y
                     < IZR (Square4.HEIGHT / 2 + camera_y_offset) + 50) /\
      ((camera_y_offset <= 250)%Z -> length lines = 1952%nat) /\
      ((300 <= camera_y_offset)%Z -> length lines = 61%nat).
Proof.
intros c; unfold draw_ground_plane.
set (h := (Square4.HEIGHT / 2 + c)%Z).
assert (Hh : IZR h = 300 + IZR c)
  by (unfold h, Square4.HEIGHT; rewrite plus_IZR; change (600 / 2)%Z with 300%Z; lra).
destruct (for_each_defined (fun l => valid_colour (line_color l))
            (grid_column h) (range (- num_lines) (num_lines + 1))) as (ls & E & Q).
{ intros i _; destruct (grid_column_spec h i) as (l & El & Ql & _).
  exists l; split; assumption. }
exists ls; split; [exact E|]; split; [exact Q|]; split; [|split].
- intros j Hj; apply y_proj_range, Hj.
- intros Hc; apply IZR_le in Hc.
  destruct (for_each_exact 32 (grid_column h) (range (- num_lines) (num_lines + 1)))
    as (ls' & E' & L).
  { intros i _; destruct (grid_column_spec h i) as (l & El & _ & C & _).
    exists l; split; [exact El|]. apply C. unfold Square4.HEIGHT. lra. }
  rewrite E in E'; injection E' as <-. rewrite L; reflexivity.
- intros Hc; apply IZR_le in Hc.
  destruct (for_each_exact 1 (grid_column h) (range (- num_lines) (num_lines + 1)))
    as (ls' & E' & L).
  { intros i _; destruct (grid_column_spec h i) as (l & El & _ & _ & C).
    exists l; split; [exact El|]. apply C. unfold Square4.HEIGHT. lra. }
  rewrite E in E'; injection E' as <-. rewrite L; reflexivity.
Qed.

Lemma ground_grid_drawn_witness :
  exists lines,
    draw_ground_plane 0 = Some lines /\ length lines = 1952%nat.
Proof.
destruct (ground_grid_drawn 0) as (lines & E & _ & _ & C & _).
exists lines; split; [exact E | apply C; lia].
Defined.

End Grid.

(** ** Rounding at the boundaries *)

Module Rounding.

#[local] Set Warnings "-inexact-float".

(** In binary64 the star of square.py at the depth nearest to 200.001 is
    not at a zero divisor: the sum is about [-4.8e-15] and the star is
    drawn with a factor of about [-4e16].  The divisor of square4.py is
    zero at a depth that is not [camera_z + 0.001] in exact arithmetic. *)
Lemma divisor_in_binary64 :
  PrimFloat.eqb (Binary64.star_divisor 200.001) 0 = false /\
  PrimFloat.ltb (PrimFloat.abs (Binary64.star_divisor 200.001)) 1e-14 = true /\
  PrimFloat.ltb (200 / Binary64.star_divisor 200.001)%float (-1e16) = true /\
  PrimFloat.eqb (Binary64.project_point_divisor 200 200.001) 0 = false /\
  PrimFloat.eqb (Binary64.project_point_divisor 1e-30 0.001) 0 = true.
Proof. vm_compute; repeat split. Qed.

(** In binary64 the accumulator is not kept below one emission period:
    at 100 particles per second a frame of 0.58 s has the product
    57.99999999999999, so 57 particles are asked for and more than 1/100 s
    is carried on; over the reals the product is 58 and nothing is left. *)
Lemma emission_rounds_below :
  fst (Binary64.accumulate 0 0.58 100) = 57%Z /\
  PrimFloat.ltb (1 / 100)%float (snd (Binary64.accumulate 0 0.58 100)) = true /\
  Square6.ParticleSystem.particles_to_emit 0.58
    (Square6.ParticleSystem.init (0, 0, 0) 500 (255, 120, 0)%Z (1, 4)
       (-10, 10, -10, 10, 50, 100) (0.5, 1.5) 100) = 58%Z.
Proof.
split; [vm_compute; reflexivity|]; split; [vm_compute; reflexivity|].
unfold Square6.ParticleSystem.particles_to_emit, Square6.ParticleSystem.init;
  cbn [Square6.ParticleSystem.time_since_last_emission
       Square6.ParticleSystem.emission_rate].
replace ((0 + 0.58) * 100) with (IZR 58) by lra.
apply PyFacts.int_IZR; lia.
Qed.

End Rounding.
